(** * finance-py: the Google Finance price-feed decoder ([main.py])

    A shallow embedding of [parse_raw_stock] and of the library calls it makes,
    followed by the properties of the decoder.

    Conventions of the embedding.
    - A Python [str] is a list of Unicode code points ([N]).  String literals
      of the source are written [lit "..."].
    - A Python exception is the [Raise] case of [result]; the constructor of
      [exn] names the exception class.  Statement order, and the evaluation
      order of the operands of an expression, decide which exception is
      raised first and are kept as in the source.
    - A local variable that may be unbound ([header_len], [columns],
      [last_time]) and a key that may be missing from the [metadata] dict
      ([tick], [sessions], [timezone]) is an [option].
    - The library calls are modelled as CPython 3.11 on Linux runs them:
      [int(...)] reads the decimal digits of Unicode 14.0 and keeps the
      default limit of 4300 digits. *)

From Stdlib Require Import List ZArith NArith Lia Bool String Ascii Sorted.
Import ListNotations.

Local Open Scope Z_scope.

(** ** Exceptions and the error monad *)

Inductive exn : Type :=
| IndexError          (* lines[0] of an empty list *)
| UnboundLocalError   (* a local variable read before assignment *)
| KeyError            (* a missing dict key, a missing column label *)
| ValueError          (* int() of a malformed literal, a field out of range,
                         column labels that do not match the rows *)
| OverflowError       (* a date, duration or C integer out of range *)
| OSError             (* a timestamp the C library does not convert *)
| TypeError           (* str + a value that is not a str *)
| UnicodeEncodeError. (* a code point with no UTF-8 encoding *)

Inductive result (A : Type) : Type :=
| Ok (a : A)
| Raise (e : exn).
Arguments Ok {A} a.
Arguments Raise {A} e.

Definition bind {A B} (r : result A) (k : A -> result B) : result B :=
  match r with
  | Ok a => k a
  | Raise e => Raise e
  end.

Declare Scope py_scope.
Delimit Scope py_scope with py.
Notation "x <- c ;; k" := (bind c (fun x => k))
  (at level 61, c at next level, right associativity) : py_scope.
Notation "' p <- c ;; k" := (bind c (fun x => match x with p => k end))
  (at level 61, p pattern, c at next level, right associativity) : py_scope.
Local Open Scope py_scope.

Definition lookup {A} (e : exn) (o : option A) : result A :=
  match o with
  | Some a => Ok a
  | None => Raise e
  end.

Definition fails {A} (r : result A) : Prop := exists e, r = Raise e.

(** ** Strings *)

Module Str.

Definition char := N.
Definition str := list char.

Definition lit (s : string) : str :=
  List.map N_of_ascii (list_ascii_of_string s).

Fixpoint eqb (a b : str) : bool :=
  match a, b with
  | [], [] => true
  | x :: a', y :: b' => N.eqb x y && eqb a' b'
  | _, _ => false
  end.

(** [str.isspace] on one character: the code points with the Unicode
    White_Space property or bidirectional class WS, B or S. *)
Definition is_space (c : char) : bool :=
  ((9 <=? c) && (c <=? 13) || (28 <=? c) && (c <=? 32)
   || (c =? 133) || (c =? 160) || (c =? 5760)
   || (8192 <=? c) && (c <=? 8202)
   || (c =? 8232) || (c =? 8233) || (c =? 8239) || (c =? 8287)
   || (c =? 12288))%N.

Fixpoint lstrip (s : str) : str :=
  match s with
  | [] => []
  | c :: rest => if is_space c then lstrip rest else s
  end.

Definition rstrip (s : str) : str := rev (lstrip (rev s)).

(** [s.strip()] *)
Definition strip (s : str) : str := rstrip (lstrip s).

(** The line boundaries of [str.splitlines]:
    LF, VT, FF, CR, FS, GS, RS, NEL, LS, PS (and CR LF as one). *)
Definition is_linebreak (c : char) : bool :=
  ((10 <=? c) && (c <=? 13) || (28 <=? c) && (c <=? 30)
   || (c =? 133) || (c =? 8232) || (c =? 8233))%N.

(** [s.splitlines()]: no line is produced after a final line boundary. *)
Fixpoint splitlines (s : str) : list str :=
  match s with
  | [] => []
  | c :: rest =>
      if is_linebreak c then
        match rest with
        | c' :: rest' =>
            if ((c =? 13) && (c' =? 10))%N
            then [] :: splitlines rest'
            else [] :: splitlines rest
        | [] => [[]]
        end
      else
        match splitlines rest with
        | [] => [[c]]
        | l :: ls => (c :: l) :: ls
        end
  end.

(** [s.split(sep)] for a separator of one character. *)
Fixpoint split (sep : char) (s : str) : list str :=
  match s with
  | [] => [[]]
  | c :: rest =>
      if (c =? sep)%N then [] :: split sep rest
      else
        match split sep rest with
        | [] => [[c]]
        | l :: ls => (c :: l) :: ls
        end
  end.

(** [s.startswith(c)] for a prefix of one character. *)
Definition startswith (c : char) (s : str) : bool :=
  match s with
  | [] => false
  | x :: _ => (x =? c)%N
  end.

(** [c in s] *)
Definition contains (c : char) (s : str) : bool :=
  existsb (N.eqb c) s.

Definition count (c : char) (s : str) : nat :=
  List.length (List.filter (N.eqb c) s).

(** An ASCII digit, the class [[0-9]] of a pattern. *)
Definition is_digit (c : char) : bool := ((48 <=? c) && (c <=? 57))%N.

(** The digit zero of each script.  A decimal digit (Unicode category Nd,
    here as of Unicode 14.0, the table of CPython 3.11) is one of the ten
    code points that start at a zero, and its value is its distance from
    it. *)
Definition decimal_zeros : list N :=
  [48; 1632; 1776; 1984; 2406; 2534; 2662; 2790; 2918; 3046; 3174; 3302;
   3430; 3558; 3664; 3792; 3872; 4160; 4240; 6112; 6160; 6470; 6608;
   6784; 6800; 6992; 7088; 7232; 7248; 42528; 43216; 43264; 43472;
   43504; 43600; 44016; 65296; 66720; 68912; 69734; 69872; 69942; 70096;
   70384; 70736; 70864; 71248; 71360; 71472; 71904; 72016; 72784; 73040;
   73120; 92768; 92864; 93008; 120782; 120792; 120802; 120812; 120822;
   123200; 123632; 125264; 130032]%N.

Definition decimal (c : char) : option Z :=
  match find (fun z => (z <=? c) && (c <? z + 10))%N decimal_zeros with
  | Some z => Some (Z.of_N (c - z))
  | None => None
  end.

(** The digit part of a decimal literal: digits, with single underscores
    allowed between two digits. *)
Fixpoint digits (acc : Z) (after_digit : bool) (s : str) : option Z :=
  match s with
  | [] => if after_digit then Some acc else None
  | c :: rest =>
      match decimal c with
      | Some d => digits (10 * acc + d) true rest
      | None =>
          if ((c =? 95)%N && after_digit)%bool then
            match rest with
            | [] => None
            | _ :: _ => digits acc false rest
            end
          else None
      end
  end.

Definition is_decimal (c : char) : bool :=
  match decimal c with
  | Some _ => true
  | None => false
  end.

(** The number of digits of a literal, its underscores left out. *)
Definition digit_count (s : str) : nat := List.length (List.filter is_decimal s).

(** [sys.get_int_max_str_digits()], at its default. *)
Definition max_str_digits : nat := 4300.

(** A literal after its sign: it is well formed and has no more digits than
    the limit. *)
Definition literal (s : str) : result Z :=
  match digits 0 false s with
  | Some v =>
      if (max_str_digits <? digit_count s)%nat then Raise ValueError else Ok v
  | None => Raise ValueError
  end.

(** The whitespace [int] skips around a literal: the ASCII blanks TAB..CR and
    SPACE, and every non-ASCII space.  (The separators FS, GS, RS, US, which
    [strip] removes, are not skipped.) *)
Definition is_int_space (c : char) : bool :=
  ((9 <=? c) && (c <=? 13) || (c =? 32) || (128 <=? c) && is_space c)%N.

Fixpoint lskip (s : str) : str :=
  match s with
  | [] => []
  | c :: rest => if is_int_space c then lskip rest else s
  end.

(** [int(s)] (CPython 3.11 and later): surrounding whitespace, an optional
    sign, a decimal literal in the digits of any script, of at most
    [max_str_digits] digits. *)
Definition int (s : str) : result Z :=
  match rev (lskip (rev (lskip s))) with
  | [] => Raise ValueError
  | c :: rest =>
      if (c =? 45)%N then
        match literal rest with
        | Ok v => Ok (- v)
        | Raise e => Raise e
        end
      else if (c =? 43)%N then literal rest
      else literal (c :: rest)
  end.

End Str.
Import Str.

(** ** Dates, durations and zones ([datetime])

    Every duration of the decoder is a whole number of seconds, and every
    instant a whole number of seconds since the epoch, so a [timedelta] is its
    [total_seconds()] and a [datetime] is its POSIX timestamp with its zone. *)

Module Datetime.

(** Days from 1970-01-01 to the given day of the proleptic Gregorian
    calendar. *)
Definition days_from_civil (y m d : Z) : Z :=
  let y' := if m <=? 2 then y - 1 else y in
  let era := y' / 400 in
  let yoe := y' - era * 400 in
  let mp := (m + 9) mod 12 in
  let doy := (153 * mp + 2) / 5 + d - 1 in
  let doe := yoe * 365 + yoe / 4 - yoe / 100 + doy in
  era * 146097 + doe - 719468.

(** Seconds from the epoch to a wall-clock reading taken as UTC. *)
Definition civil (y mo d h mi s : Z) : Z :=
  days_from_civil y mo d * 86400 + h * 3600 + mi * 60 + s.

(** [datetime.min] and [datetime.max], to the second. *)
Definition MINYEAR_s : Z := civil 1 1 1 0 0 0.
Definition MAXYEAR_s : Z := civil 9999 12 31 23 59 59.

Definition timedelta := Z.

Definition timedelta_min : Z := - 999999999 * 86400.
Definition timedelta_max : Z := 999999999 * 86400 + 86399.

Definition check_timedelta (s : Z) : result timedelta :=
  if (timedelta_min <=? s) && (s <=? timedelta_max) then Ok s
  else Raise OverflowError.

(** [datetime.timedelta(seconds=n)] *)
Definition timedelta_seconds (n : Z) : result timedelta := check_timedelta n.

(** [datetime.timedelta(minutes=n)] *)
Definition timedelta_minutes (n : Z) : result timedelta :=
  check_timedelta (60 * n).

(** [td * n] *)
Definition timedelta_mul (td : timedelta) (n : Z) : result timedelta :=
  check_timedelta (td * n).

Record timezone : Type := mk_timezone { utcoffset : timedelta }.

(** [datetime.timezone(offset)]: the offset lies strictly within a day. *)
Definition timezone_of (offset : timedelta) : result timezone :=
  if (-86400 <? offset) && (offset <? 86400) then Ok (mk_timezone offset)
  else Raise ValueError.

Record time : Type := mk_time { hour : Z; minute : Z; time_tzinfo : timezone }.

(** [datetime.time(hour=h, minute=m, tzinfo=tz)]: an argument that does not
    fit a C [int] overflows, one outside its field is a [ValueError]. *)
Definition time_of (h m : Z) (tz : timezone) : result time :=
  if (2147483647 <? h) || (h <? -2147483648) then Raise OverflowError
  else if (2147483647 <? m) || (m <? -2147483648) then Raise OverflowError
  else if (h <? 0) || (23 <? h) then Raise ValueError
  else if (m <? 0) || (59 <? m) then Raise ValueError
  else Ok (mk_time h m tz).

Record datetime : Type := mk_datetime { timestamp : Z; tzinfo : timezone }.

(** The wall-clock reading of an aware datetime, in seconds. *)
Definition wall (t : datetime) : Z := timestamp t + utcoffset (tzinfo t).

Definition in_range (s : Z) : bool := (MINYEAR_s <=? s) && (s <=? MAXYEAR_s).

(** The timestamps [gmtime] of the C library converts: the year, counted
    from 1900, fits a C [int]. *)
Definition gmtime_min : Z := civil (-2147481748) 1 1 0 0 0.
Definition gmtime_max : Z := civil 2147485548 1 1 0 0 0 - 1.

(** [datetime.datetime.fromtimestamp(ts, tz=tz)] (CPython on Linux, with a
    64-bit [time_t]): the timestamp fits [time_t], [gmtime] converts it, the
    UTC reading has a year in 1..9999, and so has the reading in the
    zone. *)
Definition fromtimestamp (ts : Z) (tz : timezone) : result datetime :=
  if (ts <? - 2 ^ 63) || (2 ^ 63 - 1 <? ts) then Raise OverflowError
  else if (ts <? gmtime_min) || (gmtime_max <? ts) then Raise OSError
  else if negb (in_range ts) then Raise ValueError
  else if negb (in_range (ts + utcoffset tz)) then Raise OverflowError
  else Ok (mk_datetime ts tz).

(** [t + td] for an aware datetime: wall-clock arithmetic, same zone. *)
Definition datetime_add (t : datetime) (td : timedelta) : result datetime :=
  if in_range (wall t + td) then Ok (mk_datetime (timestamp t + td) (tzinfo t))
  else Raise OverflowError.

(** The datetime that prints as [y-mo-dTh:mi:s] followed by the offset of
    [tz] in its ISO format. *)
Definition isoformat (y mo d h mi s : Z) (tz : timezone) : datetime :=
  mk_datetime (civil y mo d h mi s - utcoffset tz) tz.

End Datetime.
Import Datetime.

(** ** Percent encoding ([urllib.parse]) *)

Module Urllib.

Definition hex_val (c : char) : option N :=
  (if (48 <=? c) && (c <=? 57) then Some (c - 48)
   else if (65 <=? c) && (c <=? 70) then Some (c - 55)
   else if (97 <=? c) && (c <=? 102) then Some (c - 87)
   else None)%N.

(** [unquote_to_bytes]: every [%XY] with two hexadecimal digits becomes the
    byte [XY]; any other [%] stays. *)
Fixpoint unquote_to_bytes (s : str) : list N :=
  match s with
  | [] => []
  | c :: rest =>
      match rest with
      | h :: l :: rest' =>
          match (c =? 37)%N, hex_val h, hex_val l with
          | true, Some a, Some b => (16 * a + b)%N :: unquote_to_bytes rest'
          | _, _, _ => c :: unquote_to_bytes rest
          end
      | _ => c :: unquote_to_bytes rest
      end
  end.

Definition is_cont (b : N) : bool := ((128 <=? b) && (b <? 192))%N.

Definition replacement : char := 65533%N.

(** [bytes.decode('utf-8', 'replace')]: each maximal ill-formed part becomes
    one U+FFFD, as CPython's decoder reports them (an invalid start byte, an
    invalid continuation after one, two or three bytes, or an unexpected
    end of data). *)
Fixpoint utf8_decode (bs : list N) : str :=
  match bs with
  | [] => []
  | b1 :: r1 =>
    (if b1 <? 128 then b1 :: utf8_decode r1
     else if b1 <? 194 then replacement :: utf8_decode r1
     else if b1 <? 224 then
       match r1 with
       | [] => [replacement]
       | b2 :: r2 =>
           if is_cont b2
           then ((b1 - 192) * 64 + (b2 - 128)) :: utf8_decode r2
           else replacement :: utf8_decode r1
       end
     else if b1 <? 240 then
       match r1 with
       | [] => [replacement]
       | b2 :: r2 =>
           if negb (is_cont b2) || (if b2 <? 160 then b1 =? 224 else b1 =? 237)
           then replacement :: utf8_decode r1
           else
             match r2 with
             | [] => [replacement]
             | b3 :: r3 =>
                 if is_cont b3
                 then (((b1 - 224) * 64 + (b2 - 128)) * 64 + (b3 - 128))
                        :: utf8_decode r3
                 else replacement :: utf8_decode r2
             end
       end
     else if b1 <? 245 then
       match r1 with
       | [] => [replacement]
       | b2 :: r2 =>
           if negb (is_cont b2) || (if b2 <? 144 then b1 =? 240 else b1 =? 244)
           then replacement :: utf8_decode r1
           else
             match r2 with
             | [] => [replacement]
             | b3 :: r3 =>
                 if negb (is_cont b3) then replacement :: utf8_decode r2
                 else
                   match r3 with
                   | [] => [replacement]
                   | b4 :: r4 =>
                       if is_cont b4
                       then ((((b1 - 240) * 64 + (b2 - 128)) * 64
                              + (b3 - 128)) * 64 + (b4 - 128))
                              :: utf8_decode r4
                       else replacement :: utf8_decode r3
                   end
             end
       end
     else replacement :: utf8_decode r1)%N
  end.

(** The loop of [unquote] over the runs of the string: a maximal run of
    ASCII characters ([run], most recent first) is percent-decoded and read as
    UTF-8; the characters between the runs are kept. *)
Fixpoint unquote_runs (run : str) (s : str) : str :=
  match s with
  | [] => utf8_decode (unquote_to_bytes (rev run))
  | c :: rest =>
      if (c <? 128)%N then unquote_runs (c :: run) rest
      else utf8_decode (unquote_to_bytes (rev run)) ++ c :: unquote_runs [] rest
  end.

(** [urllib.parse.unquote(s)] *)
Definition unquote (s : str) : str :=
  if contains 37%N s then unquote_runs [] s else s.

(** [str.encode('utf-8')] of one code point; a surrogate has no encoding. *)
Definition utf8_encode1 (c : char) : result (list N) :=
  (if c <? 128 then Ok [c]
   else if c <? 2048 then Ok [192 + c / 64; 128 + c mod 64]
   else if (55296 <=? c) && (c <? 57344) then Raise UnicodeEncodeError
   else if c <? 65536 then
     Ok [224 + c / 4096; 128 + (c / 64) mod 64; 128 + c mod 64]
   else if c <? 1114112 then
     Ok [240 + c / 262144; 128 + (c / 4096) mod 64;
         128 + (c / 64) mod 64; 128 + c mod 64]
   else Raise UnicodeEncodeError)%N.

Fixpoint utf8_encode (s : str) : result (list N) :=
  match s with
  | [] => Ok []
  | c :: rest =>
      b <- utf8_encode1 c ;;
      bs <- utf8_encode rest ;;
      Ok (b ++ bs)
  end.

Definition hex_digit (n : N) : char :=
  (if n <? 10 then 48 + n else 55 + n)%N.

(** The characters [quote] never escapes: letters, digits, [_.-~], and its
    default [safe='/']. *)
Definition is_safe (b : N) : bool :=
  ((48 <=? b) && (b <=? 57) || (65 <=? b) && (b <=? 90)
   || (97 <=? b) && (b <=? 122)
   || (b =? 95) || (b =? 46) || (b =? 45) || (b =? 126) || (b =? 47))%N.

Definition quote_byte (b : N) : str :=
  if is_safe b then [b] else [37%N; hex_digit (b / 16); hex_digit (b mod 16)].

(** [urllib.parse.quote(s)], the percent encoding that [unquote] reverses. *)
Definition quote (s : str) : result str :=
  bs <- utf8_encode s ;;
  Ok (List.concat (List.map quote_byte bs)).

End Urllib.
Import Urllib.

(** ** The session pattern ([re]) *)

Module Re.

Definition is_code (c : char) : bool :=
  (is_digit c || (65 <=? c) && (c <=? 90))%N.

(** The longest prefix of [s] whose characters satisfy [p], and what follows
    it. *)
Fixpoint span (p : char -> bool) (s : str) : str * str :=
  match s with
  | [] => ([], [])
  | c :: rest =>
      if p c then let (a, b) := span p rest in (c :: a, b) else ([], s)
  end.

(** A match of [\[([A-Z0-9]+),([0-9]+),([0-9]+)\]] at the start of [s]: its
    three groups and its length.  Each class excludes the character that
    must follow its group, so the longest group is the only candidate. *)
Definition match_session (s : str) : option (str * str * str * nat) :=
  match s with
  | c0 :: s1 =>
      if negb (c0 =? 91)%N then None else
      let (g1, s2) := span is_code s1 in
      match g1, s2 with
      | _ :: _, c1 :: s3 =>
          if negb (c1 =? 44)%N then None else
          let (g2, s4) := span is_digit s3 in
          match g2, s4 with
          | _ :: _, c2 :: s5 =>
              if negb (c2 =? 44)%N then None else
              let (g3, s6) := span is_digit s5 in
              match g3, s6 with
              | _ :: _, c3 :: _ =>
                  if negb (c3 =? 93)%N then None else
                  Some (g1, g2, g3,
                        (4 + List.length g1 + List.length g2
                         + List.length g3)%nat)
              | _, _ => None
              end
          | _, _ => None
          end
      | _, _ => None
      end
  | [] => None
  end.

(** [re.finditer(pattern, s)]: the matches from left to right, each search
    resuming where the last match ended.  [skip] counts the characters of the
    current match still to pass over. *)
Fixpoint finditer (skip : nat) (s : str) : list (str * str * str) :=
  match s with
  | [] => []
  | _ :: rest =>
      match skip with
      | S k => finditer k rest
      | O =>
          match match_session s with
          | Some (g1, g2, g3, len) => (g1, g2, g3) :: finditer (Nat.pred len) rest
          | None => finditer O rest
          end
      end
  end.

End Re.

(** ** The price table ([pandas]) *)

Module Pandas.

(** A value of the table: a timestamp, a string left as the feed gave it, or
    the filler of a row shorter than the widest one; and, in the index only,
    the tuple of the cells of a row under a label that several columns
    carry. *)
#[warnings="-register-all"]
Inductive cell : Type :=
| CTime (t : datetime)
| CStr (s : str)
| CNone
| CTuple (cs : list cell).

(** A frame with the default index. *)
Record table : Type := mk_table {
  labels : list str;
  records : list (list cell) }.

(** A frame indexed by one of its former columns. *)
Record frame : Type := mk_frame {
  index_name : str;
  index : list cell;
  columns : list str;
  values : list (list cell) }.

Definition width (rows : list (list cell)) : nat :=
  fold_right (fun r m => Nat.max (List.length r) m) O rows.

Definition pad (k : nat) (r : list cell) : list cell :=
  r ++ repeat CNone (k - List.length r).

(** [pandas.DataFrame(rows, columns=cols)] for a list of tuples: the tuples
    are laid out on the width of the widest, and there must be as many column
    labels. *)
Definition DataFrame (rows : list (list cell)) (cols : list str)
  : result table :=
  match rows with
  | [] => Ok (mk_table cols [])
  | _ :: _ =>
      if (List.length cols =? width rows)%nat
      then Ok (mk_table cols (List.map (pad (width rows)) rows))
      else Raise ValueError
  end.

(** The cells of a row under the columns labelled [key], and the others. *)
Definition under (key : str) (labels : list str) (r : list cell) : list cell :=
  List.map snd
    (List.filter (fun lc => eqb (fst lc) key) (combine labels r)).

Definition beside (key : str) (labels : list str) (r : list cell) : list cell :=
  List.map snd
    (List.filter (fun lc => negb (eqb (fst lc) key)) (combine labels r)).

(** The index entry of a row: its cell under the label, or the tuple of its
    cells under the label when several columns carry it. *)
Definition index_entry (cs : list cell) : cell :=
  match cs with
  | [c] => c
  | _ => CTuple cs
  end.

(** [df.set_index(key)]: the columns labelled [key] leave the columns and
    become the index.  The label must exist. *)
Definition set_index (key : str) (df : table) : result frame :=
  if existsb (fun l => eqb l key) (labels df) then
    Ok (mk_frame key
          (List.map (fun r => index_entry (under key (labels df) r))
                    (records df))
          (List.filter (fun l => negb (eqb l key)) (labels df))
          (List.map (beside key (labels df)) (records df)))
  else Raise KeyError.

End Pandas.
Import Pandas.

(** ** The decoder: [parse_raw_stock] *)

(** One entry of [DATA_SESSIONS] as the header loop stores it: minutes since
    midnight. *)
Record raw_session : Type := mk_raw_session { raw_start : Z; raw_end : Z }.

(** The entry once localised: times of day in the zone of the feed. *)
Record session : Type := mk_session { start : time; end_ : time }.

(** The [metadata] dict.  ['market'] is set when the dict is created; the
    other keys are present once their header field has been read.  [S] is the
    type of the values of ['sessions']: [raw_session] while the header is
    read, [session] afterwards. *)
Module Metadata.
Record t (S : Type) : Type := mk {
  market : str;
  tick : option timedelta;
  sessions : option (list (str * S));
  timezone : option Datetime.timezone }.
Arguments mk {S} _ _ _ _.
Arguments market {S} _.
Arguments tick {S} _.
Arguments sessions {S} _.
Arguments timezone {S} _.
End Metadata.

(** [d[k] = v] on a dict kept in insertion order. *)
Fixpoint dict_set {V} (k : str) (v : V) (d : list (str * V)) : list (str * V) :=
  match d with
  | [] => [(k, v)]
  | (k', v') :: rest =>
      if eqb k' k then (k, v) :: rest else (k', v') :: dict_set k v rest
  end.

(** The local variables of [parse_raw_stock] while the header is read. *)
Record locals : Type := mk_locals {
  metadata : Metadata.t raw_session;
  columns : option (list str);
  header_len : option nat }.

Definition c_eq : char := 61%N.      (* '=' *)
Definition c_comma : char := 44%N.   (* ',' *)
Definition c_a : char := 97%N.       (* 'a' *)

(** Lines 48-54: the dict built from the matches of the session pattern. *)
Fixpoint read_sessions (ms : list (str * str * str))
                       (d : list (str * raw_session))
  : result (list (str * raw_session)) :=
  match ms with
  | [] => Ok d
  | (g1, g2, g3) :: rest =>
      s <- int g2 ;;
      e <- int g3 ;;
      read_sessions rest (dict_set g1 (mk_raw_session s e) d)
  end.

(** Lines 43-58: the branch taken on the key of one header line. *)
Definition header_field (key value : str) (st : locals) : result locals :=
  let md := metadata st in
  if eqb key (lit "INTERVAL") then
    n <- int value ;;
    td <- timedelta_seconds n ;;
    Ok (mk_locals
          (Metadata.mk (Metadata.market md) (Some td)
                       (Metadata.sessions md) (Metadata.timezone md))
          (columns st) (header_len st))
  else if eqb key (lit "COLUMNS") then
    Ok (mk_locals md (Some (split c_comma (strip value))) (header_len st))
  else if eqb key (lit "DATA_SESSIONS") then
    d <- read_sessions (Re.finditer O value) [] ;;
    Ok (mk_locals
          (Metadata.mk (Metadata.market md) (Metadata.tick md)
                       (Some d) (Metadata.timezone md))
          (columns st) (header_len st))
  else if eqb key (lit "TIMEZONE_OFFSET") then
    n <- int value ;;
    td <- timedelta_minutes n ;;
    tz <- timezone_of td ;;
    Ok (mk_locals
          (Metadata.mk (Metadata.market md) (Metadata.tick md)
                       (Metadata.sessions md) (Some tz))
          (columns st) (header_len st))
  else Ok st.

(** Lines 37-58: the loop over [enumerate(lines[1:])].  [header_len] is bound
    to the index of the line at the start of each turn, the one that leaves
    the loop included; the unpacking [key, value = line.split('=')] fails,
    and the loop is left, unless the split has exactly two parts. *)
Fixpoint header_loop (i : nat) (ls : list str) (st : locals) : result locals :=
  match ls with
  | [] => Ok st
  | line :: rest =>
      let st := mk_locals (metadata st) (columns st) (Some i) in
      match split c_eq line with
      | [key; value] =>
          st' <- header_field key value st ;;
          header_loop (S i) rest st'
      | _ => Ok st
      end
  end.

(** Lines 61-68: the dict comprehension that localises the sessions.  Each
    [datetime.time(...)] call looks [metadata['timezone']] up after it has
    computed the hour and the minute. *)
Fixpoint localize (tz : option timezone) (items : list (str * raw_session))
  : result (list (str * session)) :=
  match items with
  | [] => Ok []
  | (k, v) :: rest =>
      z <- lookup KeyError tz ;;
      s <- time_of (raw_start v / 60) (raw_start v mod 60) z ;;
      z' <- lookup KeyError tz ;;
      e <- time_of (raw_end v / 60) (raw_end v mod 60) z' ;;
      r <- localize tz rest ;;
      Ok ((k, mk_session s e) :: r)
  end.

(** Lines 60-68. *)
Definition localize_sessions (md : Metadata.t raw_session)
  : result (Metadata.t session) :=
  match Metadata.sessions md with
  | None =>
      Ok (Metadata.mk (Metadata.market md) (Metadata.tick md) None
                      (Metadata.timezone md))
  | Some items =>
      d <- localize (Metadata.timezone md) items ;;
      Ok (Metadata.mk (Metadata.market md) (Metadata.tick md) (Some d)
                      (Metadata.timezone md))
  end.

(** Lines 73-81: the timestamp of one data line, and the anchor after it. *)
Definition row_time (md : Metadata.t session) (last_time : option datetime)
                    (rawtime : str) : result (datetime * option datetime) :=
  if startswith c_a rawtime then
    n <- int (tl rawtime) ;;
    tz <- lookup KeyError (Metadata.timezone md) ;;
    t <- fromtimestamp n tz ;;
    Ok (t, Some t)
  else
    anchor <- lookup UnboundLocalError last_time ;;
    tk <- lookup KeyError (Metadata.tick md) ;;
    n <- int rawtime ;;
    d <- timedelta_mul tk n ;;
    t <- datetime_add anchor d ;;
    Ok (t, last_time).

(** Lines 72-83: the loop over the data lines; the tuples appended to
    [prices], in order. *)
Fixpoint data_loop (md : Metadata.t session) (last_time : option datetime)
                   (ls : list str) : result (list (list cell)) :=
  match ls with
  | [] => Ok []
  | line :: rest =>
      match split c_comma line with
      | [] => Raise ValueError
      | rawtime :: data =>
          '(t, last_time') <- row_time md last_time rawtime ;;
          rows <- data_loop md last_time' rest ;;
          Ok ((CTime t :: List.map CStr data) :: rows)
      end
  end.

(** [parse_raw_stock] once [lines] is known (line 33 to the end). *)
Definition parse_lines (lines : list str)
  : result (Metadata.t session * frame) :=
  line0 <- lookup IndexError (nth_error lines 0) ;;
  let md0 := Metadata.mk (unquote line0) None None None in
  st <- header_loop O (skipn 1 lines) (mk_locals md0 None None) ;;
  md <- localize_sessions (metadata st) ;;
  hl <- lookup UnboundLocalError (header_len st) ;;
  prices <- data_loop md None (skipn (hl + 1) lines) ;;
  cols <- lookup UnboundLocalError (columns st) ;;
  df <- DataFrame prices cols ;;
  prices <- set_index (lit "DATE") df ;;
  Ok (md, prices).

Definition parse_raw_stock (data : str)
  : result (Metadata.t session * frame) :=
  parse_lines (splitlines (strip data)).

(** ** Notions used to state the properties *)

(** The unpacking [key, value = line.split('=')] succeeds on [line]. *)
Definition is_header (line : str) : bool :=
  match split c_eq line with
  | [_; _] => true
  | _ => false
  end.

Definition key_of (line : str) : str := nth 0 (split c_eq line) [].
Definition value_of (line : str) : str := nth 1 (split c_eq line) [].

(** The lines the header loop consumes: the longest prefix of [lines[1:]]
    made of lines that unpack. *)
Fixpoint header_lines (ls : list str) : list str :=
  match ls with
  | [] => []
  | l :: rest => if is_header l then l :: header_lines rest else []
  end.

(** The header of the input has a line with key [k]. *)
Definition header_has (k : str) (lines : list str) : bool :=
  existsb (fun l => eqb (key_of l) k) (header_lines (skipn 1 lines)).

(** The value of [header_len] when the header loop over [ls] ends, were no
    exception raised, [i] being the index of the first line of [ls]. *)
Fixpoint scan_len (i : nat) (ls : list str) (hl : option nat) : option nat :=
  match ls with
  | [] => hl
  | l :: rest => if is_header l then scan_len (S i) rest (Some i) else Some i
  end.

(** The lines the data loop runs over, [lines[header_len + 1:]], when
    [header_len] is bound. *)
Definition data_lines (lines : list str) : option (list str) :=
  match scan_len O (skipn 1 lines) None with
  | Some hl => Some (skipn (hl + 1) lines)
  | None => None
  end.

(** The time token of a data line. *)
Definition rawtime (line : str) : str := nth 0 (split c_comma line) [].

(** A data line with the absolute marker, and one without. *)
Definition is_absolute (line : str) : bool := startswith c_a (rawtime line).
Definition is_relative (line : str) : bool := negb (is_absolute line).

(** The header fields applied in order, [header_len] left aside. *)
Fixpoint read_header (hs : list str) (st : locals) : result locals :=
  match hs with
  | [] => Ok st
  | h :: rest =>
      st' <- header_field (key_of h) (value_of h) st ;;
      read_header rest st'
  end.

Definition set_header_len (hl : option nat) (st : locals) : locals :=
  mk_locals (metadata st) (columns st) hl.

Definition cell_time (c : cell) : option datetime :=
  match c with
  | CTime t => Some t
  | _ => None
  end.

Fixpoint first_time (cs : list cell) : option datetime :=
  match cs with
  | [] => None
  | c :: rest =>
      match cell_time c with
      | Some t => Some t
      | None => first_time rest
      end
  end.

(** The cells of an index entry. *)
Definition cells_of (c : cell) : list cell :=
  match c with
  | CTuple cs => cs
  | _ => [c]
  end.

(** The timestamp of each row of the price table, in the order of the rows:
    the one timestamp the row holds, in its index entry or in a column. *)
Fixpoint row_times (ix : list cell) (vs : list (list cell))
  : list (option datetime) :=
  match ix, vs with
  | i :: ix', v :: vs' => first_time (cells_of i ++ v) :: row_times ix' vs'
  | _, _ => []
  end.

Definition timestamps (df : frame) : list (option datetime) :=
  row_times (index df) (values df).

Definition rmap {A B} (f : A -> B) (r : result A) : result B :=
  match r with
  | Ok a => Ok (f a)
  | Raise e => Raise e
  end.

Definition no_key (k : str) (hs : list str) : Prop :=
  forall l, In l hs -> key_of l <> k.

Definition md0 (line0 : str) : Metadata.t raw_session :=
  Metadata.mk (unquote line0) None None None.

(** The stages after the header: localisation, data loop, table. *)
Definition finish (st : locals) (rows : option (list str))
  : result (Metadata.t session * frame) :=
  md <- localize_sessions (metadata st) ;;
  rows <- lookup UnboundLocalError rows ;;
  prices <- data_loop md None rows ;;
  cols <- lookup UnboundLocalError (columns st) ;;
  df <- DataFrame prices cols ;;
  prices <- set_index (lit "DATE") df ;;
  Ok (md, prices).

(** ["\n".join(ls)] *)
Fixpoint join_lines (ls : list str) : str :=
  match ls with
  | [] => []
  | [l] => l
  | l :: rest => l ++ 10%N :: join_lines rest
  end.

(** The timestamps the data loop computes, in line order (the first
    component of each tuple appended to [prices]). *)
Fixpoint decode_times (md : Metadata.t session) (last_time : option datetime)
                      (rows : list str) : result (list datetime) :=
  match rows with
  | [] => Ok []
  | line :: rest =>
      '(t, last_time') <- row_time md last_time (rawtime line) ;;
      ts <- decode_times md last_time' rest ;;
      Ok (t :: ts)
  end.

(** The instant each data line of a feed encodes, in line order: the value
    of an absolute marker, or the last marker's value plus the offset counted
    in ticks.  A line that encodes none is passed over. *)
Fixpoint feed_instants (tick : option Z) (anchor : option Z) (rows : list str)
  : list Z :=
  match rows with
  | [] => []
  | line :: rest =>
      if is_absolute line then
        match int (tl (rawtime line)) with
        | Ok n => n :: feed_instants tick (Some n) rest
        | Raise _ => feed_instants tick anchor rest
        end
      else
        match anchor, tick, int (rawtime line) with
        | Some a, Some tk, Ok n => (a + tk * n) :: feed_instants tick anchor rest
        | _, _, _ => feed_instants tick anchor rest
        end
  end.

(** The end-to-end example of the specification. *)
Definition est : timezone := mk_timezone (-300 * 60).

Definition example_input : str :=
  join_lines [lit "NYSE"; lit "INTERVAL=86400";
              lit "COLUMNS=DATE,CLOSE,HIGH,LOW,OPEN,VOLUME";
              lit "TIMEZONE_OFFSET=-300";
              lit "a1609459200,100,105,95,98,1000";
              lit "1,102,106,96,99,1100"].

Definition example_columns : list str :=
  [lit "CLOSE"; lit "HIGH"; lit "LOW"; lit "OPEN"; lit "VOLUME"].

Definition example_values : list (list cell) :=
  [[CStr (lit "100"); CStr (lit "105"); CStr (lit "95"); CStr (lit "98");
    CStr (lit "1000")];
   [CStr (lit "102"); CStr (lit "106"); CStr (lit "96"); CStr (lit "99");
    CStr (lit "1100")]].

(** The instants of the rows of the price table, in the order of the rows. *)
Definition instants (df : frame) : list Z :=
  flat_map (fun o => match o with
                     | Some t => [timestamp t]
                     | None => []
                     end) (timestamps df).

(** A feed whose second marker is earlier than its first. *)
Definition backwards_input : str :=
  join_lines [lit "M"; lit "COLUMNS=DATE,CLOSE"; lit "TIMEZONE_OFFSET=0";
              lit "a1000,1"; lit "a500,2"].

(** An input whose second line has two ['=']. *)
Definition scan_input : str :=
  join_lines [lit "M"; lit "A=B=C"; lit "COLUMNS=DATE,CLOSE";
              lit "TIMEZONE_OFFSET=0"; lit "a1000,1"].

(** The tuple of a data line: its timestamp, then its values as strings. *)
Definition is_tuple (t : datetime) (row : list cell) : Prop :=
  exists data, row = CTime t :: List.map CStr data.

(** What the [TIMEZONE_OFFSET] branch computes from the value of the line. *)
Definition read_timezone (value : str) : result timezone :=
  n <- int value ;;
  td <- timedelta_minutes n ;;
  timezone_of td.

Definition set_timezone (tz : timezone) (st : locals) : locals :=
  mk_locals
    (Metadata.mk (Metadata.market (metadata st)) (Metadata.tick (metadata st))
                 (Metadata.sessions (metadata st)) (Some tz))
    (columns st) (header_len st).

Definition set_sessions (d : list (str * raw_session)) (st : locals) : locals :=
  mk_locals
    (Metadata.mk (Metadata.market (metadata st)) (Metadata.tick (metadata st))
                 (Some d) (Metadata.timezone (metadata st)))
    (columns st) (header_len st).

Definition set_tick (td : option timedelta) (st : locals) : locals :=
  mk_locals
    (Metadata.mk (Metadata.market (metadata st)) td
                 (Metadata.sessions (metadata st))
                 (Metadata.timezone (metadata st)))
    (columns st) (header_len st).

(** A header line whose key is neither of the two given ones. *)
Definition other_header (k1 k2 : str) (l : str) : bool :=
  is_header l && negb (eqb (key_of l) k1) && negb (eqb (key_of l) k2).

(** Two inputs that differ in the order of the zone and the sessions. *)
Definition zone_first : str :=
  join_lines [lit "M"; lit "COLUMNS=DATE,CLOSE"; lit "TIMEZONE_OFFSET=60";
              lit "INTERVAL=60"; lit "DATA_SESSIONS=[USA,570,960]";
              lit "a1000,1"; lit "2,3"].

Definition sessions_first : str :=
  join_lines [lit "M"; lit "COLUMNS=DATE,CLOSE"; lit "DATA_SESSIONS=[USA,570,960]";
              lit "INTERVAL=60"; lit "TIMEZONE_OFFSET=60";
              lit "a1000,1"; lit "2,3"].

(** What may follow the first line of an input: nothing, or a line
    boundary and the rest. *)
Definition starts_line (tail : str) : bool :=
  match tail with
  | [] => true
  | c :: _ => is_linebreak c
  end.

(** An input whose first line is the encoding of the empty label. *)
Definition empty_label_input : str :=
  [] ++ 10%N :: join_lines [lit "X"; lit "COLUMNS=DATE,CLOSE";
                            lit "TIMEZONE_OFFSET=0"; lit "a1000,1"].

(** The metadata of a decode, with the ['tick'] entry left out. *)
Definition without_tick {S} (md : Metadata.t S) : Metadata.t S :=
  Metadata.mk (Metadata.market md) None (Metadata.sessions md)
              (Metadata.timezone md).

(** An input with a label outside ASCII, percent-encoded. *)
Definition euro_label : str := [77; 32; 8364]%N.
Definition euro_tail : str :=
  10%N :: join_lines [lit "COLUMNS=DATE,CLOSE"; lit "TIMEZONE_OFFSET=0";
                      lit "a1000,1"].

(** An input without [INTERVAL] whose data lines all carry the marker. *)
Definition markers_only : str :=
  join_lines [lit "M"; lit "COLUMNS=DATE,CLOSE"; lit "TIMEZONE_OFFSET=0";
              lit "a1000,1"; lit "a1060,2"].

(** The characters of an encoded label: unreserved ones, ['/'], ['%']. *)
Definition is_quoted (c : char) : bool := (is_safe c || (c =? 37))%N.

(** The numbers of a match of the session pattern have no more digits than
    [int] reads. *)
Definition short_numbers (m : str * str * str) : bool :=
  let '(_, g2, g3) := m in
  (List.length g2 <=? max_str_digits)%nat
  && (List.length g3 <=? max_str_digits)%nat.

(** A cell the data loop takes from the feed or the table fills in: a
    string or a filler. *)
Definition plain (c : cell) : bool :=
  match c with
  | CStr _ | CNone => true
  | _ => false
  end.

(** An input whose [COLUMNS] line names [DATE] twice. *)
Definition twin_input : str :=
  join_lines [lit "M"; lit "COLUMNS=DATE,CLOSE,DATE"; lit "TIMEZONE_OFFSET=0";
              lit "a1000,1,2"].

(** ** Tactics *)

Ltac case_key :=
  match goal with
  | |- context [eqb ?k (lit ?s)] =>
      let E := fresh "Ek" in destruct (eqb k (lit s)) eqn:E
  end.

Ltac case_bind :=
  match goal with
  | |- context [bind ?r _] =>
      let E := fresh "Er" in destruct r eqn:E; simpl
  end.

Ltac fails_step :=
  match goal with
  | |- fails (Raise ?e) => exists e; reflexivity
  | |- fails (bind ?r _) =>
      let E := fresh "Es" in
      destruct r eqn:E; cbn [bind]; [|eexists; reflexivity]
  end.

(** Linear arithmetic over [N] with division and remainder by constants. *)
Ltac nlia := zify; Z.to_euclidean_division_equations; lia.

Ltac cmp_true t := replace t with true by (symmetry;
  first [apply N.ltb_lt; nlia | apply N.leb_le; nlia | apply N.eqb_eq; nlia]).
Ltac cmp_false t := replace t with false by (symmetry;
  first [apply N.ltb_ge; nlia | apply N.leb_gt; nlia | apply N.eqb_neq; nlia]).
Ltac cmp :=
  repeat match goal with
         | |- context [N.ltb ?a ?b] =>
             first [cmp_true (N.ltb a b) | cmp_false (N.ltb a b)]
         | |- context [N.leb ?a ?b] =>
             first [cmp_true (N.leb a b) | cmp_false (N.leb a b)]
         | |- context [N.eqb ?a ?b] =>
             first [cmp_true (N.eqb a b) | cmp_false (N.eqb a b)]
         end.

(** The keys the header loop acts on. *)
Definition known_key (k : str) : bool :=
  eqb k (lit "INTERVAL") || eqb k (lit "COLUMNS")
  || eqb k (lit "DATA_SESSIONS") || eqb k (lit "TIMEZONE_OFFSET").

(** An input whose last line is a header line that starts with the marker. *)
Definition unclosed_input : str :=
  join_lines [lit "M"; lit "COLUMNS=DATE,CLOSE"; lit "TIMEZONE_OFFSET=0";
              lit "a1000,X=Y"].

(** An input with a header line of a key the decoder does not know. *)
Definition extended_input (extra : str) : str :=
  join_lines [lit "NYSE"; lit "INTERVAL=86400"; extra;
              lit "COLUMNS=DATE,CLOSE,HIGH,LOW,OPEN,VOLUME";
              lit "TIMEZONE_OFFSET=-300";
              lit "a1609459200,100,105,95,98,1000";
              lit "1,102,106,96,99,1100"].

Definition set_columns (c : option (list str)) (st : locals) : locals :=
  mk_locals (metadata st) c (header_len st).

(** The state of the header loop with the entry that key [k] writes set
    aside. *)
Definition forget (k : str) (st : locals) : locals :=
  let md := metadata st in
  if eqb k (lit "INTERVAL") then set_tick None st
  else if eqb k (lit "COLUMNS") then set_columns None st
  else if eqb k (lit "DATA_SESSIONS") then
    mk_locals (Metadata.mk (Metadata.market md) (Metadata.tick md) None
                           (Metadata.timezone md))
              (columns st) (header_len st)
  else if eqb k (lit "TIMEZONE_OFFSET") then
    mk_locals (Metadata.mk (Metadata.market md) (Metadata.tick md)
                           (Metadata.sessions md) None)
              (columns st) (header_len st)
  else st.

(** An input with two [INTERVAL] lines and two [DATA_SESSIONS] lines. *)
Definition repeated_input : str :=
  join_lines [lit "M"; lit "INTERVAL=60"; lit "DATA_SESSIONS=[A,0,1][B,2,3]";
              lit "COLUMNS=DATE,CLOSE"; lit "INTERVAL=120";
              lit "TIMEZONE_OFFSET=0"; lit "DATA_SESSIONS=[C,4,5]";
              lit "a1000,1"; lit "1,2"].

Definition repeated_input_last : str :=
  join_lines [lit "M"; lit "DATA_SESSIONS=[A,0,1][B,2,3]";
              lit "COLUMNS=DATE,CLOSE"; lit "INTERVAL=120";
              lit "TIMEZONE_OFFSET=0"; lit "DATA_SESSIONS=[C,4,5]";
              lit "a1000,1"; lit "1,2"].

(** Two outcomes of reading a header field that differ at most in the entry
    of key [k]. *)
Definition agree (k : str) (r1 r2 : result locals) : Prop :=
  match r1, r2 with
  | Ok a, Ok b => forget k a = forget k b
  | Raise e1, Raise e2 => e1 = e2
  | _, _ => False
  end.

(** The integer literal of the time token of a data line: the token without
    its marker, or the token itself. *)
Definition time_literal (line : str) : str :=
  if is_absolute line then tl (rawtime line) else rawtime line.

(** A timestamp in the zone [tz] whose wall-clock reading has a year in
    1..9999. *)
Definition valid_in (tz : option timezone) (t : datetime) : Prop :=
  tz = Some (tzinfo t) /\ MINYEAR_s <= wall t <= MAXYEAR_s.

(** An input with a blank line in its data section. *)
Definition blank_row_input : str :=
  join_lines [lit "M"; lit "INTERVAL=60"; lit "COLUMNS=DATE,CLOSE";
              lit "TIMEZONE_OFFSET=0"; lit "a1000,1"; []; lit "1,2"].

(** A time of day within its fields. *)
Definition valid_time (t : time) : Prop :=
  0 <= hour t <= 23 /\ 0 <= minute t <= 59.

(** An input with sessions, one code given twice and one triple
    malformed. *)
Definition sessions_input : str :=
  join_lines [lit "M"; lit "COLUMNS=DATE,CLOSE"; lit "TIMEZONE_OFFSET=-300";
              lit "DATA_SESSIONS=[USA,570,960][pre,0,1][USA,600,900][EU,1,2]";
              lit "a1000,1"].

(** The tuple the data loop appends for a data line stamped [t]. *)
Definition tuple_of (t : datetime) (line : str) : list cell :=
  CTime t :: List.map CStr (tl (split c_comma line)).

(** An input whose second data line has fewer fields than there are
    columns. *)
Definition ragged_input : str :=
  join_lines [lit "M"; lit "INTERVAL=60"; lit "COLUMNS=CLOSE,DATE,VOLUME";
              lit "TIMEZONE_OFFSET=0"; lit "a1000,x,7"; lit "1"].

(** The input with every LF written CR LF. *)
Fixpoint crlf (s : str) : str :=
  match s with
  | [] => []
  | c :: rest => if (c =? 10)%N then 13%N :: 10%N :: crlf rest
                 else c :: crlf rest
  end.

(** ** Printing the metadata: [print_metadata]

    The values [print_metadata] tells apart: a dict, a list or tuple, and
    anything else, given by what [format] prints for it.  A dict is the
    sequence of its items in iteration order, each key given by what
    [format] prints for it.  An element of a list or tuple is a string or
    another object, given by what [format] prints for it; [str + x] is
    defined for a string [x] only. *)
Inductive item : Type :=
| IStr (s : str)
| IObj (repr : str).

Definition item_text (x : item) : str :=
  match x with
  | IStr s => s
  | IObj repr => repr
  end.

Inductive value : Type :=
| VDict (d : dict)
| VSeq (xs : list item)
| VOther (repr : str)
with dict : Type :=
| DNil
| DCons (k : str) (v : value) (rest : dict).

Scheme dict_value_ind := Induction for dict Sort Prop
  with value_dict_ind := Induction for value Sort Prop.

(** What a run has printed, one entry for each call of [print], and the
    exception that ended it, if any. *)
Definition printed : Type := list str * option exn.

(** Two runs one after the other. *)
Definition and_then (a b : printed) : printed :=
  match snd a with
  | Some e => a
  | None => (fst a ++ fst b, snd b)
  end.

Definition spaces (n : nat) : str := repeat 32%N n.

(** Lines 99-110. *)
Fixpoint print_metadata (data : dict) (indent : str) : printed :=
  match data with
  | DNil => ([], None)
  | DCons k v rest =>
      let header := indent ++ k ++ lit ": " in
      and_then
        match v with
        | VDict d =>
            and_then ([header], None)
                     (print_metadata d (indent ++ lit "  "))
        | VSeq [] => ([], Some IndexError)
        | VSeq (IObj _ :: _) => ([], Some TypeError)
        | VSeq (IStr x :: xs) =>
            ((header ++ x)
               :: List.map (fun y => spaces (List.length header)
                                     ++ item_text y) xs,
             None)
        | VOther repr => ([header ++ repr], None)
        end
        (print_metadata rest indent)
  end.

(** The lists and tuples of a dict, nested dicts included, in the order
    [print_metadata] meets them. *)
Fixpoint seqs (data : dict) : list (list item) :=
  match data with
  | DNil => []
  | DCons _ v rest =>
      match v with
      | VDict d => seqs d
      | VSeq xs => [xs]
      | VOther _ => []
      end
      ++ seqs rest
  end.

(** What [header + v[0]] raises on a list or tuple: it is empty, or its
    first element is not a string. *)
Definition seq_error (xs : list item) : option exn :=
  match xs with
  | [] => Some IndexError
  | IObj _ :: _ => Some TypeError
  | IStr _ :: _ => None
  end.

Fixpoint first_error (ls : list (list item)) : option exn :=
  match ls with
  | [] => None
  | xs :: rest =>
      match seq_error xs with
      | Some e => Some e
      | None => first_error rest
      end
  end.

(** The lines a complete run prints: one for each key, and one more for
    each element of a list after its first. *)
Fixpoint line_count (data : dict) : nat :=
  match data with
  | DNil => O
  | DCons _ v rest =>
      match v with
      | VDict d => S (line_count d)
      | VSeq xs => List.length xs
      | VOther _ => 1%nat
      end
      + line_count rest
  end.

Fixpoint is_prefix (p s : str) : bool :=
  match p, s with
  | [], _ => true
  | x :: p', y :: s' => (x =? y)%N && is_prefix p' s'
  | _ :: _, [] => false
  end.

(** The metadata of the end-to-end example, as [print_metadata] sees it. *)
Definition example_metadata : dict :=
  DCons (lit "market") (VOther (lit "NYSE"))
    (DCons (lit "tick") (VOther (lit "1 day, 0:00:00"))
       (DCons (lit "sessions")
          (VDict (DCons (lit "USA")
                    (VDict (DCons (lit "start") (VOther (lit "09:30:00-05:00"))
                              (DCons (lit "end")
                                 (VOther (lit "16:00:00-05:00")) DNil)))
                    DNil))
          (DCons (lit "timezone") (VOther (lit "UTC-05:00")) DNil))).

(** ** Facts about strings *)

Section StringFacts.

Lemma eqb_eq (a b : str) : eqb a b = true <-> a = b.
Proof.
  revert b; induction a as [|x a IH]; intros [|y b]; simpl;
    try (split; [discriminate | congruence]); try tauto.
  rewrite andb_true_iff, N.eqb_eq, IH. split.
  - intros [-> ->]; reflexivity.
  - intros H; inversion H; auto.
Qed.

Lemma eqb_refl (a : str) : eqb a a = true.
Proof. apply eqb_eq; reflexivity. Qed.

Lemma eqb_neq (a b : str) : eqb a b = false <-> a <> b.
Proof.
  rewrite <- eqb_eq. destruct (eqb a b); split; congruence.
Qed.

Lemma split_not_nil (sep : char) (s : str) : split sep s <> [].
Proof.
  destruct s as [|c s]; simpl; [discriminate|].
  destruct (N.eqb c sep); [discriminate|].
  destruct (split sep s); discriminate.
Qed.

Lemma split_cons (sep : char) (s : str) :
  exists h t, split sep s = h :: t.
Proof.
  destruct (split sep s) as [|h t] eqn:E.
  - exfalso; exact (split_not_nil _ _ E).
  - eauto.
Qed.

Lemma split_length (sep : char) (s : str) :
  List.length (split sep s) = S (count sep s).
Proof.
  unfold count. induction s as [|c s IH]; simpl; [reflexivity|].
  rewrite (N.eqb_sym sep c).
  destruct (N.eqb c sep); simpl.
  - rewrite IH; reflexivity.
  - destruct (split sep s); simpl in *; [discriminate | exact IH].
Qed.

Lemma is_header_count (line : str) :
  is_header line = true <-> count c_eq line = 1%nat.
Proof.
  unfold is_header. pose proof (split_length c_eq line) as L.
  destruct (split c_eq line) as [|a [|b [|c l]]]; simpl in L; split;
    intros H; try discriminate; try reflexivity; try lia.
Qed.

Lemma count_cons (sep c : char) (s : str) :
  count sep (c :: s) = if N.eqb c sep then S (count sep s) else count sep s.
Proof.
  unfold count; simpl. rewrite (N.eqb_sym sep c).
  destruct (N.eqb c sep); reflexivity.
Qed.

Lemma count_app (sep : char) (a b : str) :
  count sep (a ++ b) = (count sep a + count sep b)%nat.
Proof.
  unfold count. rewrite filter_app, length_app. reflexivity.
Qed.

Lemma split_no_sep (sep : char) (s : str) :
  count sep s = O -> split sep s = [s].
Proof.
  induction s as [|c s IH]; [reflexivity|].
  rewrite count_cons. simpl. destruct (N.eqb c sep); [discriminate|].
  intros H. rewrite (IH H). reflexivity.
Qed.

Lemma split_app_sep (sep : char) (k v : str) :
  count sep k = O -> split sep (k ++ sep :: v) = k :: split sep v.
Proof.
  induction k as [|c k IH]; simpl.
  - rewrite N.eqb_refl. reflexivity.
  - rewrite count_cons. destruct (N.eqb c sep); [discriminate|].
    intros H. rewrite (IH H). reflexivity.
Qed.

Lemma count_first (sep : char) (s : str) :
  count sep s <> O ->
  exists k v, s = k ++ sep :: v /\ count sep k = O
              /\ count sep s = S (count sep v).
Proof.
  induction s as [|c s IH]; [intros H; exfalso; apply H; reflexivity|].
  rewrite count_cons. destruct (N.eqb c sep) eqn:E.
  - apply N.eqb_eq in E; subst c. intros _. exists [], s. auto.
  - intros H. destruct (IH H) as (k & v & -> & Hk & Hs).
    exists (c :: k), v. rewrite count_cons, E. auto.
Qed.

(** A line with one ['='] unpacks into what precedes and what follows it. *)
Lemma split_one (line : str) :
  is_header line = true ->
  split c_eq line = [key_of line; value_of line]
  /\ line = key_of line ++ c_eq :: value_of line
  /\ count c_eq (key_of line) = O /\ count c_eq (value_of line) = O.
Proof.
  intros H. apply is_header_count in H.
  destruct (count_first c_eq line) as (k & v & E & Hk & Hs); [lia|].
  assert (Hv : count c_eq v = O) by lia.
  assert (S : split c_eq line = [k; v]).
  { rewrite E, split_app_sep, (split_no_sep _ _ Hv); auto. }
  unfold key_of, value_of. rewrite S. simpl. auto.
Qed.

Lemma is_header_intro (k v : str) :
  count c_eq k = O -> count c_eq v = O ->
  is_header (k ++ c_eq :: v) = true
  /\ key_of (k ++ c_eq :: v) = k /\ value_of (k ++ c_eq :: v) = v.
Proof.
  intros Hk Hv. unfold is_header, key_of, value_of.
  rewrite split_app_sep, (split_no_sep _ _ Hv); auto.
Qed.

End StringFacts.

(** ** The header loop *)

Section HeaderLoop.

Lemma header_field_len (k v : str) (hl : option nat) (st : locals) :
  header_field k v (set_header_len hl st)
  = rmap (set_header_len hl) (header_field k v st).
Proof.
  unfold header_field. simpl.
  repeat case_key; try reflexivity; repeat case_bind; reflexivity.
Qed.

Lemma read_header_len (hs : list str) (hl : option nat) (st : locals) :
  read_header hs (set_header_len hl st)
  = rmap (set_header_len hl) (read_header hs st).
Proof.
  revert st; induction hs as [|h hs IH]; intros st; simpl; [reflexivity|].
  rewrite header_field_len.
  destruct (header_field (key_of h) (value_of h) st); simpl; auto.
Qed.

Lemma set_header_len_same (st : locals) :
  set_header_len (header_len st) st = st.
Proof. destruct st; reflexivity. Qed.

(** The header loop reads the fields of the header lines, in order, and
    leaves [header_len] at the index of the last line it has seen. *)
Lemma header_loop_spec (ls : list str) (i : nat) (st : locals) :
  header_loop i ls st
  = rmap (set_header_len (scan_len i ls (header_len st)))
         (read_header (header_lines ls) st).
Proof.
  revert i st; induction ls as [|l ls IH]; intros i st; simpl.
  - rewrite set_header_len_same; reflexivity.
  - destruct (is_header l) eqn:H.
    + destruct (split_one l H) as (S & _). rewrite S. simpl.
      change (mk_locals (metadata st) (columns st) (Some i))
        with (set_header_len (Some i) st).
      rewrite header_field_len.
      destruct (header_field (key_of l) (value_of l) st) as [st1|e]; simpl;
        [|reflexivity].
      rewrite IH, read_header_len. simpl.
      destruct (read_header (header_lines ls) st1); reflexivity.
    + unfold is_header in H.
      destruct (split c_eq l) as [|a [|b [|c r]]]; try discriminate;
        reflexivity.
Qed.

Lemma header_field_market (k v : str) (st st' : locals) :
  header_field k v st = Ok st' ->
  Metadata.market (metadata st') = Metadata.market (metadata st).
Proof.
  unfold header_field.
  repeat case_key; repeat case_bind; intros H; inversion H; reflexivity.
Qed.

Lemma read_header_market (hs : list str) (st st' : locals) :
  read_header hs st = Ok st' ->
  Metadata.market (metadata st') = Metadata.market (metadata st).
Proof.
  revert st; induction hs as [|h hs IH]; simpl; intros st H.
  - inversion H; reflexivity.
  - destruct (header_field (key_of h) (value_of h) st) eqn:F; [|discriminate].
    simpl in H. rewrite (IH _ H). eapply header_field_market; eauto.
Qed.

(** A field leaves the entries of the other keys as they are. *)
Lemma header_field_other_timezone (k v : str) (st st' : locals) :
  k <> lit "TIMEZONE_OFFSET" ->
  header_field k v st = Ok st' ->
  Metadata.timezone (metadata st') = Metadata.timezone (metadata st).
Proof.
  intros N. unfold header_field.
  repeat case_key; repeat case_bind; intros H; inversion H; try reflexivity.
  apply eqb_eq in Ek2. contradiction.
Qed.

Lemma header_field_other_tick (k v : str) (st st' : locals) :
  k <> lit "INTERVAL" ->
  header_field k v st = Ok st' ->
  Metadata.tick (metadata st') = Metadata.tick (metadata st).
Proof.
  intros N. unfold header_field.
  repeat case_key; repeat case_bind; intros H; inversion H; try reflexivity.
  apply eqb_eq in Ek. contradiction.
Qed.

Lemma header_field_other_columns (k v : str) (st st' : locals) :
  k <> lit "COLUMNS" ->
  header_field k v st = Ok st' ->
  columns st' = columns st.
Proof.
  intros N. unfold header_field.
  repeat case_key; repeat case_bind; intros H; inversion H; try reflexivity.
  apply eqb_eq in Ek0. contradiction.
Qed.

Lemma no_key_cons (k : str) (h : str) (hs : list str) :
  no_key k (h :: hs) -> key_of h <> k /\ no_key k hs.
Proof.
  intros H; split; [apply H; left; reflexivity|].
  intros l Hl; apply H; right; exact Hl.
Qed.

Lemma read_header_no_timezone (hs : list str) (st st' : locals) :
  no_key (lit "TIMEZONE_OFFSET") hs ->
  read_header hs st = Ok st' ->
  Metadata.timezone (metadata st') = Metadata.timezone (metadata st).
Proof.
  revert st; induction hs as [|h hs IH]; simpl; intros st N H.
  - inversion H; reflexivity.
  - apply no_key_cons in N as [N1 N2].
    destruct (header_field (key_of h) (value_of h) st) eqn:F; [|discriminate].
    simpl in H. rewrite (IH _ N2 H).
    eapply header_field_other_timezone; eauto.
Qed.

Lemma read_header_no_tick (hs : list str) (st st' : locals) :
  no_key (lit "INTERVAL") hs ->
  read_header hs st = Ok st' ->
  Metadata.tick (metadata st') = Metadata.tick (metadata st).
Proof.
  revert st; induction hs as [|h hs IH]; simpl; intros st N H.
  - inversion H; reflexivity.
  - apply no_key_cons in N as [N1 N2].
    destruct (header_field (key_of h) (value_of h) st) eqn:F; [|discriminate].
    simpl in H. rewrite (IH _ N2 H).
    eapply header_field_other_tick; eauto.
Qed.

Lemma read_header_no_columns (hs : list str) (st st' : locals) :
  no_key (lit "COLUMNS") hs ->
  read_header hs st = Ok st' ->
  columns st' = columns st.
Proof.
  revert st; induction hs as [|h hs IH]; simpl; intros st N H.
  - inversion H; reflexivity.
  - apply no_key_cons in N as [N1 N2].
    destruct (header_field (key_of h) (value_of h) st) eqn:F; [|discriminate].
    simpl in H. rewrite (IH _ N2 H).
    eapply header_field_other_columns; eauto.
Qed.

Lemma not_header_has (k : str) (lines : list str) :
  header_has k lines = false -> no_key k (header_lines (skipn 1 lines)).
Proof.
  unfold header_has. intros H l Hl E.
  assert (X : existsb (fun l => eqb (key_of l) k)
                      (header_lines (skipn 1 lines)) = true).
  { apply existsb_exists. exists l. split; [exact Hl|]. apply eqb_eq, E. }
  congruence.
Qed.

End HeaderLoop.

(** ** The decoder as a sequence of its stages *)

Section Stages.

Lemma parse_lines_stages (lines : list str) :
  parse_lines lines
  = (line0 <- lookup IndexError (nth_error lines 0) ;;
     st <- read_header (header_lines (skipn 1 lines))
                       (mk_locals (md0 line0) None None) ;;
     finish st (data_lines lines)).
Proof.
  unfold parse_lines, finish, data_lines.
  destruct (nth_error lines 0) as [line0|]; simpl; [|reflexivity].
  rewrite header_loop_spec. fold (md0 line0). simpl.
  destruct (read_header _ _) as [st|e]; simpl; [|reflexivity].
  destruct (localize_sessions (metadata st)) as [md|e]; simpl; [|reflexivity].
  destruct (scan_len 0 _ None); reflexivity.
Qed.

(** What a successful decode went through. *)
Lemma parse_lines_ok (lines : list str) (md : Metadata.t session) (df : frame) :
  parse_lines lines = Ok (md, df) ->
  exists line0 st rows prices cols tbl,
    nth_error lines 0 = Some line0
    /\ read_header (header_lines (skipn 1 lines))
                   (mk_locals (md0 line0) None None) = Ok st
    /\ localize_sessions (metadata st) = Ok md
    /\ data_lines lines = Some rows
    /\ data_loop md None rows = Ok prices
    /\ columns st = Some cols
    /\ DataFrame prices cols = Ok tbl
    /\ set_index (lit "DATE") tbl = Ok df.
Proof.
  rewrite parse_lines_stages. unfold finish.
  destruct (nth_error lines 0) as [line0|]; simpl; [|discriminate].
  destruct (read_header _ _) as [st|] eqn:E1; simpl; [|discriminate].
  destruct (localize_sessions _) as [md'|] eqn:E2; simpl; [|discriminate].
  destruct (data_lines lines) as [rows|] eqn:E3; simpl; [|discriminate].
  destruct (data_loop _ _ _) as [prices|] eqn:E4; simpl; [|discriminate].
  destruct (columns st) as [cols|] eqn:E5; simpl; [|discriminate].
  destruct (DataFrame _ _) as [tbl|] eqn:E6; simpl; [|discriminate].
  destruct (set_index _ _) as [fr|] eqn:E7; simpl; [|discriminate].
  intros H; inversion H; subst.
  exists line0, st, rows, prices, cols, tbl. repeat split; auto.
Qed.

End Stages.

(** ** The data section and the data loop *)

Section DataLoop.

Lemma scan_len_bound (ls : list str) (i : nat) (hl : option nat) (j : nat) :
  scan_len i ls hl = Some j ->
  (ls = [] /\ hl = Some j) \/ (i <= j < i + List.length ls)%nat.
Proof.
  revert i hl; induction ls as [|l ls IH]; simpl; intros i hl H.
  - left; auto.
  - right. destruct (is_header l).
    + destruct (IH _ _ H) as [[-> E]|B]; [inversion E|]; simpl in *; lia.
    + inversion H; lia.
Qed.

(** The data loop always has a first line to run on: [header_len] is the
    index in [lines[1:]] of a line the header loop has seen, and that line is
    [lines[header_len + 1]]. *)
Lemma data_lines_cons (lines rows : list str) :
  data_lines lines = Some rows -> exists line rest, rows = line :: rest.
Proof.
  unfold data_lines.
  destruct (scan_len 0 (skipn 1 lines) None) as [hl|] eqn:S; [|discriminate].
  intros H; inversion H; subst; clear H.
  apply scan_len_bound in S as [[_ S]|B]; [discriminate|].
  destruct lines as [|l0 ls]; simpl in B; [lia|].
  replace (hl + 1)%nat with (S hl) by lia. simpl.
  destruct (skipn hl ls) as [|x r] eqn:K; [|eauto].
  apply (f_equal (@List.length _)) in K. rewrite length_skipn in K.
  simpl in K; lia.
Qed.

(** The data section when the header is closed by a line that does not
    unpack: that line and all that follow. *)
Lemma scan_len_sentinel (hs : list str) (d : str) (rest : list str)
                        (i : nat) (hl : option nat) :
  Forall (fun l => is_header l = true) hs ->
  is_header d = false ->
  scan_len i (hs ++ d :: rest) hl = Some (i + List.length hs)%nat.
Proof.
  intros H D; revert i hl; induction H as [|h hs Hh _ IH]; simpl; intros i hl.
  - rewrite D. f_equal; lia.
  - rewrite Hh, IH. f_equal; lia.
Qed.

Lemma header_lines_sentinel (hs : list str) (d : str) (rest : list str) :
  Forall (fun l => is_header l = true) hs ->
  is_header d = false ->
  header_lines (hs ++ d :: rest) = hs.
Proof.
  intros H D; induction H as [|h hs Hh _ IH]; simpl.
  - rewrite D; reflexivity.
  - rewrite Hh, IH; reflexivity.
Qed.

Lemma row_time_relative_first (md : Metadata.t session) (tok : str) :
  startswith c_a tok = false -> fails (row_time md None tok).
Proof.
  intros H. unfold row_time. rewrite H. simpl. exists UnboundLocalError.
  reflexivity.
Qed.

Lemma row_time_no_timezone (md : Metadata.t session) (tok : str) :
  Metadata.timezone md = None -> fails (row_time md None tok).
Proof.
  intros H. unfold row_time. rewrite H.
  destruct (startswith c_a tok); simpl.
  - destruct (int (tl tok)); simpl; eexists; reflexivity.
  - eexists; reflexivity.
Qed.

Lemma data_loop_step (md : Metadata.t session) (lt : option datetime)
                     (line : str) (rest : list str) :
  data_loop md lt (line :: rest)
  = ('(t, lt') <- row_time md lt (rawtime line) ;;
     rows <- data_loop md lt' rest ;;
     Ok ((CTime t :: List.map CStr (tl (split c_comma line))) :: rows)).
Proof.
  simpl. unfold rawtime.
  destruct (split_cons c_comma line) as (h & t & E). rewrite E. reflexivity.
Qed.

Lemma data_loop_first_relative (md : Metadata.t session) (line : str)
                               (rest : list str) :
  is_absolute line = false -> fails (data_loop md None (line :: rest)).
Proof.
  intros H. rewrite data_loop_step.
  destruct (row_time_relative_first md (rawtime line) H) as (e & E).
  rewrite E. exists e; reflexivity.
Qed.

Lemma data_loop_no_timezone (md : Metadata.t session) (line : str)
                            (rest : list str) :
  Metadata.timezone md = None -> fails (data_loop md None (line :: rest)).
Proof.
  intros H. rewrite data_loop_step.
  destruct (row_time_no_timezone md (rawtime line) H) as (e & E).
  rewrite E. exists e; reflexivity.
Qed.

Lemma localize_sessions_fields (m : Metadata.t raw_session)
                               (md : Metadata.t session) :
  localize_sessions m = Ok md ->
  Metadata.market md = Metadata.market m
  /\ Metadata.tick md = Metadata.tick m
  /\ Metadata.timezone md = Metadata.timezone m.
Proof.
  unfold localize_sessions.
  destruct (Metadata.sessions m); [destruct (localize _ _); simpl|];
    intros H; inversion H; auto.
Qed.

(** A decode with no anchor for its first data line, or no zone for it,
    raises. *)
Lemma finish_first_relative (st : locals) (line : str) (rest : list str) :
  is_absolute line = false -> fails (finish st (Some (line :: rest))).
Proof.
  intros H. unfold finish. fails_step. cbn [lookup bind].
  destruct (data_loop_first_relative a line rest H) as (e & E).
  rewrite E. exists e; reflexivity.
Qed.

Lemma finish_no_timezone (st : locals) (rows : option (list str)) :
  (forall r, rows = Some r -> r <> []) ->
  Metadata.timezone (metadata st) = None -> fails (finish st rows).
Proof.
  intros NE H. unfold finish. fails_step.
  apply localize_sessions_fields in Es as (_ & _ & Z). rewrite H in Z.
  destruct rows as [[|line rest]|]; cbn [lookup bind].
  - exfalso; apply (NE [] eq_refl); reflexivity.
  - destruct (data_loop_no_timezone a line rest Z) as (e & E).
    rewrite E. exists e; reflexivity.
  - eexists; reflexivity.
Qed.

End DataLoop.

(** ** Fatal errors of the decoder *)

Section FatalErrors.

Lemma data_lines_not_nil (lines : list str) :
  forall r, data_lines lines = Some r -> r <> [].
Proof.
  intros r H. destruct (data_lines_cons _ _ H) as (l & t & ->). discriminate.
Qed.

(** Without a [TIMEZONE_OFFSET] line in the header no input decodes: the
    first data line either needs the zone or has no anchor. *)
Lemma no_timezone_fails (lines : list str) :
  header_has (lit "TIMEZONE_OFFSET") lines = false ->
  fails (parse_lines lines).
Proof.
  intros H. rewrite parse_lines_stages.
  fails_step. fails_step.
  apply finish_no_timezone; [apply data_lines_not_nil|].
  rewrite (read_header_no_timezone _ _ _ (not_header_has _ _ H) Es0).
  reflexivity.
Qed.

(** C5: an input whose header has a [DATA_SESSIONS] line and no
    [TIMEZONE_OFFSET] line does not decode: [parse_raw_stock] raises and
    returns nothing. *)
Theorem sessions_without_timezone_fatal (data : str) :
  header_has (lit "DATA_SESSIONS") (splitlines (strip data)) = true ->
  header_has (lit "TIMEZONE_OFFSET") (splitlines (strip data)) = false ->
  fails (parse_raw_stock data).
Proof.
  intros _ H. apply no_timezone_fails, H.
Qed.

Lemma sessions_without_timezone_fatal_witness :
  fails (parse_raw_stock
           (join_lines [lit "MARKET"; lit "DATA_SESSIONS=[USA,570,960]";
                        lit "COLUMNS=DATE,CLOSE"; lit "a1000,1"])).
Proof.
  apply sessions_without_timezone_fatal; vm_compute; reflexivity.
Defined.

(** C6: an input in which a relative-offset data line comes before any
    absolute-marker line does not decode: there is no anchor to offset
    from. *)
Theorem relative_before_anchor_fatal (data : str) (rows : list str) :
  data_lines (splitlines (strip data)) = Some rows ->
  (exists i line,
      nth_error rows i = Some line /\ is_relative line = true
      /\ forall j l, (j < i)%nat -> nth_error rows j = Some l ->
                     is_absolute l = false) ->
  fails (parse_raw_stock data).
Proof.
  intros D (i & line & Hi & R & B).
  assert (exists l0 rest, rows = l0 :: rest /\ is_absolute l0 = false)
    as (l0 & rest & -> & A).
  { destruct rows as [|l0 rest]; [destruct i; discriminate|].
    exists l0, rest. split; [reflexivity|].
    destruct i as [|i].
    - simpl in Hi. inversion Hi; subst.
      unfold is_relative in R. destruct (is_absolute line); [discriminate|].
      reflexivity.
    - apply (B O l0); [lia | reflexivity]. }
  unfold parse_raw_stock. rewrite parse_lines_stages.
  fails_step. fails_step. rewrite D.
  apply finish_first_relative, A.
Qed.

Lemma relative_before_anchor_fatal_witness :
  fails (parse_raw_stock
           (join_lines [lit "MARKET"; lit "COLUMNS=DATE,CLOSE";
                        lit "5,10.0"])).
Proof.
  apply (relative_before_anchor_fatal _ [lit "5,10.0"]).
  - vm_compute; reflexivity.
  - exists O, (lit "5,10.0"). split; [reflexivity|].
    split; [vm_compute; reflexivity|]. intros j l Hj; lia.
Defined.

(** C7: an input whose header has no [COLUMNS] line does not decode: the
    rows have no schema. *)
Theorem missing_columns_fatal (data : str) :
  header_has (lit "COLUMNS") (splitlines (strip data)) = false ->
  fails (parse_raw_stock data).
Proof.
  intros H. unfold parse_raw_stock. rewrite parse_lines_stages.
  fails_step. fails_step.
  assert (C : columns a0 = None).
  { rewrite (read_header_no_columns _ _ _ (not_header_has _ _ H) Es0).
    reflexivity. }
  unfold finish. fails_step. fails_step. fails_step.
  rewrite C. exists UnboundLocalError; reflexivity.
Qed.

Lemma missing_columns_fatal_witness :
  fails (parse_raw_stock (join_lines [lit "MARKET"; lit "INTERVAL=86400"; []])).
Proof.
  apply missing_columns_fatal; vm_compute; reflexivity.
Defined.

End FatalErrors.

(** ** The end-to-end example *)

Section EndToEnd.

(** C1, as the specification words it, does not hold: the rows are not
    stamped 2021-01-01T00:00:00-05:00 and 2021-01-02T00:00:00-05:00. *)
Lemma end_to_end_midnight_refuted :
  ~ exists md df,
      parse_raw_stock example_input = Ok (md, df)
      /\ Metadata.market md = lit "NYSE"
      /\ Metadata.tick md = Some 86400
      /\ Metadata.timezone md = Some est
      /\ index df = [CTime (isoformat 2021 1 1 0 0 0 est);
                     CTime (isoformat 2021 1 2 0 0 0 est)]
      /\ values df = example_values.
Proof.
  intros (md & df & H & _ & _ & _ & I & _).
  vm_compute in H. inversion H; subst; clear H.
  vm_compute in I. discriminate I.
Qed.

(** C1, amended: the example decodes to market NYSE, a tick of 86400 s, the
    zone UTC-05:00 and two rows, stamped 2020-12-31T19:00:00-05:00 and
    2021-01-01T19:00:00-05:00 (the instants 1609459200 and 1609545600 read in
    the zone of the feed), with the values of the lines kept as strings. *)
Theorem end_to_end_example :
  parse_raw_stock example_input
  = Ok (Metadata.mk (lit "NYSE") (Some 86400) None (Some est),
        mk_frame (lit "DATE")
                 [CTime (isoformat 2020 12 31 19 0 0 est);
                  CTime (isoformat 2021 1 1 19 0 0 est)]
                 example_columns
                 example_values).
Proof. vm_compute. reflexivity. Qed.

End EndToEnd.

(** ** The header scan *)

Section HeaderScan.

(** C3, as the specification words it, does not hold: the scan of
    [scan_input] ends on line 1, which contains ['='] (twice); the lines
    [COLUMNS=...] and [TIMEZONE_OFFSET=...] after it, which come before the
    first line without ['='], are not consumed as header lines but decoded
    as data rows, and the decode fails. *)
Lemma header_scan_two_equals :
  let lines := splitlines (strip scan_input) in
  contains c_eq (nth 1 lines []) = true
  /\ List.map (contains c_eq) lines = [false; true; true; true; false]
  /\ (exists st,
         header_loop O (skipn 1 lines) (mk_locals (md0 (lit "M")) None None)
         = Ok st
         /\ header_len st = Some O /\ columns st = None)
  /\ data_lines lines = Some (skipn 1 lines)
  /\ parse_raw_stock scan_input = Raise UnboundLocalError.
Proof.
  vm_compute. repeat split; try reflexivity.
  eexists. repeat split; reflexivity.
Qed.

Lemma Forall_is_header (hs : list str) :
  Forall (fun l => count c_eq l = 1%nat) hs ->
  Forall (fun l => is_header l = true) hs.
Proof.
  apply Forall_impl. intros l. apply is_header_count.
Qed.

Lemma data_lines_sentinel (line0 : str) (hs : list str) (d : str)
                          (rest : list str) :
  Forall (fun l => is_header l = true) hs ->
  is_header d = false ->
  data_lines (line0 :: hs ++ d :: rest) = Some (d :: rest).
Proof.
  intros H D. unfold data_lines. simpl skipn at 1.
  rewrite (scan_len_sentinel _ _ _ _ _ H D). f_equal.
  replace (0 + List.length hs + 1)%nat with (S (List.length hs)) by lia.
  simpl. rewrite skipn_app, skipn_all, Nat.sub_diag. reflexivity.
Qed.

(** C3, amended: the header scan ends at the first line, from line 1 on,
    that does not contain exactly one ['=']; each line before it is split at
    its ['='] into key and value and consumed as a header line, and when
    there is such a line, it and every line after it are decoded as data
    rows. *)
Theorem header_scan_sentinel (data line0 : str) (hs : list str) (d : str)
                             (rest : list str) :
  splitlines (strip data) = line0 :: hs ++ d :: rest ->
  Forall (fun l => count c_eq l = 1%nat) hs ->
  count c_eq d <> 1%nat ->
  (forall st i,
      header_loop i (hs ++ d :: rest) st
      = rmap (set_header_len (Some (i + List.length hs)%nat))
             (read_header hs st))
  /\ (forall h, In h hs ->
        split c_eq h = [key_of h; value_of h]
        /\ h = key_of h ++ c_eq :: value_of h)
  /\ data_lines (splitlines (strip data)) = Some (d :: rest)
  /\ parse_raw_stock data
     = (st <- read_header hs (mk_locals (md0 line0) None None) ;;
        md <- localize_sessions (metadata st) ;;
        prices <- data_loop md None (d :: rest) ;;
        cols <- lookup UnboundLocalError (columns st) ;;
        df <- DataFrame prices cols ;;
        indexed <- set_index (lit "DATE") df ;;
        Ok (md, indexed)).
Proof.
  intros L H D. apply Forall_is_header in H.
  assert (D' : is_header d = false).
  { destruct (is_header d) eqn:E; [|reflexivity].
    apply is_header_count in E. contradiction. }
  split; [|split; [|split]].
  - intros st i. rewrite header_loop_spec.
    rewrite (scan_len_sentinel _ _ _ _ _ H D').
    rewrite (header_lines_sentinel _ _ _ H D'). reflexivity.
  - intros h Hh. rewrite Forall_forall in H.
    destruct (split_one h (H h Hh)) as (S & E & _). auto.
  - rewrite L. apply data_lines_sentinel; assumption.
  - unfold parse_raw_stock. rewrite parse_lines_stages, L.
    rewrite (data_lines_sentinel _ _ _ _ H D').
    simpl. rewrite (header_lines_sentinel _ _ _ H D'). reflexivity.
Qed.

Lemma header_scan_sentinel_witness :
  data_lines (splitlines (strip example_input))
  = Some [lit "a1609459200,100,105,95,98,1000"; lit "1,102,106,96,99,1100"].
Proof.
  refine (proj1 (proj2 (proj2
    (header_scan_sentinel example_input (lit "NYSE")
       [lit "INTERVAL=86400"; lit "COLUMNS=DATE,CLOSE,HIGH,LOW,OPEN,VOLUME";
        lit "TIMEZONE_OFFSET=-300"]
       (lit "a1609459200,100,105,95,98,1000")
       [lit "1,102,106,96,99,1100"] _ _ _)))).
  - vm_compute; reflexivity.
  - repeat constructor.
  - vm_compute; discriminate.
Defined.

End HeaderScan.

(** ** From the data loop to the price table *)

Section PriceTable.

Lemma data_loop_times (md : Metadata.t session) (rows : list str) :
  forall lt prices,
    data_loop md lt rows = Ok prices ->
    exists ts, decode_times md lt rows = Ok ts /\ Forall2 is_tuple ts prices.
Proof.
  induction rows as [|line rest IH]; intros lt prices H.
  - simpl in H. inversion H. exists []. split; [reflexivity | constructor].
  - rewrite data_loop_step in H. simpl.
    destruct (row_time md lt (rawtime line)) as [[t lt']|]; [|discriminate].
    simpl in *.
    destruct (data_loop md lt' rest) as [rs|] eqn:E; [|discriminate].
    simpl in H. inversion H; subst.
    destruct (IH _ _ E) as (ts & -> & F). simpl.
    exists (t :: ts). split; [reflexivity|].
    constructor; [eexists; reflexivity | exact F].
Qed.

Lemma decode_times_length (md : Metadata.t session) (rows : list str) :
  forall lt ts,
    decode_times md lt rows = Ok ts -> List.length ts = List.length rows.
Proof.
  induction rows as [|line rest IH]; simpl; intros lt ts H.
  - inversion H; reflexivity.
  - destruct (row_time md lt (rawtime line)) as [[t lt']|]; [|discriminate].
    simpl in H.
    destruct (decode_times md lt' rest) eqn:E; [|discriminate].
    inversion H; subst. simpl. f_equal. eapply IH; eauto.
Qed.

Lemma Forall_plain_filler (data : list str) (n : nat) :
  Forall (fun c => plain c = true) (List.map CStr data ++ repeat CNone n).
Proof.
  apply Forall_app. split.
  - apply Forall_forall. intros c H. apply in_map_iff in H as (x & <- & _).
    reflexivity.
  - apply Forall_forall. intros c H. apply repeat_spec in H. subst c.
    reflexivity.
Qed.

Lemma under_plain (key : str) (labels : list str) (r : list cell) :
  Forall (fun c => plain c = true) r ->
  Forall (fun c => plain c = true) (under key labels r).
Proof.
  intros F. apply Forall_forall. intros c H. unfold under in H.
  apply in_map_iff in H as ([l c'] & <- & H). apply filter_In in H as [H _].
  apply in_combine_r in H. rewrite Forall_forall in F. apply F, H.
Qed.

(** An index entry made of strings and fillers holds just these cells. *)
Lemma cells_of_entry (cs : list cell) :
  Forall (fun c => plain c = true) cs -> cells_of (index_entry cs) = cs.
Proof.
  intros F. destruct cs as [|c [|c' cs]]; try reflexivity.
  inversion F as [|? ? P _]; subst. destruct c; try discriminate; reflexivity.
Qed.

Lemma first_time_plain (cs rest : list cell) :
  Forall (fun c => plain c = true) cs ->
  first_time (cs ++ rest) = first_time rest.
Proof.
  induction 1 as [|c cs P _ IH]; [reflexivity|].
  simpl. destruct c; try discriminate; exact IH.
Qed.

(** A row holds its timestamp in its index entry or in a column, whichever
    columns carry the label of the index. *)
Lemma first_time_tuple (key : str) (labels : list str) (t : datetime)
                       (data : list str) (k : nat) :
  labels <> [] ->
  let r := pad k (CTime t :: List.map CStr data) in
  first_time (cells_of (index_entry (under key labels r))
              ++ beside key labels r) = Some t.
Proof.
  intros NE. destruct labels as [|l0 ls]; [contradiction|].
  unfold pad. cbn [app List.length]. unfold under, beside.
  cbn [combine List.filter fst].
  set (n := (k - S (List.length (List.map CStr data)))%nat).
  pose proof (Forall_plain_filler data n) as Q.
  set (q := List.map CStr data ++ repeat CNone n) in *.
  pose proof (under_plain key ls q Q) as U.
  destruct (eqb l0 key); cbn [negb List.map snd].
  - fold (under key ls q). destruct (under key ls q) as [|c cs]; reflexivity.
  - fold (under key ls q). fold (beside key ls q).
    rewrite (cells_of_entry _ U), (first_time_plain _ _ U). reflexivity.
Qed.

Lemma row_times_tuples (key : str) (labels : list str) (k : nat)
                       (ts : list datetime) (prices : list (list cell)) :
  labels <> [] ->
  Forall2 is_tuple ts prices ->
  row_times (List.map (fun r => index_entry (under key labels r))
                      (List.map (pad k) prices))
            (List.map (beside key labels) (List.map (pad k) prices))
  = List.map Some ts.
Proof.
  intros NE.
  induction 1 as [|t row ts prices (data & ->) _ IH]; simpl; [reflexivity|].
  f_equal; [|exact IH].
  apply (first_time_tuple key labels t data k NE).
Qed.

(** The table keeps the rows in the order of the tuples, and the timestamp
    of each row is the one of its tuple, whichever column is the index. *)
Lemma frame_timestamps (ts : list datetime) (prices : list (list cell))
                       (cols : list str) (key : str) (tbl : table)
                       (df : frame) :
  Forall2 is_tuple ts prices ->
  DataFrame prices cols = Ok tbl ->
  set_index key tbl = Ok df ->
  timestamps df = List.map Some ts.
Proof.
  intros F D S. unfold timestamps.
  unfold set_index in S.
  destruct (existsb _ (labels tbl)) eqn:X; [|discriminate].
  inversion S; subst; clear S. cbn [index values].
  unfold DataFrame in D. destruct prices as [|p ps].
  - inversion D; subst. inversion F; subst. reflexivity.
  - destruct (List.length cols =? width (p :: ps))%nat; [|discriminate].
    inversion D; subst; clear D. cbn [labels records] in *.
    apply (row_times_tuples key cols (width (p :: ps)) ts (p :: ps));
      [|exact F].
    intros ->. discriminate.
Qed.

(** The timestamps of the table of a successful decode. *)
Lemma parse_lines_timestamps (lines : list str) (md : Metadata.t session)
                             (df : frame) :
  parse_lines lines = Ok (md, df) ->
  exists rows ts,
    data_lines lines = Some rows
    /\ decode_times md None rows = Ok ts
    /\ timestamps df = List.map Some ts.
Proof.
  intros H. apply parse_lines_ok in H
    as (l0 & st & rows & prices & cols & tbl & _ & _ & _ & D & P & _ & F & S).
  destruct (data_loop_times _ _ _ _ P) as (ts & T & X).
  exists rows, ts. repeat split; auto.
  eapply frame_timestamps; eauto.
Qed.

End PriceTable.

(** ** Delta decoding of the timestamps *)

Section DeltaDecoding.

Lemma row_time_absolute (md : Metadata.t session) (lt lt' : option datetime)
                        (tok : str) (t : datetime) :
  startswith c_a tok = true ->
  row_time md lt tok = Ok (t, lt') ->
  lt' = Some t
  /\ exists n tz, int (tl tok) = Ok n /\ Metadata.timezone md = Some tz
                  /\ t = mk_datetime n tz.
Proof.
  intros A. unfold row_time. rewrite A.
  destruct (int (tl tok)) as [n|]; simpl; [|discriminate].
  destruct (Metadata.timezone md) as [tz|]; simpl; [|discriminate].
  unfold fromtimestamp.
  destruct (_ || _); [discriminate|].
  destruct (_ || _); [discriminate|].
  destruct (negb (in_range n)); [discriminate|].
  destruct (negb (in_range _)); [discriminate|].
  simpl. intros H; inversion H; subst. split; [reflexivity|].
  exists n, tz. auto.
Qed.

Lemma row_time_relative (md : Metadata.t session) (lt lt' : option datetime)
                        (tok : str) (t : datetime) :
  startswith c_a tok = false ->
  row_time md lt tok = Ok (t, lt') ->
  lt' = lt
  /\ exists a tk n,
       lt = Some a /\ Metadata.tick md = Some tk /\ int tok = Ok n
       /\ timestamp t = timestamp a + n * tk /\ tzinfo t = tzinfo a.
Proof.
  intros A. unfold row_time. rewrite A.
  destruct lt as [a|]; simpl; [|discriminate].
  destruct (Metadata.tick md) as [tk|]; simpl; [|discriminate].
  destruct (int tok) as [n|]; simpl; [|discriminate].
  unfold timedelta_mul, check_timedelta.
  destruct (_ && _); simpl; [|discriminate].
  unfold datetime_add. destruct (in_range _); [|discriminate].
  simpl. intros H; inversion H; subst. split; [reflexivity|].
  exists a, tk, n. simpl. repeat split; auto. lia.
Qed.

(** Where the timestamp of a relative line comes from: the last marker
    line before it, or, before any marker, the anchor the loop started
    with. *)
Lemma decode_times_relative (md : Metadata.t session) (rows : list str) :
  forall lt ts,
    decode_times md lt rows = Ok ts ->
    forall i line,
      nth_error rows i = Some line -> is_absolute line = false ->
      exists n tk t,
        int (rawtime line) = Ok n /\ Metadata.tick md = Some tk
        /\ nth_error ts i = Some t
        /\ ((exists j lj tj,
                (j < i)%nat /\ nth_error rows j = Some lj
                /\ is_absolute lj = true
                /\ (forall k lk, (j < k < i)%nat -> nth_error rows k = Some lk ->
                                 is_absolute lk = false)
                /\ nth_error ts j = Some tj
                /\ timestamp t = timestamp tj + n * tk
                /\ tzinfo t = tzinfo tj)
            \/ ((forall k lk, (k < i)%nat -> nth_error rows k = Some lk ->
                              is_absolute lk = false)
                /\ exists a, lt = Some a
                             /\ timestamp t = timestamp a + n * tk
                             /\ tzinfo t = tzinfo a)).
Proof.
  induction rows as [|l0 rest IH]; intros lt ts H i line Hi R.
  - destruct i; discriminate.
  - simpl in H.
    destruct (row_time md lt (rawtime l0)) as [[t0 lt']|] eqn:RT;
      [|discriminate].
    simpl in H.
    destruct (decode_times md lt' rest) as [ts'|] eqn:DT; [|discriminate].
    inversion H; subst; clear H.
    destruct i as [|i].
    + simpl in Hi. inversion Hi; subst.
      destruct (row_time_relative _ _ _ _ _ R RT)
        as (_ & a & tk & n & -> & TK & I & T1 & T2).
      exists n, tk, t0. repeat split; auto.
      right. split; [intros k lk Hk; lia|]. exists a. auto.
    + simpl in Hi.
      destruct (IH _ _ DT i line Hi R) as (n & tk & t & I & TK & N & C).
      exists n, tk, t. repeat split; auto.
      destruct C as [(j & lj & tj & J & NJ & AJ & B & TJ & E1 & E2)
                    |(B & a & LA & E1 & E2)].
      * left. exists (S j), lj, tj. repeat split; auto; try lia.
        intros k lk Hk Nk. destruct k as [|k]; [lia|].
        apply (B k lk); [lia | exact Nk].
      * destruct (is_absolute l0) eqn:A0.
        -- destruct (row_time_absolute _ _ _ _ _ A0 RT) as (L & _).
           rewrite L in LA. inversion LA; subst a.
           left. exists O, l0, t0. repeat split; auto; try lia.
           intros k lk Hk Nk. destruct k as [|k]; [lia|].
           apply (B k lk); [lia | exact Nk].
        -- destruct (row_time_relative _ _ _ _ _ A0 RT) as (L & _).
           right. split.
           ++ intros k lk Hk Nk. destruct k as [|k].
              ** simpl in Nk. inversion Nk; subst; exact A0.
              ** apply (B k lk); [lia | exact Nk].
           ++ exists a. rewrite <- L. auto.
Qed.

(** C2: in a decoded input, the timestamp of a data line whose time token is
    a plain integer [n] is the timestamp of the last absolute-marker line
    before it plus [n] ticks, whatever relative lines lie in between: only a
    marker line sets the anchor. *)
Theorem relative_rows_offset_from_anchor
    (data : str) (md : Metadata.t session) (df : frame) (rows : list str) :
  parse_raw_stock data = Ok (md, df) ->
  data_lines (splitlines (strip data)) = Some rows ->
  forall i line,
    nth_error rows i = Some line -> is_relative line = true ->
    exists n tk j marker anchor t,
      int (rawtime line) = Ok n
      /\ Metadata.tick md = Some tk
      /\ (j < i)%nat
      /\ nth_error rows j = Some marker
      /\ is_absolute marker = true
      /\ (forall k l, (j < k < i)%nat -> nth_error rows k = Some l ->
                      is_relative l = true)
      /\ nth_error (timestamps df) j = Some (Some anchor)
      /\ nth_error (timestamps df) i = Some (Some t)
      /\ timestamp t = timestamp anchor + n * tk
      /\ tzinfo t = tzinfo anchor.
Proof.
  intros P D i line Hi R.
  destruct (parse_lines_timestamps _ _ _ P) as (rows' & ts & D' & T & E).
  rewrite D in D'. inversion D'; subst rows'; clear D'.
  assert (A : is_absolute line = false).
  { unfold is_relative in R. destruct (is_absolute line); [discriminate|].
    reflexivity. }
  destruct (decode_times_relative _ _ _ _ T i line Hi A)
    as (n & tk & t & I & TK & N & C).
  destruct C as [(j & lj & tj & J & NJ & AJ & B & TJ & E1 & E2)
                |(_ & a & LA & _)]; [|discriminate].
  exists n, tk, j, lj, tj, t. rewrite E.
  repeat split; auto.
  - intros k l Hk Nk. unfold is_relative. rewrite (B k l Hk Nk). reflexivity.
  - rewrite nth_error_map, TJ. reflexivity.
  - rewrite nth_error_map, N. reflexivity.
Qed.

Lemma relative_rows_offset_from_anchor_witness :
  exists n tk j marker anchor t,
    int (rawtime (lit "1,102,106,96,99,1100")) = Ok n
    /\ Some 86400 = Some tk
    /\ (j < 1)%nat
    /\ nth_error [lit "a1609459200,100,105,95,98,1000";
                  lit "1,102,106,96,99,1100"] j = Some marker
    /\ is_absolute marker = true
    /\ (forall k l, (j < k < 1)%nat ->
          nth_error [lit "a1609459200,100,105,95,98,1000";
                     lit "1,102,106,96,99,1100"] k = Some l ->
          is_relative l = true)
    /\ nth_error [Some (isoformat 2020 12 31 19 0 0 est);
                  Some (isoformat 2021 1 1 19 0 0 est)] j = Some (Some anchor)
    /\ nth_error [Some (isoformat 2020 12 31 19 0 0 est);
                  Some (isoformat 2021 1 1 19 0 0 est)] 1 = Some (Some t)
    /\ timestamp t = timestamp anchor + n * tk
    /\ tzinfo t = tzinfo anchor.
Proof.
  apply (relative_rows_offset_from_anchor example_input
           (Metadata.mk (lit "NYSE") (Some 86400) None (Some est))
           (mk_frame (lit "DATE")
              [CTime (isoformat 2020 12 31 19 0 0 est);
               CTime (isoformat 2021 1 1 19 0 0 est)]
              example_columns example_values)
           [lit "a1609459200,100,105,95,98,1000"; lit "1,102,106,96,99,1100"]
           ltac:(vm_compute; reflexivity) ltac:(vm_compute; reflexivity)
           1%nat (lit "1,102,106,96,99,1100")
           ltac:(reflexivity) ltac:(vm_compute; reflexivity)).
Defined.

End DeltaDecoding.

(** ** Order of the rows *)

Section RowOrder.

Lemma instants_map_some (df : frame) (ts : list datetime) :
  timestamps df = List.map Some ts -> instants df = List.map timestamp ts.
Proof.
  unfold instants. intros ->. induction ts as [|t ts IH]; simpl; congruence.
Qed.

(** The data loop computes the instants the feed encodes, line by line. *)
Lemma decode_times_feed (md : Metadata.t session) (rows : list str) :
  forall lt ts,
    decode_times md lt rows = Ok ts ->
    List.map timestamp ts
    = feed_instants (Metadata.tick md) (option_map timestamp lt) rows.
Proof.
  induction rows as [|l0 rest IH]; intros lt ts H; simpl in *.
  - inversion H; reflexivity.
  - destruct (row_time md lt (rawtime l0)) as [[t0 lt']|] eqn:RT;
      [|discriminate].
    simpl in H.
    destruct (decode_times md lt' rest) as [ts'|] eqn:DT; [|discriminate].
    inversion H; subst; clear H. simpl. rewrite (IH _ _ DT).
    destruct (is_absolute l0) eqn:A.
    + destruct (row_time_absolute _ _ _ _ _ A RT)
        as (-> & n & tz & -> & _ & ->). reflexivity.
    + destruct (row_time_relative _ _ _ _ _ A RT)
        as (-> & a & tk & n & -> & -> & -> & E & _).
      simpl. rewrite E. f_equal. lia.
Qed.

(** C8, as the specification words it, does not hold: [backwards_input]
    decodes, and the timestamps of its table go down. *)
Lemma backwards_feed_decodes :
  exists md df,
    parse_raw_stock backwards_input = Ok (md, df)
    /\ instants df = [1000; 500]
    /\ ~ Sorted Z.le (instants df).
Proof.
  eexists; eexists. split; [vm_compute; reflexivity|].
  split; [reflexivity|].
  intros S. inversion S as [|a l _ H]; subst.
  inversion H as [|b l' L]; subst. lia.
Qed.

(** C8, amended: in a decoded input the rows of the price table are in the
    order of the data lines, and their timestamps are the instants the lines
    encode (the value of a marker, or the last marker plus the offset in
    ticks); they are non-decreasing whenever those instants are.  The decoder
    neither sorts nor checks them. *)
Theorem rows_in_feed_order
    (data : str) (md : Metadata.t session) (df : frame) (rows : list str) :
  parse_raw_stock data = Ok (md, df) ->
  data_lines (splitlines (strip data)) = Some rows ->
  instants df = feed_instants (Metadata.tick md) None rows
  /\ List.length (instants df) = List.length rows
  /\ (Sorted Z.le (feed_instants (Metadata.tick md) None rows) ->
      Sorted Z.le (instants df)).
Proof.
  intros P D.
  destruct (parse_lines_timestamps _ _ _ P) as (rows' & ts & D' & T & E).
  rewrite D in D'. inversion D'; subst rows'; clear D'.
  apply instants_map_some in E.
  assert (F : instants df = feed_instants (Metadata.tick md) None rows).
  { rewrite E. apply (decode_times_feed _ _ _ _ T). }
  split; [exact F|]. split.
  - rewrite E, length_map. eapply decode_times_length; eauto.
  - rewrite F. auto.
Qed.

Lemma rows_in_feed_order_witness :
  instants (mk_frame (lit "DATE")
              [CTime (isoformat 2020 12 31 19 0 0 est);
               CTime (isoformat 2021 1 1 19 0 0 est)]
              example_columns example_values)
  = [1609459200; 1609545600].
Proof.
  refine (proj1 (rows_in_feed_order example_input
           (Metadata.mk (lit "NYSE") (Some 86400) None (Some est))
           _
           [lit "a1609459200,100,105,95,98,1000"; lit "1,102,106,96,99,1100"]
           _ _)).
  - vm_compute; reflexivity.
  - vm_compute; reflexivity.
Defined.

End RowOrder.

(** ** The numbers of the session pattern *)

Section SessionPattern.

Lemma span_forall (p : char -> bool) (s a b : str) :
  Re.span p s = (a, b) -> Forall (fun c => p c = true) a.
Proof.
  revert a b; induction s as [|c s IH]; simpl; intros a b H.
  - inversion H; constructor.
  - destruct (p c) eqn:P.
    + destruct (Re.span p s) as [a' b'] eqn:E. inversion H; subst.
      constructor; [exact P | eapply IH; reflexivity].
    + inversion H; constructor.
Qed.

Lemma match_session_digits (s g1 g2 g3 : str) (len : nat) :
  Re.match_session s = Some (g1, g2, g3, len) ->
  (g2 <> [] /\ Forall (fun c => is_digit c = true) g2)
  /\ (g3 <> [] /\ Forall (fun c => is_digit c = true) g3).
Proof.
  unfold Re.match_session. destruct s as [|c0 s1]; [discriminate|].
  destruct (negb (c0 =? 91)%N); [discriminate|].
  destruct (Re.span Re.is_code s1) as [a s2].
  destruct a as [|a0 a]; [discriminate|]. destruct s2 as [|c1 s3];
    [discriminate|].
  destruct (negb (c1 =? 44)%N); [discriminate|].
  destruct (Re.span is_digit s3) as [b s4] eqn:E2.
  destruct b as [|b0 b]; [discriminate|]. destruct s4 as [|c2 s5];
    [discriminate|].
  destruct (negb (c2 =? 44)%N); [discriminate|].
  destruct (Re.span is_digit s5) as [c s6] eqn:E3.
  destruct c as [|d0 d]; [discriminate|]. destruct s6 as [|c3 s7];
    [discriminate|].
  destruct (negb (c3 =? 93)%N); [discriminate|].
  intros H; inversion H; subst.
  apply span_forall in E2, E3.
  repeat split; auto; discriminate.
Qed.

Lemma finditer_digits (s : str) :
  forall skip,
    Forall (fun '(g1, g2, g3) =>
              (g2 <> [] /\ Forall (fun c => is_digit c = true) g2)
              /\ (g3 <> [] /\ Forall (fun c => is_digit c = true) g3))
           (Re.finditer skip s).
Proof.
  induction s as [|c s IH]; intros skip; [constructor|].
  cbn [Re.finditer]. destruct skip as [|k]; [|apply IH].
  destruct (Re.match_session (c :: s)) as [[[[g1 g2] g3] len]|] eqn:M;
    [|apply IH].
  constructor; [|apply IH].
  eapply match_session_digits; eauto.
Qed.

Lemma digit_not_int_space (c : char) :
  is_digit c = true -> is_int_space c = false.
Proof.
  unfold is_digit, is_int_space. intros H.
  apply andb_true_iff in H as [H1 H2].
  apply N.leb_le in H1, H2.
  assert (E1 : (c <=? 13)%N = false) by (apply N.leb_gt; lia).
  assert (E2 : (c =? 32)%N = false) by (apply N.eqb_neq; lia).
  assert (E3 : (128 <=? c)%N = false) by (apply N.leb_gt; lia).
  rewrite E1, E2, E3, andb_false_r. reflexivity.
Qed.

Lemma lskip_digit (c : char) (s : str) :
  is_digit c = true -> lskip (c :: s) = c :: s.
Proof.
  intros H. simpl. rewrite (digit_not_int_space _ H). reflexivity.
Qed.

(** An ASCII digit is a decimal digit. *)
Lemma decimal_digit (c : char) :
  is_digit c = true -> decimal c = Some (Z.of_N (c - 48)).
Proof.
  unfold is_digit. intros H. apply andb_true_iff in H as [H1 H2].
  apply N.leb_le in H1, H2.
  unfold decimal, decimal_zeros. cbn [find].
  assert (E : ((48 <=? c) && (c <? 48 + 10))%N = true).
  { apply andb_true_iff. split; [apply N.leb_le | apply N.ltb_lt]; lia. }
  rewrite E. reflexivity.
Qed.

Lemma digits_total (s : str) :
  Forall (fun c => is_digit c = true) s ->
  forall acc b, (s <> [] \/ b = true) ->
                exists v, digits acc b s = Some v.
Proof.
  induction 1 as [|c s Hc _ IH]; intros acc b Hb; cbn [digits].
  - destruct Hb as [Hb | ->]; [contradiction | eauto].
  - rewrite (decimal_digit _ Hc). apply IH. right; reflexivity.
Qed.

Lemma digit_count_le (s : str) : (digit_count s <= List.length s)%nat.
Proof. apply filter_length_le. Qed.

(** [int] of a non-empty string of ASCII digits is defined, unless the
    string is longer than the limit. *)
Lemma int_digits (s : str) :
  s <> [] -> Forall (fun c => is_digit c = true) s ->
  (List.length s <= max_str_digits)%nat ->
  exists v, int s = Ok v.
Proof.
  intros NE F L. unfold int.
  destruct s as [|c s]; [contradiction|].
  inversion F as [|? ? Hc Fs]; subst.
  rewrite (lskip_digit _ _ Hc).
  assert (R : lskip (rev (c :: s)) = rev (c :: s)).
  { assert (F' : Forall (fun c => is_digit c = true) (rev (c :: s)))
      by (apply Forall_rev; exact F).
    destruct (rev (c :: s)) as [|d r] eqn:E.
    - reflexivity.
    - inversion F'; subst. apply lskip_digit; assumption. }
  rewrite R, rev_involutive.
  assert (c <> 45%N /\ c <> 43%N) as [N1 N2].
  { unfold is_digit in Hc. apply andb_true_iff in Hc as [H1 H2].
    apply N.leb_le in H1, H2. lia. }
  apply N.eqb_neq in N1, N2. rewrite N1, N2. unfold literal.
  destruct (digits_total (c :: s) F 0 false) as (v & ->);
    [left; discriminate|].
  assert (B : (max_str_digits <? digit_count (c :: s))%nat = false).
  { apply Nat.ltb_ge. pose proof (digit_count_le (c :: s)). lia. }
  rewrite B. exists v; reflexivity.
Qed.

Lemma read_sessions_total (ms : list (str * str * str)) :
  Forall (fun '(g1, g2, g3) =>
            (g2 <> [] /\ Forall (fun c => is_digit c = true) g2)
            /\ (g3 <> [] /\ Forall (fun c => is_digit c = true) g3)) ms ->
  forallb short_numbers ms = true ->
  forall d, exists d', read_sessions ms d = Ok d'.
Proof.
  induction 1 as [|[[g1 g2] g3] ms [[N2 F2] [N3 F3]] _ IH]; intros B d;
    cbn [read_sessions].
  - eauto.
  - cbn [forallb short_numbers] in B.
    apply andb_true_iff in B as [B1 B].
    apply andb_true_iff in B1 as [L2 L3]. apply Nat.leb_le in L2, L3.
    destruct (int_digits g2 N2 F2 L2) as (s & ->).
    destruct (int_digits g3 N3 F3 L3) as (e & ->). cbn [bind]. apply IH, B.
Qed.

(** The [DATA_SESSIONS] branch stores the dict read from the matches. *)
Lemma header_field_sessions (v : str) (st : locals) :
  header_field (lit "DATA_SESSIONS") v st
  = rmap (fun d => set_sessions d st) (read_sessions (Re.finditer O v) []).
Proof.
  unfold header_field.
  change (eqb (lit "DATA_SESSIONS") (lit "INTERVAL")) with false.
  change (eqb (lit "DATA_SESSIONS") (lit "COLUMNS")) with false.
  change (eqb (lit "DATA_SESSIONS") (lit "DATA_SESSIONS")) with true.
  cbv iota. destruct (read_sessions _ _); reflexivity.
Qed.

(** It raises only on a number of more digits than the limit. *)
Lemma read_sessions_short (v : str) :
  forallb short_numbers (Re.finditer O v) = true ->
  exists d, read_sessions (Re.finditer O v) [] = Ok d.
Proof.
  intros B. apply read_sessions_total; [apply finditer_digits | exact B].
Qed.

Lemma header_field_timezone (v : str) (st : locals) :
  header_field (lit "TIMEZONE_OFFSET") v st
  = rmap (fun tz => set_timezone tz st) (read_timezone v).
Proof.
  unfold header_field, read_timezone.
  change (eqb (lit "TIMEZONE_OFFSET") (lit "INTERVAL")) with false.
  change (eqb (lit "TIMEZONE_OFFSET") (lit "COLUMNS")) with false.
  change (eqb (lit "TIMEZONE_OFFSET") (lit "DATA_SESSIONS")) with false.
  change (eqb (lit "TIMEZONE_OFFSET") (lit "TIMEZONE_OFFSET")) with true.
  cbv iota.
  destruct (int v); simpl; [|reflexivity].
  destruct (timedelta_minutes a); simpl; [|reflexivity].
  destruct (timezone_of a0); reflexivity.
Qed.

End SessionPattern.

(** ** Order of the header fields *)

Section FieldOrder.

Lemma header_field_set_timezone (k v : str) (tz : timezone) (st : locals) :
  k <> lit "TIMEZONE_OFFSET" ->
  header_field k v (set_timezone tz st)
  = rmap (set_timezone tz) (header_field k v st).
Proof.
  intros N. unfold header_field. cbn [metadata set_timezone].
  repeat case_key; try reflexivity.
  - destruct (int v); simpl; [|reflexivity].
    destruct (timedelta_seconds a); reflexivity.
  - destruct (read_sessions _ _); reflexivity.
  - apply eqb_eq in Ek2. contradiction.
Qed.

Lemma header_field_set_sessions (k v : str) (d : list (str * raw_session))
                                (st : locals) :
  k <> lit "DATA_SESSIONS" ->
  header_field k v (set_sessions d st)
  = rmap (set_sessions d) (header_field k v st).
Proof.
  intros N. unfold header_field. cbn [metadata set_sessions].
  repeat case_key; try reflexivity.
  - destruct (int v); simpl; [|reflexivity].
    destruct (timedelta_seconds a); reflexivity.
  - apply eqb_eq in Ek1. contradiction.
  - destruct (int v); simpl; [|reflexivity].
    destruct (timedelta_minutes a); simpl; [|reflexivity].
    destruct (timezone_of a0); reflexivity.
Qed.

Lemma read_header_set_timezone (hs : list str) (tz : timezone) (st : locals) :
  no_key (lit "TIMEZONE_OFFSET") hs ->
  read_header hs (set_timezone tz st)
  = rmap (set_timezone tz) (read_header hs st).
Proof.
  revert st; induction hs as [|h hs IH]; intros st N; simpl; [reflexivity|].
  apply no_key_cons in N as [N1 N2].
  rewrite (header_field_set_timezone _ _ _ _ N1).
  destruct (header_field (key_of h) (value_of h) st); simpl; auto.
Qed.

Lemma read_header_set_sessions (hs : list str) (d : list (str * raw_session))
                               (st : locals) :
  no_key (lit "DATA_SESSIONS") hs ->
  read_header hs (set_sessions d st)
  = rmap (set_sessions d) (read_header hs st).
Proof.
  revert st; induction hs as [|h hs IH]; intros st N; simpl; [reflexivity|].
  apply no_key_cons in N as [N1 N2].
  rewrite (header_field_set_sessions _ _ _ _ N1).
  destruct (header_field (key_of h) (value_of h) st); simpl; auto.
Qed.

Lemma read_header_app (xs ys : list str) (st : locals) :
  read_header (xs ++ ys) st = (st' <- read_header xs st ;; read_header ys st').
Proof.
  revert st; induction xs as [|x xs IH]; intros st; simpl; [reflexivity|].
  destruct (header_field (key_of x) (value_of x) st); simpl; auto.
Qed.

(** Reading the zone before or after the sessions leaves the same entries
    in [metadata]. *)
Lemma read_header_swap (a b : str) (mid tail : list str) (st : locals) :
  key_of a = lit "TIMEZONE_OFFSET" ->
  key_of b = lit "DATA_SESSIONS" ->
  no_key (lit "TIMEZONE_OFFSET") mid ->
  no_key (lit "DATA_SESSIONS") mid ->
  (forall r, read_header (a :: mid ++ b :: tail) st = Ok r
             <-> read_header (b :: mid ++ a :: tail) st = Ok r)
  /\ (mid = [] ->
      forallb short_numbers (Re.finditer O (value_of b)) = true ->
      read_header (a :: mid ++ b :: tail) st
      = read_header (b :: mid ++ a :: tail) st).
Proof.
  intros Ka Kb Nt Ns.
  destruct (read_sessions (Re.finditer O (value_of b)) []) as [d|e] eqn:D.
  - assert (HD : forall st0, header_field (lit "DATA_SESSIONS") (value_of b) st0
                             = Ok (set_sessions d st0)).
    { intros st0. rewrite header_field_sessions, D. reflexivity. }
    assert (EA : read_header (a :: mid ++ b :: tail) st
                 = (tz <- read_timezone (value_of a) ;;
                    st1 <- read_header mid st ;;
                    read_header tail (set_sessions d (set_timezone tz st1)))).
    { cbn [read_header]. rewrite Ka, header_field_timezone.
      destruct (read_timezone (value_of a)) as [tz|]; simpl; [|reflexivity].
      rewrite read_header_app, (read_header_set_timezone _ _ _ Nt).
      destruct (read_header mid st) as [st1|]; simpl; [|reflexivity].
      rewrite Kb, HD. reflexivity. }
    assert (EB : read_header (b :: mid ++ a :: tail) st
                 = (st1 <- read_header mid st ;;
                    tz <- read_timezone (value_of a) ;;
                    read_header tail (set_sessions d (set_timezone tz st1)))).
    { cbn [read_header]. rewrite Kb, HD. cbn [bind].
      rewrite read_header_app, (read_header_set_sessions _ _ _ Ns).
      destruct (read_header mid st) as [st1|]; simpl; [|reflexivity].
      rewrite Ka, header_field_timezone.
      destruct (read_timezone (value_of a)) as [tz|]; reflexivity. }
    rewrite EA, EB. split.
    + intros r.
      destruct (read_timezone (value_of a)), (read_header mid st); simpl;
        split; auto; discriminate.
    + intros -> _. simpl.
      destruct (read_timezone (value_of a)); reflexivity.
  - assert (HD : forall st0, header_field (lit "DATA_SESSIONS") (value_of b) st0
                             = Raise e).
    { intros st0. rewrite header_field_sessions, D. reflexivity. }
    split.
    + intros r. cbn [read_header]. rewrite Kb, HD, Ka, header_field_timezone.
      cbn [bind].
      destruct (read_timezone (value_of a)) as [tz|]; cbn [rmap bind];
        [|split; discriminate].
      rewrite read_header_app.
      destruct (read_header mid (set_timezone tz st)) as [st1|]; cbn [bind];
        [|split; discriminate].
      cbn [read_header]. rewrite Kb, HD. split; discriminate.
    + intros _ B. destruct (read_sessions_short _ B) as (d & D').
      rewrite D in D'. discriminate.
Qed.

Lemma header_lines_app (hs tail : list str) :
  Forall (fun l => is_header l = true) hs ->
  header_lines (hs ++ tail) = hs ++ header_lines tail.
Proof.
  induction 1 as [|h hs Hh _ IH]; simpl; [reflexivity|].
  rewrite Hh, IH. reflexivity.
Qed.

Lemma scan_len_app (hs tail : list str) (i : nat) (hl : option nat) :
  Forall (fun l => is_header l = true) hs ->
  hs <> [] ->
  scan_len i (hs ++ tail) hl
  = scan_len (i + List.length hs) tail (Some (i + List.length hs - 1)%nat).
Proof.
  intros H; revert i hl. induction H as [|h hs Hh H IH]; intros i hl NE;
    [contradiction|].
  cbn [app scan_len]. rewrite Hh. destruct hs as [|h' hs'].
  - cbn [app List.length]. f_equal; [lia | f_equal; lia].
  - rewrite IH; [|discriminate]. cbn [List.length].
    f_equal; [lia | f_equal; lia].
Qed.

Lemma scan_len_cons_any (l : str) (ls : list str) (i : nat)
                        (hl hl' : option nat) :
  scan_len i (l :: ls) hl = scan_len i (l :: ls) hl'.
Proof. reflexivity. Qed.

Lemma first_char_rawtime (c : char) (s : str) :
  c <> c_comma -> startswith c_a (rawtime (c :: s)) = (c =? c_a)%N.
Proof.
  intros N. unfold rawtime. simpl.
  apply N.eqb_neq in N. rewrite N.
  destruct (split_cons c_comma s) as (h & t & ->). reflexivity.
Qed.

(** A header line with one of the two keys, met by the data loop, is a
    relative line. *)
Lemma key_line_relative (l : str) :
  is_header l = true ->
  key_of l = lit "TIMEZONE_OFFSET" \/ key_of l = lit "DATA_SESSIONS" ->
  is_absolute l = false.
Proof.
  intros H K. destruct (split_one l H) as (_ & E & _).
  unfold is_absolute. rewrite E.
  destruct K as [-> | ->]; apply first_char_rawtime; discriminate.
Qed.

Lemma finish_relative_only (st : locals) (line : str) (rest : list str) :
  is_absolute line = false ->
  finish st (Some (line :: rest))
  = (md <- localize_sessions (metadata st) ;; Raise UnboundLocalError).
Proof.
  intros A. unfold finish.
  destruct (localize_sessions (metadata st)) as [md|]; [|reflexivity].
  cbn [bind lookup]. rewrite data_loop_step.
  unfold row_time. unfold is_absolute in A. rewrite A. reflexivity.
Qed.

(** The data section does not depend on the order of two header lines. *)
Lemma finish_swap (line0 a b : str) (pre mid post : list str) (st : locals) :
  Forall (fun l => is_header l = true) pre ->
  Forall (fun l => is_header l = true) mid ->
  is_header a = true -> is_header b = true ->
  is_absolute a = false -> is_absolute b = false ->
  finish st (data_lines (line0 :: pre ++ a :: mid ++ b :: post))
  = finish st (data_lines (line0 :: pre ++ b :: mid ++ a :: post)).
Proof.
  intros Hpre Hmid Ha Hb Ra Rb.
  assert (HA : Forall (fun l => is_header l = true) (pre ++ a :: mid ++ [b])).
  { apply Forall_app; split; [exact Hpre|]. constructor; [exact Ha|].
    apply Forall_app; split; [exact Hmid|]. constructor; auto. }
  assert (HB : Forall (fun l => is_header l = true) (pre ++ b :: mid ++ [a])).
  { apply Forall_app; split; [exact Hpre|]. constructor; [exact Hb|].
    apply Forall_app; split; [exact Hmid|]. constructor; auto. }
  assert (EA : pre ++ a :: mid ++ b :: post = (pre ++ a :: mid ++ [b]) ++ post).
  { rewrite <- !app_assoc. simpl. rewrite <- app_assoc. reflexivity. }
  assert (EB : pre ++ b :: mid ++ a :: post = (pre ++ b :: mid ++ [a]) ++ post).
  { rewrite <- !app_assoc. simpl. rewrite <- app_assoc. reflexivity. }
  assert (LA : List.length (pre ++ a :: mid ++ [b])
               = S (S (List.length pre + List.length mid))).
  { rewrite length_app. simpl. rewrite length_app. simpl. lia. }
  assert (LB : List.length (pre ++ b :: mid ++ [a])
               = S (S (List.length pre + List.length mid))).
  { rewrite length_app. simpl. rewrite length_app. simpl. lia. }
  unfold data_lines. cbn [skipn]. rewrite EA, EB.
  rewrite (scan_len_app _ post 0 None HA),
          (scan_len_app _ post 0 None HB);
    try (destruct pre; discriminate).
  rewrite LA, LB. set (m := S (S (List.length pre + List.length mid))).
  destruct post as [|p post'].
  - cbn [scan_len]. replace (0 + m - 1 + 1)%nat with (S (m - 1)) by lia.
    cbn [skipn]. rewrite !app_nil_r.
    replace (m - 1)%nat with (List.length (pre ++ a :: mid)) at 1
      by (rewrite length_app; simpl; lia).
    replace (m - 1)%nat with (List.length (pre ++ b :: mid))
      by (rewrite length_app; simpl; lia).
    replace (pre ++ a :: mid ++ [b]) with ((pre ++ a :: mid) ++ [b])
      by (rewrite <- app_assoc; reflexivity).
    replace (pre ++ b :: mid ++ [a]) with ((pre ++ b :: mid) ++ [a])
      by (rewrite <- app_assoc; reflexivity).
    rewrite (skipn_app _ (pre ++ a :: mid) [b]),
            (skipn_app _ (pre ++ b :: mid) [a]).
    rewrite !skipn_all, !Nat.sub_diag. cbn [skipn app].
    rewrite (finish_relative_only _ _ _ Rb), (finish_relative_only _ _ _ Ra).
    reflexivity.
  - destruct (scan_len (0 + m) (p :: post') (Some (0 + m - 1)%nat))
      as [hl|] eqn:S; [|reflexivity].
    apply scan_len_bound in S as [[S _]|B]; [discriminate|].
    replace (hl + 1)%nat with (S hl) by lia. cbn [skipn].
    rewrite (skipn_app hl (pre ++ a :: mid ++ [b]) (p :: post')),
            (skipn_app hl (pre ++ b :: mid ++ [a]) (p :: post')).
    rewrite (skipn_all2 (pre ++ a :: mid ++ [b])) by (rewrite LA; lia).
    rewrite (skipn_all2 (pre ++ b :: mid ++ [a])) by (rewrite LB; lia).
    rewrite LA, LB. reflexivity.
Qed.

Lemma bind_ok_iff {A B} (r1 r2 : result A) (k : A -> result B) :
  (forall x, r1 = Ok x <-> r2 = Ok x) ->
  forall y, bind r1 k = Ok y <-> bind r2 k = Ok y.
Proof.
  intros H y. destruct r1 as [x1|e1], r2 as [x2|e2]; simpl.
  - assert (E : Ok x1 = Ok x2 :> result A) by (apply H; reflexivity).
    inversion E; tauto.
  - assert (E : @Raise A e2 = Ok x1) by (apply H; reflexivity).
    discriminate.
  - assert (E : @Raise A e1 = Ok x2) by (apply H; reflexivity).
    discriminate.
  - split; discriminate.
Qed.

End FieldOrder.

(** ** The zone of the sessions *)

Section SessionZone.

Lemma time_of_tzinfo (h m : Z) (tz : timezone) (t : time) :
  time_of h m tz = Ok t -> time_tzinfo t = tz.
Proof.
  unfold time_of.
  repeat match goal with
         | |- context [if ?c then _ else _] => destruct c
         end; intros H; inversion H; reflexivity.
Qed.

Lemma localize_zone (tz : option timezone) (items : list (str * raw_session)) :
  forall d,
    localize tz items = Ok d ->
    forall k v, In (k, v) d ->
      exists z, tz = Some z /\ time_tzinfo (start v) = z
                /\ time_tzinfo (end_ v) = z.
Proof.
  induction items as [|[k0 v0] items IH]; simpl; intros d H k v Hin.
  - inversion H; subst. contradiction.
  - destruct tz as [z|]; simpl in H; [|discriminate].
    destruct (time_of (raw_start v0 / 60) (raw_start v0 mod 60) z)
      as [s|] eqn:S; simpl in H; [|discriminate].
    destruct (time_of (raw_end v0 / 60) (raw_end v0 mod 60) z)
      as [e|] eqn:E; simpl in H; [|discriminate].
    destruct (localize (Some z) items) as [r|] eqn:R; simpl in H;
      [|discriminate].
    inversion H; subst; clear H. destruct Hin as [Hin|Hin].
    + inversion Hin; subst. exists z. simpl.
      rewrite (time_of_tzinfo _ _ _ _ S), (time_of_tzinfo _ _ _ _ E). auto.
    + apply (IH _ eq_refl k v Hin).
Qed.

Lemma read_timezone_inv (v : str) (tz : timezone) :
  read_timezone v = Ok tz ->
  exists n, int v = Ok n /\ utcoffset tz = 60 * n.
Proof.
  unfold read_timezone, timedelta_minutes, check_timedelta, timezone_of.
  destruct (int v) as [n|]; simpl; [|discriminate].
  destruct (_ && _); simpl; [|discriminate].
  destruct (_ && _); [|discriminate].
  intros H; inversion H; subst. exists n. auto.
Qed.

(** The zone in [metadata] after the header is the one already there or one
    read from a [TIMEZONE_OFFSET] line. *)
Lemma read_header_timezone_source (hs : list str) :
  forall st st' tz,
    read_header hs st = Ok st' ->
    Metadata.timezone (metadata st') = Some tz ->
    Metadata.timezone (metadata st) = Some tz
    \/ exists l n, In l hs /\ key_of l = lit "TIMEZONE_OFFSET"
                   /\ int (value_of l) = Ok n /\ utcoffset tz = 60 * n.
Proof.
  induction hs as [|h hs IH]; simpl; intros st st' tz H Z.
  - inversion H; subst. left; exact Z.
  - destruct (header_field (key_of h) (value_of h) st) as [st1|] eqn:F;
      [|discriminate].
    simpl in H. destruct (IH _ _ _ H Z) as [Z1|(l & n & Hin & K & I & U)].
    + destruct (eqb (key_of h) (lit "TIMEZONE_OFFSET")) eqn:K.
      * apply eqb_eq in K. right. rewrite K, header_field_timezone in F.
        destruct (read_timezone (value_of h)) as [tz1|] eqn:RT;
          [|discriminate].
        simpl in F. inversion F; subst st1. simpl in Z1.
        inversion Z1; subst tz1.
        destruct (read_timezone_inv _ _ RT) as (n & I & U).
        exists h, n. auto.
      * apply eqb_neq in K. left.
        rewrite <- (header_field_other_timezone _ _ _ _ K F). exact Z1.
    + right. exists l, n. auto.
Qed.

(** In a decoded input every session time carries the zone of [metadata],
    and that zone was read from a [TIMEZONE_OFFSET] header line. *)
Lemma sessions_zone (lines : list str) (md : Metadata.t session) (df : frame)
                    (ss : list (str * session)) :
  parse_lines lines = Ok (md, df) ->
  Metadata.sessions md = Some ss ->
  exists tz l n,
    Metadata.timezone md = Some tz
    /\ In l (header_lines (skipn 1 lines))
    /\ key_of l = lit "TIMEZONE_OFFSET"
    /\ int (value_of l) = Ok n
    /\ utcoffset tz = 60 * n
    /\ forall k v, In (k, v) ss ->
         time_tzinfo (start v) = tz /\ time_tzinfo (end_ v) = tz.
Proof.
  intros P S. apply parse_lines_ok in P
    as (l0 & st & rows & prices & cols & tbl & _ & RH & LS & D & DL & _).
  destruct (localize_sessions_fields _ _ LS) as (_ & _ & TZ).
  destruct (Metadata.timezone md) as [tz|] eqn:Z.
  - destruct (read_header_timezone_source _ _ _ tz RH (eq_sym TZ))
      as [N|(l & n & Hin & K & I & U)]; [discriminate|].
    exists tz, l, n.
    split; [reflexivity|]. split; [exact Hin|]. split; [exact K|].
    split; [exact I|]. split; [exact U|].
    intros k v Hkv. unfold localize_sessions in LS.
    destruct (Metadata.sessions (metadata st)) as [items|].
    + rewrite <- TZ in LS.
      destruct (localize (Some tz) items) as [d|] eqn:L; [|discriminate].
      simpl in LS. inversion LS; subst md. simpl in S. inversion S; subst d.
      destruct (localize_zone _ _ _ L k v Hkv) as (z & E & E1 & E2).
      inversion E; subst z. auto.
    + inversion LS; subst md. discriminate.
  - destruct (data_lines_cons _ _ D) as (line & rest & ->).
    destruct (data_loop_no_timezone md line rest Z) as (e & E).
    rewrite E in DL. discriminate.
Qed.

Lemma header_lines_swap_shape (a b : str) (pre mid post : list str) :
  Forall (fun l => is_header l = true) pre ->
  Forall (fun l => is_header l = true) mid ->
  is_header a = true -> is_header b = true ->
  header_lines (pre ++ a :: mid ++ b :: post)
  = pre ++ a :: mid ++ b :: header_lines post.
Proof.
  intros Hpre Hmid Ha Hb.
  rewrite (header_lines_app _ _ Hpre). cbn [header_lines]. rewrite Ha.
  rewrite (header_lines_app _ _ Hmid). cbn [header_lines]. rewrite Hb.
  reflexivity.
Qed.

Lemma bind_ext {A B} (r : result A) (k1 k2 : A -> result B) :
  (forall x, k1 x = k2 x) -> bind r k1 = bind r k2.
Proof. intros H. destruct r; simpl; auto. Qed.

Lemma other_header_forall (k1 k2 : str) (mid : list str) :
  forallb (other_header k1 k2) mid = true ->
  Forall (fun l => is_header l = true) mid /\ no_key k1 mid /\ no_key k2 mid.
Proof.
  intros H. rewrite forallb_forall in H. split; [|split].
  - apply Forall_forall. intros l Hl. specialize (H l Hl).
    unfold other_header in H. rewrite !andb_true_iff in H. tauto.
  - intros l Hl E. specialize (H l Hl). unfold other_header in H.
    rewrite !andb_true_iff in H. destruct H as [[_ H] _].
    rewrite E, eqb_refl in H. discriminate.
  - intros l Hl E. specialize (H l Hl). unfold other_header in H.
    rewrite !andb_true_iff in H. destruct H as [_ H].
    rewrite E, eqb_refl in H. discriminate.
Qed.

End SessionZone.

(** ** Percent encoding and the market label *)

Section MarketLabel.

Local Open Scope N_scope.

Lemma Ok_inj {A} (a b : A) : Ok a = Ok b -> a = b.
Proof. intros H; injection H; auto. Qed.

Lemma hex_digit_val (n : N) : n < 16 -> hex_val (hex_digit n) = Some n.
Proof.
  intros H. unfold hex_digit, hex_val.
  destruct (N.ltb_spec n 10).
  - cmp. cbn [andb orb]. f_equal; nlia.
  - cmp. cbn [andb orb]. f_equal; nlia.
Qed.

Lemma hex_digit_safe (n : N) : n < 16 -> is_safe (hex_digit n) = true.
Proof.
  intros H. unfold hex_digit, is_safe.
  destruct (N.ltb_spec n 10); cmp; reflexivity.
Qed.

Lemma safe_not_percent (b : N) : is_safe b = true -> (b =? 37) = false.
Proof.
  unfold is_safe. destruct (N.eqb_spec b 37) as [->|]; [|reflexivity].
  discriminate.
Qed.

Lemma unquote_to_bytes_plain (c : char) (s : str) :
  (c =? 37) = false -> unquote_to_bytes (c :: s) = c :: unquote_to_bytes s.
Proof.
  intros H. cbn [unquote_to_bytes]. rewrite H.
  destruct s as [|h [|l r]]; reflexivity.
Qed.

Lemma unquote_to_bytes_escape (a b : N) (s : str) :
  a < 16 -> b < 16 ->
  unquote_to_bytes (37 :: hex_digit a :: hex_digit b :: s)
  = (16 * a + b) :: unquote_to_bytes s.
Proof.
  intros Ha Hb. cbn [unquote_to_bytes].
  rewrite (hex_digit_val a Ha), (hex_digit_val b Hb). reflexivity.
Qed.

(** Percent decoding reverses percent encoding, byte by byte. *)
Lemma unquote_quote_bytes (bs : list N) :
  Forall (fun b => b < 256) bs ->
  unquote_to_bytes (List.concat (List.map quote_byte bs)) = bs.
Proof.
  induction 1 as [|b bs Hb _ IH]; [reflexivity|].
  cbn [List.map List.concat]. unfold quote_byte at 1.
  destruct (is_safe b) eqn:S.
  - cbn [app]. rewrite unquote_to_bytes_plain by (apply safe_not_percent, S).
    rewrite IH. reflexivity.
  - cbn [app]. rewrite unquote_to_bytes_escape.
    + rewrite IH. f_equal. nlia.
    + nlia.
    + nlia.
Qed.

Lemma quote_chars (bs : list N) :
  Forall (fun b => b < 256) bs ->
  Forall (fun c => is_quoted c = true) (List.concat (List.map quote_byte bs)).
Proof.
  induction 1 as [|b bs Hb _ IH]; [constructor|].
  cbn [List.map List.concat]. apply Forall_app. split; [|exact IH].
  unfold quote_byte, is_quoted. destruct (is_safe b) eqn:S.
  - constructor; [rewrite S; reflexivity | constructor].
  - repeat constructor; try reflexivity;
      rewrite hex_digit_safe; try reflexivity; nlia.
Qed.

Lemma quoted_ascii (c : char) : is_quoted c = true -> c < 128.
Proof.
  unfold is_quoted, is_safe. intros H.
  destruct (N.ltb_spec c 128) as [L|L]; [exact L|].
  exfalso. revert H. cmp. discriminate.
Qed.

Lemma quoted_not_space (c : char) : is_quoted c = true -> is_space c = false.
Proof.
  unfold is_quoted, is_safe, is_space. intros H.
  destruct (N.leb_spec c 32) as [L|L].
  - exfalso. revert H. cmp. discriminate.
  - pose proof (quoted_ascii c H). cmp. reflexivity.
Qed.

Lemma quoted_not_linebreak (c : char) :
  is_quoted c = true -> is_linebreak c = false.
Proof.
  unfold is_quoted, is_safe, is_linebreak. intros H.
  destruct (N.leb_spec c 32) as [L|L].
  - exfalso. revert H. cmp. discriminate.
  - pose proof (quoted_ascii c H). cmp. reflexivity.
Qed.

Lemma utf8_encode1_bytes (c : N) (bs : list N) :
  utf8_encode1 c = Ok bs -> Forall (fun b => b < 256) bs.
Proof.
  unfold utf8_encode1.
  destruct (N.ltb_spec c 128) as [L1|L1];
    [intros E; apply Ok_inj in E; subst bs; repeat apply Forall_cons; try apply Forall_nil; cbv beta; nlia|].
  destruct (N.ltb_spec c 2048) as [L2|L2];
    [intros E; apply Ok_inj in E; subst bs; repeat apply Forall_cons; try apply Forall_nil; cbv beta; nlia|].
  destruct ((55296 <=? c) && (c <? 57344)); [discriminate|].
  destruct (N.ltb_spec c 65536) as [L3|L3];
    [intros E; apply Ok_inj in E; subst bs; repeat apply Forall_cons; try apply Forall_nil; cbv beta; nlia|].
  destruct (N.ltb_spec c 1114112) as [L4|L4]; [|discriminate].
  intros E; apply Ok_inj in E; subst bs; repeat apply Forall_cons; try apply Forall_nil; cbv beta; nlia.
Qed.

(** Decoding reads back the code point that was encoded. *)
Lemma utf8_decode_encode1 (c : N) (bs rest : list N) :
  utf8_encode1 c = Ok bs ->
  utf8_decode (bs ++ rest) = c :: utf8_decode rest.
Proof.
  unfold utf8_encode1.
  destruct (N.ltb_spec c 128) as [L1|L1].
  { intros E; apply Ok_inj in E; subst bs. cbn [app utf8_decode]. cmp. reflexivity. }
  destruct (N.ltb_spec c 2048) as [L2|L2].
  { intros E; apply Ok_inj in E; subst bs. cbn [app utf8_decode]. unfold is_cont.
    cmp. cbn [andb]. f_equal. nlia. }
  destruct ((55296 <=? c) && (c <? 57344)) eqn:S; [discriminate|].
  assert (NS : c < 55296 \/ 57344 <= c).
  { apply andb_false_iff in S as [S|S];
      [apply N.leb_gt in S | apply N.ltb_ge in S]; nlia. }
  destruct (N.ltb_spec c 65536) as [L3|L3].
  { intros E; apply Ok_inj in E; subst bs. cbn [app utf8_decode]. unfold is_cont.
    cmp. cbn [andb negb orb].
    assert (X : (if 128 + (c / 64) mod 64 <? 160
                 then 224 + c / 4096 =? 224
                 else 224 + c / 4096 =? 237) = false).
    { destruct (N.ltb_spec (128 + (c / 64) mod 64) 160);
        apply N.eqb_neq; nlia. }
    rewrite X. f_equal. nlia. }
  destruct (N.ltb_spec c 1114112) as [L4|L4]; [|discriminate].
  intros E; apply Ok_inj in E; subst bs. cbn [app utf8_decode]. unfold is_cont.
  cmp. cbn [andb negb orb].
  assert (X : (if 128 + (c / 4096) mod 64 <? 144
               then 240 + c / 262144 =? 240
               else 240 + c / 262144 =? 244) = false).
  { destruct (N.ltb_spec (128 + (c / 4096) mod 64) 144);
      apply N.eqb_neq; nlia. }
  rewrite X. f_equal. nlia.
Qed.

Lemma utf8_decode_encode (s : str) (bs : list N) :
  utf8_encode s = Ok bs ->
  utf8_decode bs = s /\ Forall (fun b => b < 256) bs.
Proof.
  revert bs; induction s as [|c s IH]; simpl; intros bs H.
  - inversion H; subst. split; [reflexivity | constructor].
  - destruct (utf8_encode1 c) as [b|] eqn:E1; [|discriminate]. simpl in H.
    destruct (utf8_encode s) as [bs'|] eqn:E; [|discriminate]. simpl in H.
    inversion H; subst. destruct (IH _ eq_refl) as (D & F). split.
    + rewrite (utf8_decode_encode1 _ _ _ E1), D. reflexivity.
    + apply Forall_app. split; [eapply utf8_encode1_bytes; eauto | exact F].
Qed.

End MarketLabel.

(** ** The first line of the input *)

Section FirstLine.

Lemma unquote_runs_ascii (s : str) :
  Forall (fun c => (c < 128)%N) s ->
  forall run,
    unquote_runs run s = utf8_decode (unquote_to_bytes (rev run ++ s)).
Proof.
  induction 1 as [|c s Hc _ IH]; intros run; simpl.
  - rewrite app_nil_r. reflexivity.
  - apply N.ltb_lt in Hc. rewrite Hc, IH. simpl.
    rewrite <- app_assoc. reflexivity.
Qed.

Lemma unquote_to_bytes_no_percent (s : str) :
  contains 37%N s = false -> unquote_to_bytes s = s.
Proof.
  unfold contains. induction s as [|c s IH]; [reflexivity|].
  cbn [existsb]. intros H. apply orb_false_iff in H as [H1 H2].
  rewrite N.eqb_sym in H1.
  rewrite (unquote_to_bytes_plain _ _ H1), (IH H2). reflexivity.
Qed.

Lemma utf8_decode_ascii (s : str) :
  Forall (fun c => (c < 128)%N) s -> utf8_decode s = s.
Proof.
  induction 1 as [|c s Hc _ IH]; [reflexivity|].
  cbn [utf8_decode]. apply N.ltb_lt in Hc. rewrite Hc, IH. reflexivity.
Qed.

(** [unquote] reverses [quote]. *)
Lemma unquote_quote (label enc : str) :
  quote label = Ok enc -> unquote enc = label.
Proof.
  unfold quote. destruct (utf8_encode label) as [bs|] eqn:E; [|discriminate].
  simpl. intros H. apply Ok_inj in H. subst enc.
  destruct (utf8_decode_encode _ _ E) as (D & F).
  assert (A : Forall (fun c => (c < 128)%N)
                     (List.concat (List.map quote_byte bs))).
  { eapply Forall_impl; [|apply quote_chars, F]. apply quoted_ascii. }
  assert (U : utf8_decode
                (unquote_to_bytes (List.concat (List.map quote_byte bs)))
              = label).
  { rewrite (unquote_quote_bytes _ F). exact D. }
  unfold unquote.
  destruct (contains 37%N (List.concat (List.map quote_byte bs))) eqn:C.
  - rewrite (unquote_runs_ascii _ A). exact U.
  - rewrite <- U. rewrite (unquote_to_bytes_no_percent _ C).
    symmetry. apply utf8_decode_ascii, A.
Qed.

Lemma quote_not_nil (label enc : str) :
  label <> [] -> quote label = Ok enc -> enc <> [].
Proof.
  intros NE Q ->. apply NE. rewrite <- (unquote_quote _ _ Q). reflexivity.
Qed.

Lemma quote_quoted (label enc : str) :
  quote label = Ok enc -> Forall (fun c => is_quoted c = true) enc.
Proof.
  unfold quote. destruct (utf8_encode label) as [bs|] eqn:E; [|discriminate].
  simpl. intros H. apply Ok_inj in H. subst enc.
  apply quote_chars. apply (utf8_decode_encode _ _ E).
Qed.

Lemma lstrip_fixed (c : char) (s : str) :
  is_space c = false -> lstrip (c :: s) = c :: s.
Proof. intros H. simpl. rewrite H. reflexivity. Qed.

Lemma lstrip_app (a b : str) :
  lstrip b = b -> lstrip (a ++ b) = lstrip a ++ b.
Proof.
  intros H. induction a as [|c a IH]; simpl; [exact H|].
  destruct (is_space c); [exact IH | reflexivity].
Qed.

Lemma lstrip_suffix (s : str) : exists sp, s = sp ++ lstrip s.
Proof.
  induction s as [|c s (sp & IH)]; [exists []; reflexivity|].
  simpl. destruct (is_space c).
  - exists (c :: sp). simpl. f_equal. exact IH.
  - exists []. reflexivity.
Qed.

(** What [rstrip] leaves of a text is empty or starts as the text does. *)
Lemma rstrip_head (c : char) (s : str) :
  rstrip (c :: s) = [] \/ exists s', rstrip (c :: s) = c :: s'.
Proof.
  unfold rstrip. destruct (lstrip_suffix (rev (c :: s))) as (sp & E).
  apply (f_equal (@rev _)) in E. rewrite rev_involutive, rev_app_distr in E.
  destruct (rev (lstrip (rev (c :: s)))) as [|x r]; [left; reflexivity|].
  right. simpl in E. inversion E; subst. eexists; reflexivity.
Qed.

(** Stripping an input that begins with an encoded label keeps the label. *)
Lemma strip_quoted_prefix (enc tail : str) :
  enc <> [] -> Forall (fun c => is_quoted c = true) enc ->
  strip (enc ++ tail) = enc ++ rstrip tail.
Proof.
  intros NE F. unfold strip.
  assert (L : lstrip (enc ++ tail) = enc ++ tail).
  { destruct enc as [|c e]; [contradiction|]. inversion F; subst.
    apply lstrip_fixed, quoted_not_space; assumption. }
  rewrite L. unfold rstrip. rewrite rev_app_distr.
  assert (R : lstrip (rev enc) = rev enc).
  { assert (F' : Forall (fun c => is_quoted c = true) (rev enc))
      by (apply Forall_rev; exact F).
    destruct (rev enc) as [|c e]; [reflexivity|]. inversion F'; subst.
    apply lstrip_fixed, quoted_not_space; assumption. }
  rewrite (lstrip_app _ _ R), rev_app_distr, rev_involutive. reflexivity.
Qed.

Lemma splitlines_first (enc tail : str) :
  enc <> [] -> Forall (fun c => is_linebreak c = false) enc ->
  starts_line tail = true ->
  exists rest, splitlines (enc ++ tail) = enc :: rest.
Proof.
  intros NE F T. induction F as [|c e Hc F IH]; [contradiction|].
  cbn [app splitlines]. rewrite Hc. destruct e as [|c' e'].
  - cbn [app]. destruct tail as [|lb r]; [exists []; reflexivity|].
    cbn [starts_line] in T. cbn [splitlines]. rewrite T.
    destruct r as [|c2 r']; [eexists; reflexivity|].
    destruct ((lb =? 13)%N && (c2 =? 10)%N); eexists; reflexivity.
  - destruct IH as (rest & ->); [discriminate|]. eexists; reflexivity.
Qed.

Lemma starts_line_rstrip (tail : str) :
  starts_line tail = true -> starts_line (rstrip tail) = true.
Proof.
  destruct tail as [|c s]; [intros _; reflexivity|]. intros H.
  destruct (rstrip_head c s) as [-> | (s' & ->)]; [reflexivity | exact H].
Qed.

(** The first line of an input that begins with an encoded label, followed
    by nothing or by a line boundary, is the encoded label. *)
Lemma first_line_quoted (label enc tail : str) :
  label <> [] -> quote label = Ok enc -> starts_line tail = true ->
  exists rest, splitlines (strip (enc ++ tail)) = enc :: rest.
Proof.
  intros NE Q T.
  pose proof (quote_not_nil _ _ NE Q) as NE'.
  pose proof (quote_quoted _ _ Q) as F.
  rewrite (strip_quoted_prefix _ _ NE' F).
  apply splitlines_first; [exact NE' | | apply starts_line_rstrip, T].
  eapply Forall_impl; [|exact F]. apply quoted_not_linebreak.
Qed.

(** The market label of a decoded input is the first line, unquoted. *)
Lemma parse_lines_market (lines : list str) (md : Metadata.t session)
                         (df : frame) (line0 : str) :
  nth_error lines 0 = Some line0 ->
  parse_lines lines = Ok (md, df) ->
  Metadata.market md = unquote line0.
Proof.
  intros N P. apply parse_lines_ok in P
    as (l0 & st & rows & prices & cols & tbl & N' & RH & LS & _).
  rewrite N in N'. inversion N'; subst l0.
  destruct (localize_sessions_fields _ _ LS) as (M & _).
  rewrite M, (read_header_market _ _ _ RH). reflexivity.
Qed.

(** C9, as the specification words it, does not hold: the empty label
    encodes to the empty string, [strip] drops the empty first line, and the
    market field is taken from the line after it. *)
Lemma empty_label_lost :
  quote [] = Ok []
  /\ exists md df,
       parse_raw_stock empty_label_input = Ok (md, df)
       /\ Metadata.market md = lit "X"
       /\ Metadata.market md <> [].
Proof.
  split; [reflexivity|]. eexists; eexists.
  split; [vm_compute; reflexivity|]. split; [reflexivity | discriminate].
Qed.

(** C9, amended: for every non-empty market label that has a percent
    encoding, the first line of an input that begins with the encoded
    label is that encoding, unquoting it gives the label back, and the market
    field of the decoded input is the label. *)
Theorem market_label_round_trip (label enc tail : str) :
  label <> [] ->
  quote label = Ok enc ->
  starts_line tail = true ->
  nth_error (splitlines (strip (enc ++ tail))) 0 = Some enc
  /\ unquote enc = label
  /\ forall md df,
       parse_raw_stock (enc ++ tail) = Ok (md, df) ->
       Metadata.market md = label.
Proof.
  intros NE Q T.
  destruct (first_line_quoted _ _ _ NE Q T) as (rest & L).
  pose proof (unquote_quote _ _ Q) as U.
  split; [rewrite L; reflexivity|]. split; [exact U|].
  intros md df P. unfold parse_raw_stock in P.
  rewrite (parse_lines_market _ md df enc (f_equal (fun l => nth_error l 0) L) P).
  exact U.
Qed.

Lemma market_label_round_trip_witness :
  exists md df,
    parse_raw_stock (lit "M%20%E2%82%AC" ++ euro_tail) = Ok (md, df)
    /\ Metadata.market md = euro_label.
Proof.
  eexists; eexists. split; [vm_compute; reflexivity|].
  eapply (proj2 (proj2 (market_label_round_trip
                          euro_label (lit "M%20%E2%82%AC") euro_tail
                          ltac:(discriminate)
                          ltac:(vm_compute; reflexivity)
                          ltac:(vm_compute; reflexivity)))).
  vm_compute; reflexivity.
Defined.

End FirstLine.

(** ** The tick and the relative lines *)

Section Tick.

Lemma data_loop_needs_tick (md : Metadata.t session) (rows : list str) :
  Metadata.tick md = None ->
  existsb is_relative rows = true ->
  forall lt, fails (data_loop md lt rows).
Proof.
  intros TK. induction rows as [|line rest IH]; [discriminate|].
  cbn [existsb]. intros H lt. rewrite data_loop_step.
  destruct (is_relative line) eqn:R.
  - unfold is_relative in R. unfold row_time.
    destruct (is_absolute line) eqn:A; [discriminate|].
    unfold is_absolute in A. rewrite A, TK.
    destruct lt; simpl; eexists; reflexivity.
  - simpl in H. fails_step. destruct a as [t lt'].
    destruct (IH H lt') as (e & E). rewrite E. exists e; reflexivity.
Qed.

Lemma row_time_absolute_tick (md1 md2 : Metadata.t session)
                             (lt : option datetime) (tok : str) :
  startswith c_a tok = true ->
  Metadata.timezone md1 = Metadata.timezone md2 ->
  row_time md1 lt tok = row_time md2 lt tok.
Proof.
  intros A Z. unfold row_time. rewrite A, Z. reflexivity.
Qed.

(** The data loop over marker lines never reads the tick. *)
Lemma data_loop_markers_only (md1 md2 : Metadata.t session)
                             (rows : list str) :
  Metadata.timezone md1 = Metadata.timezone md2 ->
  forallb is_absolute rows = true ->
  forall lt, data_loop md1 lt rows = data_loop md2 lt rows.
Proof.
  intros Z. induction rows as [|line rest IH]; [reflexivity|].
  cbn [forallb]. intros H lt. apply andb_true_iff in H as [A H].
  rewrite !data_loop_step.
  rewrite (row_time_absolute_tick md1 md2 lt _ A Z).
  destruct (row_time md2 lt (rawtime line)) as [[t lt']|]; [|reflexivity].
  cbn [bind]. rewrite (IH H lt'). reflexivity.
Qed.

Lemma header_field_set_tick (k v : str) (t : option timedelta) (st : locals) :
  k <> lit "INTERVAL" ->
  header_field k v (set_tick t st) = rmap (set_tick t) (header_field k v st).
Proof.
  intros N. unfold header_field. cbn [metadata set_tick].
  repeat case_key; try reflexivity.
  - apply eqb_eq in Ek. contradiction.
  - destruct (read_sessions _ _); reflexivity.
  - destruct (int v); simpl; [|reflexivity].
    destruct (timedelta_minutes a); simpl; [|reflexivity].
    destruct (timezone_of a0); reflexivity.
Qed.

Lemma read_header_set_tick (hs : list str) (t : option timedelta)
                           (st : locals) :
  no_key (lit "INTERVAL") hs ->
  read_header hs (set_tick t st) = rmap (set_tick t) (read_header hs st).
Proof.
  revert st; induction hs as [|h hs IH]; intros st N; simpl; [reflexivity|].
  apply no_key_cons in N as [N1 N2].
  rewrite (header_field_set_tick _ _ _ _ N1).
  destruct (header_field (key_of h) (value_of h) st); simpl; auto.
Qed.

Lemma scan_len_shift (ls : list str) (i : nat) (h1 h2 : option nat) :
  ls <> [] ->
  scan_len (S i) ls h1 = option_map S (scan_len i ls h2).
Proof.
  revert i h1 h2; induction ls as [|l ls IH]; intros i h1 h2 NE;
    [contradiction|].
  cbn [scan_len]. destruct (is_header l); [|reflexivity].
  destruct ls as [|l' ls']; [reflexivity|]. apply IH. discriminate.
Qed.

Lemma localize_sessions_set_tick (t : option timedelta) (st : locals) :
  localize_sessions (metadata (set_tick t st))
  = rmap (fun md => Metadata.mk (Metadata.market md) t (Metadata.sessions md)
                                (Metadata.timezone md))
         (localize_sessions (metadata st)).
Proof.
  unfold localize_sessions. cbn [metadata set_tick Metadata.sessions
    Metadata.timezone Metadata.market Metadata.tick].
  destruct (Metadata.sessions (metadata st)); [|reflexivity].
  destruct (localize _ _); reflexivity.
Qed.

(** A line that starts with [INTERVAL], met by the data loop, is a relative
    line. *)
Lemma interval_line_relative (v : str) :
  is_absolute (lit "INTERVAL=" ++ v) = false.
Proof. apply first_char_rawtime. discriminate. Qed.

Lemma interval_line_header (v : str) :
  is_header (lit "INTERVAL=" ++ v) = true ->
  key_of (lit "INTERVAL=" ++ v) = lit "INTERVAL"
  /\ value_of (lit "INTERVAL=" ++ v) = v.
Proof.
  intros H. apply is_header_count in H.
  change (lit "INTERVAL=" ++ v) with (lit "INTERVAL" ++ c_eq :: v) in *.
  rewrite count_app, count_cons, N.eqb_refl in H.
  change (count c_eq (lit "INTERVAL")) with O in H.
  assert (Hv : count c_eq v = O) by (simpl in H; lia).
  destruct (is_header_intro (lit "INTERVAL") v eq_refl Hv) as (_ & K & V).
  auto.
Qed.

(** Taking the [INTERVAL] line out of an input whose data lines all carry
    the marker changes nothing but the ['tick'] entry. *)
Lemma parse_lines_without_interval
    (line0 v : str) (rest rows : list str) (md : Metadata.t session)
    (df : frame) :
  header_has (lit "INTERVAL") (line0 :: rest) = false ->
  data_lines (line0 :: rest) = Some rows ->
  forallb is_absolute rows = true ->
  parse_lines (line0 :: (lit "INTERVAL=" ++ v) :: rest) = Ok (md, df) ->
  parse_lines (line0 :: rest) = Ok (without_tick md, df).
Proof.
  intros NI D A P. set (I := lit "INTERVAL=" ++ v) in *.
  apply not_header_has in NI. cbn [skipn] in NI.
  rewrite parse_lines_stages in P. rewrite parse_lines_stages.
  cbn [nth_error lookup bind skipn] in *.
  destruct (is_header I) eqn:HI.
  - destruct (interval_line_header v HI) as (K & V). fold I in K, V.
    cbn [header_lines] in P. rewrite HI in P. cbn [read_header] in P.
    rewrite K, V in P.
    destruct (header_field (lit "INTERVAL") v
                (mk_locals (md0 line0) None None)) as [st1|] eqn:F;
      [|discriminate].
    assert (exists td, st1 = set_tick (Some td)
                                      (mk_locals (md0 line0) None None))
      as (td & ->).
    { unfold header_field in F.
      change (eqb (lit "INTERVAL") (lit "INTERVAL")) with true in F.
      cbv iota in F. destruct (int v); simpl in F; [|discriminate].
      destruct (timedelta_seconds a); simpl in F; [|discriminate].
      inversion F. eexists; reflexivity. }
    cbn [bind] in P. rewrite (read_header_set_tick _ _ _ NI) in P.
    destruct (read_header (header_lines rest)
                (mk_locals (md0 line0) None None)) as [st|] eqn:RH;
      [|discriminate].
    cbn [rmap bind] in *.
    assert (TK : Metadata.tick (metadata st) = None).
    { rewrite (read_header_no_tick _ _ _ NI RH). reflexivity. }
    assert (DL : data_lines (line0 :: I :: rest) = Some rows).
    { unfold data_lines in *. cbn [skipn] in *. cbn [scan_len]. rewrite HI.
      destruct rest as [|r rest']; [discriminate|].
      rewrite (scan_len_shift (r :: rest') 0 (Some 0%nat) None)
        by discriminate.
      destruct (scan_len 0 (r :: rest') None) as [hl|]; [|discriminate].
      cbn [option_map]. inversion D; subst rows.
      replace (S hl + 1)%nat with (S (S hl)) by lia.
      replace (hl + 1)%nat with (S hl) by lia. reflexivity. }
    rewrite DL in P. rewrite D. unfold finish in *.
    rewrite localize_sessions_set_tick in P.
    destruct (localize_sessions (metadata st)) as [m|] eqn:LS;
      [|discriminate].
    cbn [rmap bind lookup] in *.
    destruct (localize_sessions_fields _ _ LS) as (_ & T & _).
    rewrite (data_loop_markers_only
               (Metadata.mk (Metadata.market m) (Some td)
                            (Metadata.sessions m) (Metadata.timezone m))
               m rows eq_refl A None) in P.
    destruct (data_loop m None rows) as [prices|]; [|discriminate].
    cbn [bind] in *. cbn [columns set_tick] in P.
    destruct (columns st) as [cols|]; [|discriminate].
    cbn [lookup bind] in *.
    destruct (DataFrame prices cols) as [tbl|]; [|discriminate].
    cbn [bind] in *.
    destruct (set_index (lit "DATE") tbl) as [fr|]; [|discriminate].
    cbn [bind] in *. apply Ok_inj in P. injection P as <- <-.
    unfold without_tick. cbn [Metadata.market Metadata.sessions
      Metadata.timezone]. rewrite TK in T. clear - T.
    destruct m; cbn in *. rewrite T. reflexivity.
  - exfalso. cbn [header_lines] in P. rewrite HI in P.
    cbn [read_header bind] in P.
    assert (DL : data_lines (line0 :: I :: rest) = Some (I :: rest)).
    { unfold data_lines. cbn [skipn scan_len]. rewrite HI. reflexivity. }
    rewrite DL in P.
    destruct (finish_first_relative (mk_locals (md0 line0) None None)
                I rest (interval_line_relative v)) as (e & E).
    pose proof (eq_trans (eq_sym P) E) as X. discriminate X.
Qed.

(** C10: an input without an [INTERVAL] header line does not decode if one
    of its data lines is a relative line (the tick that scales the offset
    is missing); if all its data lines carry the marker, the missing
    [INTERVAL] costs nothing: whenever the input with an [INTERVAL] line
    added decodes, so does the input itself, to the same table and the same
    metadata less the tick. *)
Theorem interval_needed_by_relative_rows_only (data : str) (rows : list str) :
  header_has (lit "INTERVAL") (splitlines (strip data)) = false ->
  data_lines (splitlines (strip data)) = Some rows ->
  (existsb is_relative rows = true -> fails (parse_raw_stock data))
  /\ (forallb is_absolute rows = true ->
      forall line0 rest v md df,
        splitlines (strip data) = line0 :: rest ->
        parse_lines (line0 :: (lit "INTERVAL=" ++ v) :: rest) = Ok (md, df) ->
        parse_raw_stock data = Ok (without_tick md, df)).
Proof.
  intros NI D. split.
  - intros R. unfold parse_raw_stock. rewrite parse_lines_stages.
    fails_step. fails_step. rewrite D. unfold finish. fails_step.
    cbn [lookup bind].
    assert (TK : Metadata.tick a1 = None).
    { destruct (localize_sessions_fields _ _ Es1) as (_ & T & _).
      rewrite T, (read_header_no_tick _ _ _ (not_header_has _ _ NI) Es0).
      reflexivity. }
    destruct (data_loop_needs_tick a1 rows TK R None) as (e & E).
    rewrite E. exists e; reflexivity.
  - intros A line0 rest v md df L P. unfold parse_raw_stock.
    rewrite L in *. eapply parse_lines_without_interval; eauto.
Qed.

Lemma interval_needed_by_relative_rows_only_witness :
  exists md df,
    parse_raw_stock markers_only = Ok (without_tick md, df)
    /\ Metadata.tick md = Some 60.
Proof.
  eexists; eexists. split.
  - eapply (proj2 (interval_needed_by_relative_rows_only
                     markers_only [lit "a1000,1"; lit "a1060,2"]
                     ltac:(vm_compute; reflexivity)
                     ltac:(vm_compute; reflexivity))
                  ltac:(vm_compute; reflexivity)
                  (lit "M")
                  [lit "COLUMNS=DATE,CLOSE"; lit "TIMEZONE_OFFSET=0";
                   lit "a1000,1"; lit "a1060,2"]
                  (lit "60")).
    + vm_compute; reflexivity.
    + vm_compute; reflexivity.
  - reflexivity.
Defined.

End Tick.

(** ** Whitespace around the input, and inputs too short to decode *)

Section InputEdges.

Lemma lstrip_spaces (ws s : str) :
  forallb is_space ws = true -> lstrip (ws ++ s) = lstrip s.
Proof.
  induction ws as [|c ws IH]; simpl; [reflexivity|].
  intros H. apply andb_true_iff in H as [H1 H2]. rewrite H1. auto.
Qed.

Lemma lstrip_all_spaces (ws : str) :
  forallb is_space ws = true -> lstrip ws = [].
Proof.
  intros H. rewrite <- (app_nil_r ws), (lstrip_spaces _ _ H). reflexivity.
Qed.

Lemma forallb_rev {A} (p : A -> bool) (l : list A) :
  forallb p (rev l) = forallb p l.
Proof.
  induction l as [|x l IH]; [reflexivity|].
  simpl. rewrite forallb_app, IH. simpl. rewrite andb_true_r, andb_comm.
  reflexivity.
Qed.

Lemma rstrip_spaces (s ws : str) :
  forallb is_space ws = true -> rstrip (s ++ ws) = rstrip s.
Proof.
  intros H. unfold rstrip. rewrite rev_app_distr, lstrip_spaces; [reflexivity|].
  rewrite forallb_rev. exact H.
Qed.

Lemma lstrip_app_kept (s t : str) :
  lstrip s <> [] -> lstrip (s ++ t) = lstrip s ++ t.
Proof.
  induction s as [|c s IH]; simpl; [intros H; contradiction|].
  destruct (is_space c); auto.
Qed.

Lemma lstrip_nil_spaces (s : str) :
  lstrip s = [] -> forallb is_space s = true.
Proof.
  induction s as [|c s IH]; simpl; [reflexivity|].
  destruct (is_space c); [exact IH | discriminate].
Qed.

Lemma strip_surrounding (ws1 s ws2 : str) :
  forallb is_space ws1 = true -> forallb is_space ws2 = true ->
  strip (ws1 ++ s ++ ws2) = strip s.
Proof.
  intros H1 H2. unfold strip. rewrite (lstrip_spaces _ _ H1).
  destruct (lstrip s) as [|c r] eqn:E.
  - assert (A : forallb is_space (s ++ ws2) = true).
    { rewrite forallb_app, (lstrip_nil_spaces _ E), H2. reflexivity. }
    rewrite (lstrip_all_spaces _ A). reflexivity.
  - rewrite lstrip_app_kept by (rewrite E; discriminate).
    rewrite E. apply rstrip_spaces, H2.
Qed.

(** X12: whitespace and blank lines before and after the text of an input
    do not change what it decodes to. *)
Theorem surrounding_whitespace_ignored (ws1 data ws2 : str) :
  forallb is_space ws1 = true -> forallb is_space ws2 = true ->
  parse_raw_stock (ws1 ++ data ++ ws2) = parse_raw_stock data.
Proof.
  intros H1 H2. unfold parse_raw_stock.
  rewrite (strip_surrounding _ _ _ H1 H2). reflexivity.
Qed.

Lemma surrounding_whitespace_ignored_witness :
  parse_raw_stock ([10; 32]%N ++ example_input ++ [13; 10; 9; 10]%N)
  = parse_raw_stock example_input.
Proof.
  apply surrounding_whitespace_ignored; reflexivity.
Defined.

(** X1: an input that is empty or all whitespace raises [IndexError]: there
    is no line 0 to take the market from. *)
Theorem blank_input_index_error (data : str) :
  forallb is_space data = true ->
  parse_raw_stock data = Raise IndexError.
Proof.
  intros H. unfold parse_raw_stock, strip.
  rewrite (lstrip_all_spaces _ H). reflexivity.
Qed.

Lemma blank_input_index_error_witness :
  parse_raw_stock [32; 10; 9; 13; 10]%N = Raise IndexError.
Proof.
  apply blank_input_index_error; reflexivity.
Defined.

Lemma lstrip_forall (P : char -> Prop) (s : str) :
  Forall P s -> Forall P (lstrip s).
Proof.
  induction 1 as [|c s Hc H IH]; simpl; [constructor|].
  destruct (is_space c); [exact IH | constructor; assumption].
Qed.

Lemma strip_forall (P : char -> Prop) (s : str) :
  Forall P s -> Forall P (strip s).
Proof.
  intros H. unfold strip, rstrip.
  apply Forall_rev, lstrip_forall, Forall_rev, lstrip_forall, H.
Qed.

Lemma splitlines_one_line (s : str) :
  s <> [] -> Forall (fun c => is_linebreak c = false) s ->
  splitlines s = [s].
Proof.
  intros NE F. induction F as [|c s Hc F IH]; [contradiction|].
  cbn [splitlines]. rewrite Hc. destruct s as [|c' s'].
  - reflexivity.
  - rewrite IH by discriminate. reflexivity.
Qed.

Lemma parse_lines_one_line (line0 : str) :
  parse_lines [line0] = Raise UnboundLocalError.
Proof. reflexivity. Qed.

(** X2: an input without any line boundary never decodes.  It raises
    [IndexError] when it is all whitespace, and [UnboundLocalError] otherwise:
    the header loop has nothing to run on, and [header_len] is read
    unbound. *)
Theorem single_line_input_raises (data : str) :
  forallb (fun c => negb (is_linebreak c)) data = true ->
  parse_raw_stock data
  = if forallb is_space data then Raise IndexError
    else Raise UnboundLocalError.
Proof.
  intros H. destruct (forallb is_space data) eqn:S.
  - unfold parse_raw_stock, strip.
    rewrite (lstrip_all_spaces _ S). reflexivity.
  - unfold parse_raw_stock.
    assert (F : Forall (fun c => is_linebreak c = false) (strip data)).
    { apply strip_forall. apply Forall_forall. intros c Hc.
      rewrite forallb_forall in H. specialize (H c Hc).
      destruct (is_linebreak c); [discriminate | reflexivity]. }
    assert (NE : strip data <> []).
    { unfold strip, rstrip. intros E.
      apply (f_equal (@rev _)) in E. rewrite rev_involutive in E. simpl in E.
      apply lstrip_nil_spaces in E. rewrite forallb_rev in E.
      assert (X : forallb is_space data = true).
      { destruct (lstrip_suffix data) as (sp & D).
        rewrite D, forallb_app, E, andb_true_r.
        clear - D. revert sp D. induction data as [|c s IH]; intros sp D.
        - destruct sp; [reflexivity | discriminate].
        - simpl in D. destruct (is_space c) eqn:C.
          + destruct sp as [|x sp].
            * simpl in D. exfalso.
              assert (L : (List.length (lstrip s) <= List.length s)%nat).
              { clear. induction s as [|d s IH]; simpl; [lia|].
                destruct (is_space d); simpl; lia. }
              rewrite <- D in L. simpl in L. lia.
            * simpl in D. inversion D; subst x. simpl. rewrite C.
              apply (IH sp). assumption.
          + destruct sp as [|x sp]; [reflexivity|].
            exfalso. apply (f_equal (@List.length _)) in D.
            simpl in D. rewrite length_app in D. simpl in D. lia. }
      congruence. }
    rewrite (splitlines_one_line _ NE F). reflexivity.
Qed.

Lemma single_line_input_raises_witness :
  parse_raw_stock (lit "NYSE") = Raise UnboundLocalError.
Proof.
  apply (single_line_input_raises (lit "NYSE")); reflexivity.
Defined.

End InputEdges.

(** ** The shape of the table *)

Section TableShape.

Lemma DataFrame_inv (prices : list (list cell)) (cols : list str)
                    (tbl : table) :
  DataFrame prices cols = Ok tbl ->
  labels tbl = cols
  /\ records tbl = List.map (pad (width prices)) prices
  /\ (prices <> [] -> List.length cols = width prices).
Proof.
  unfold DataFrame. destruct prices as [|p ps].
  - intros H; inversion H; subst. repeat split; auto.
    intros N; contradiction.
  - destruct (List.length cols =? width (p :: ps))%nat eqn:E; [|discriminate].
    intros H; inversion H; subst. repeat split; auto.
    intros _. apply Nat.eqb_eq, E.
Qed.

Lemma set_index_inv (key : str) (tbl : table) (df : frame) :
  set_index key tbl = Ok df ->
  existsb (fun l => eqb l key) (labels tbl) = true
  /\ index_name df = key
  /\ index df
     = List.map (fun r => index_entry (under key (labels tbl) r))
                (records tbl)
  /\ Pandas.columns df
     = List.filter (fun l => negb (eqb l key)) (labels tbl)
  /\ values df = List.map (beside key (labels tbl)) (records tbl).
Proof.
  unfold set_index. destruct (existsb _ _); [|discriminate].
  intros H; inversion H; subst. repeat split; reflexivity.
Qed.

Lemma data_loop_length (md : Metadata.t session) (rows : list str)
                       (lt : option datetime) (prices : list (list cell)) :
  data_loop md lt rows = Ok prices -> List.length prices = List.length rows.
Proof.
  intros H. destruct (data_loop_times _ _ _ _ H) as (ts & T & F).
  apply decode_times_length in T. apply Forall2_length in F. lia.
Qed.

(** The table of a decoded input has one row for each data line. *)
Lemma parse_lines_rows (lines : list str) (md : Metadata.t session)
                       (df : frame) (rows : list str) :
  parse_lines lines = Ok (md, df) ->
  data_lines lines = Some rows ->
  List.length (index df) = List.length rows
  /\ List.length (values df) = List.length rows.
Proof.
  intros P D. apply parse_lines_ok in P
    as (l0 & st & rows' & prices & cols & tbl & _ & _ & _ & D' & DL & _
        & DF & SI).
  rewrite D in D'. inversion D'; subst rows'.
  apply data_loop_length in DL.
  destruct (DataFrame_inv _ _ _ DF) as (_ & R & _).
  destruct (set_index_inv _ _ _ SI) as (_ & _ & I & _ & V).
  rewrite I, V, R, !length_map. auto.
Qed.

End TableShape.

(** ** A header that runs to the end of the input *)

Section UnclosedHeader.

Lemma scan_len_all_headers (hs : list str) (i : nat) (hl : option nat) :
  Forall (fun l => is_header l = true) hs -> hs <> [] ->
  scan_len i hs hl = Some (i + List.length hs - 1)%nat.
Proof.
  intros H NE. rewrite <- (app_nil_r hs) at 1.
  rewrite (scan_len_app _ [] i hl H NE). reflexivity.
Qed.

Lemma data_lines_unclosed (line0 last : str) (hs : list str) :
  forallb is_header (hs ++ [last]) = true ->
  data_lines (line0 :: hs ++ [last]) = Some [last].
Proof.
  intros H. unfold data_lines. cbn [skipn].
  rewrite scan_len_all_headers;
    [| apply Forall_forall; apply forallb_forall; exact H
     | destruct hs; discriminate].
  rewrite length_app. cbn [List.length].
  replace (0 + (List.length hs + 1) - 1 + 1)%nat with (S (List.length hs))
    by lia.
  cbn [skipn]. rewrite skipn_app, skipn_all, Nat.sub_diag. reflexivity.
Qed.

(** X3: when every line after the first unpacks as [key=value], the header
    loop ends without a break, [header_len] stays on the last line, and the
    data loop runs over that one line: the last header line is decoded as the
    only data row.  Unless that line starts with the marker the decode
    raises. *)
Theorem unclosed_header_last_line_is_data
    (data line0 last : str) (hs : list str) :
  splitlines (strip data) = line0 :: hs ++ [last] ->
  forallb is_header (hs ++ [last]) = true ->
  data_lines (splitlines (strip data)) = Some [last]
  /\ header_lines (skipn 1 (splitlines (strip data))) = hs ++ [last]
  /\ (is_absolute last = false -> fails (parse_raw_stock data))
  /\ (forall md df, parse_raw_stock data = Ok (md, df) ->
                    List.length (index df) = 1%nat).
Proof.
  intros L H. rewrite L.
  pose proof (data_lines_unclosed line0 last hs H) as D.
  assert (F : Forall (fun l => is_header l = true) (hs ++ [last]))
    by (apply Forall_forall; apply forallb_forall; exact H).
  split; [exact D|]. split.
  { cbn [skipn]. rewrite <- (app_nil_r (hs ++ [last])) at 1.
    rewrite (header_lines_app _ _ F). cbn [header_lines].
    rewrite app_nil_r. reflexivity. }
  split.
  - intros R. unfold parse_raw_stock. rewrite L, parse_lines_stages.
    fails_step. fails_step. rewrite D. apply finish_first_relative, R.
  - intros md df P. unfold parse_raw_stock in P. rewrite L in P.
    apply (parse_lines_rows _ _ _ _ P D).
Qed.

Lemma unclosed_header_last_line_is_data_witness :
  data_lines (splitlines (strip unclosed_input)) = Some [lit "a1000,X=Y"]
  /\ exists md df, parse_raw_stock unclosed_input = Ok (md, df)
                   /\ values df = [[CStr (lit "X=Y")]].
Proof.
  split.
  - apply (unclosed_header_last_line_is_data unclosed_input (lit "M")
             (lit "a1000,X=Y")
             [lit "COLUMNS=DATE,CLOSE"; lit "TIMEZONE_OFFSET=0"]);
      vm_compute; reflexivity.
  - eexists; eexists. split; vm_compute; reflexivity.
Defined.

End UnclosedHeader.

(** ** What a decoded input must contain *)

Section Requirements.

Lemma header_has_true (k : str) (lines : list str) :
  header_has k lines = false \/ header_has k lines = true.
Proof. destruct (header_has k lines); auto. Qed.

(** X4: an input that decodes has a [TIMEZONE_OFFSET] line and a [COLUMNS]
    line in its header, whether or not it has sessions, and at least one data
    line, the first of which carries the absolute marker; its table has at
    least one row. *)
Theorem decoded_input_requirements
    (data : str) (md : Metadata.t session) (df : frame) :
  parse_raw_stock data = Ok (md, df) ->
  header_has (lit "TIMEZONE_OFFSET") (splitlines (strip data)) = true
  /\ header_has (lit "COLUMNS") (splitlines (strip data)) = true
  /\ (exists first rest,
         data_lines (splitlines (strip data)) = Some (first :: rest)
         /\ is_absolute first = true)
  /\ index df <> [].
Proof.
  intros P. unfold parse_raw_stock in P.
  set (lines := splitlines (strip data)) in *.
  split; [|split; [|split]].
  - destruct (header_has (lit "TIMEZONE_OFFSET") lines) eqn:H; [reflexivity|].
    destruct (no_timezone_fails lines H) as (e & E). congruence.
  - destruct (header_has (lit "COLUMNS") lines) eqn:H; [reflexivity|].
    exfalso. apply parse_lines_ok in P
      as (l0 & st & rows & prices & cols & tbl & _ & RH & _ & _ & _ & C & _).
    rewrite (read_header_no_columns _ _ _ (not_header_has _ _ H) RH) in C.
    discriminate.
  - apply parse_lines_ok in P
      as (l0 & st & rows & prices & cols & tbl & _ & _ & _ & D & DL & _).
    destruct (data_lines_cons _ _ D) as (first & rest & ->).
    exists first, rest. split; [exact D|].
    destruct (is_absolute first) eqn:A; [reflexivity|].
    destruct (data_loop_first_relative md first rest A) as (e & E).
    congruence.
  - destruct (parse_lines_timestamps _ _ _ P) as (rows & ts & D & T & E).
    destruct (data_lines_cons _ _ D) as (first & rest & ->).
    apply decode_times_length in T. intros I.
    unfold timestamps in E. rewrite I in E. simpl in E.
    destruct ts; [simpl in T; discriminate | discriminate].
Qed.

Lemma decoded_input_requirements_witness :
  header_has (lit "TIMEZONE_OFFSET") (splitlines (strip markers_only)) = true
  /\ header_has (lit "COLUMNS") (splitlines (strip markers_only)) = true
  /\ (exists first rest,
         data_lines (splitlines (strip markers_only)) = Some (first :: rest)
         /\ is_absolute first = true)
  /\ index (mk_frame (lit "DATE")
              [CTime (mk_datetime 1000 (mk_timezone 0));
               CTime (mk_datetime 1060 (mk_timezone 0))]
              [lit "CLOSE"] [[CStr (lit "1")]; [CStr (lit "2")]]) <> [].
Proof.
  apply (decoded_input_requirements markers_only
           (Metadata.mk (lit "M") None None (Some (mk_timezone 0)))).
  vm_compute; reflexivity.
Defined.

End Requirements.

(** ** Header lines the decoder does not know, and repeated ones *)

Section HeaderKeys.

Lemma known_key_false (k : str) :
  known_key k = false ->
  eqb k (lit "INTERVAL") = false /\ eqb k (lit "COLUMNS") = false
  /\ eqb k (lit "DATA_SESSIONS") = false
  /\ eqb k (lit "TIMEZONE_OFFSET") = false.
Proof.
  unfold known_key. intros H.
  repeat (apply orb_false_iff in H; destruct H as [H ?]). auto.
Qed.

Lemma header_field_unknown (k v : str) (st : locals) :
  known_key k = false -> header_field k v st = Ok st.
Proof.
  intros H. destruct (known_key_false k H) as (E1 & E2 & E3 & E4).
  unfold header_field. rewrite E1, E2, E3, E4. reflexivity.
Qed.

Lemma scan_len_app_any (pre t : list str) (i : nat) (hl h' : option nat) :
  Forall (fun l => is_header l = true) pre -> t <> [] ->
  scan_len i (pre ++ t) hl = scan_len (i + List.length pre) t h'.
Proof.
  intros F NE. revert i hl. induction F as [|p pre Hp _ IH]; intros i hl.
  - cbn [app List.length]. rewrite Nat.add_0_r.
    destruct t as [|x t']; [contradiction | reflexivity].
  - cbn [app scan_len List.length]. rewrite Hp, (IH (S i) (Some i)).
    f_equal. lia.
Qed.

(** Taking a header line out moves the data section with it, as long as a
    line follows. *)
Lemma data_lines_drop_header (line0 x : str) (pre post : list str) :
  Forall (fun l => is_header l = true) pre -> is_header x = true ->
  post <> [] ->
  data_lines (line0 :: pre ++ x :: post) = data_lines (line0 :: pre ++ post).
Proof.
  intros F Hx NE. unfold data_lines. cbn [skipn].
  rewrite (scan_len_app_any pre (x :: post) 0 None None F)
    by discriminate.
  rewrite (scan_len_app_any pre post 0 None None F NE).
  cbn [scan_len]. rewrite Hx.
  rewrite (scan_len_shift post (0 + List.length pre)
             (Some (0 + List.length pre)%nat) None NE).
  destruct (scan_len (0 + List.length pre) post None) as [hl|] eqn:S;
    [|reflexivity].
  cbn [option_map]. f_equal.
  apply scan_len_bound in S as [[S _]|B]; [contradiction|].
  replace (S hl + 1)%nat with (S (S hl)) by lia.
  replace (hl + 1)%nat with (S hl) by lia.
  rewrite !skipn_cons, !skipn_app.
  rewrite (skipn_all2 (n := S hl) pre) by lia.
  rewrite (skipn_all2 (n := hl) pre) by lia.
  cbn [app].
  replace (S hl - List.length pre)%nat with (S (hl - List.length pre))
    by lia.
  rewrite skipn_cons. reflexivity.
Qed.

(** X5: a header line whose key is none of [INTERVAL], [COLUMNS],
    [DATA_SESSIONS], [TIMEZONE_OFFSET] is ignored: the input decodes (or
    raises) exactly as the input without that line, as long as the line is
    not the last of the input. *)
Theorem unknown_header_line_ignored
    (data1 data2 line0 x : str) (pre post : list str) :
  splitlines (strip data1) = line0 :: pre ++ x :: post ->
  splitlines (strip data2) = line0 :: pre ++ post ->
  forallb is_header pre = true ->
  is_header x = true ->
  known_key (key_of x) = false ->
  post <> [] ->
  parse_raw_stock data1 = parse_raw_stock data2.
Proof.
  intros L1 L2 Hpre Hx K NE.
  assert (F : Forall (fun l => is_header l = true) pre)
    by (apply Forall_forall; apply forallb_forall; exact Hpre).
  unfold parse_raw_stock. rewrite L1, L2, !parse_lines_stages.
  cbn [nth_error lookup bind skipn].
  rewrite (data_lines_drop_header _ _ _ _ F Hx NE).
  rewrite !(header_lines_app _ _ F). cbn [header_lines]. rewrite Hx.
  rewrite !read_header_app. f_equal.
  apply bind_ext. intros st. cbn [read_header].
  rewrite (header_field_unknown _ _ _ K). reflexivity.
Qed.

Lemma unknown_header_line_ignored_witness :
  parse_raw_stock (extended_input (lit "MARKET_OPEN_MINUTE=570"))
  = parse_raw_stock example_input.
Proof.
  apply (unknown_header_line_ignored _ _ (lit "NYSE")
           (lit "MARKET_OPEN_MINUTE=570") [lit "INTERVAL=86400"]
           [lit "COLUMNS=DATE,CLOSE,HIGH,LOW,OPEN,VOLUME";
            lit "TIMEZONE_OFFSET=-300";
            lit "a1609459200,100,105,95,98,1000";
            lit "1,102,106,96,99,1100"]);
    try (vm_compute; reflexivity).
  discriminate.
Defined.

Lemma key_cases (k : str) :
  k = lit "INTERVAL" \/ k = lit "COLUMNS" \/ k = lit "DATA_SESSIONS"
  \/ k = lit "TIMEZONE_OFFSET" \/ known_key k = false.
Proof.
  unfold known_key.
  destruct (eqb k (lit "INTERVAL")) eqn:E1;
    [apply eqb_eq in E1; auto|].
  destruct (eqb k (lit "COLUMNS")) eqn:E2;
    [apply eqb_eq in E2; auto|].
  destruct (eqb k (lit "DATA_SESSIONS")) eqn:E3;
    [apply eqb_eq in E3; auto|].
  destruct (eqb k (lit "TIMEZONE_OFFSET")) eqn:E4;
    [apply eqb_eq in E4; auto 6|].
  auto 6.
Qed.

Ltac split_state st :=
  let m := fresh "m" in let t := fresh "t" in let s := fresh "s" in
  let z := fresh "z" in let c := fresh "c" in let h := fresh "h" in
  destruct st as [[m t s z] c h].

Ltac known_cases k :=
  let K := fresh "K" in
  destruct (key_cases k) as [K|[K|[K|[K|K]]]];
  [subst k | subst k | subst k | subst k
   | let E1 := fresh in let E2 := fresh in let E3 := fresh in
     let E4 := fresh in
     destruct (known_key_false k K) as (E1 & E2 & E3 & E4)].

(** Reading a field changes no entry but its own. *)
Lemma header_field_forget (k v : str) (st st1 : locals) :
  header_field k v st = Ok st1 -> forget k st1 = forget k st.
Proof.
  split_state st. known_cases k; unfold header_field, forget;
    cbn [metadata columns header_len Metadata.market Metadata.tick
         Metadata.sessions Metadata.timezone].
  - change (eqb (lit "INTERVAL") (lit "INTERVAL")) with true. cbv iota.
    destruct (int v); simpl; [|discriminate].
    destruct (timedelta_seconds _); simpl; [|discriminate].
    intros E; inversion E; reflexivity.
  - change (eqb (lit "COLUMNS") (lit "INTERVAL")) with false.
    change (eqb (lit "COLUMNS") (lit "COLUMNS")) with true. cbv iota.
    intros E; inversion E; reflexivity.
  - change (eqb (lit "DATA_SESSIONS") (lit "INTERVAL")) with false.
    change (eqb (lit "DATA_SESSIONS") (lit "COLUMNS")) with false.
    change (eqb (lit "DATA_SESSIONS") (lit "DATA_SESSIONS")) with true.
    cbv iota. destruct (read_sessions _ _); simpl; [|discriminate].
    intros E; inversion E; reflexivity.
  - change (eqb (lit "TIMEZONE_OFFSET") (lit "INTERVAL")) with false.
    change (eqb (lit "TIMEZONE_OFFSET") (lit "COLUMNS")) with false.
    change (eqb (lit "TIMEZONE_OFFSET") (lit "DATA_SESSIONS")) with false.
    change (eqb (lit "TIMEZONE_OFFSET") (lit "TIMEZONE_OFFSET")) with true.
    cbv iota. destruct (int v); simpl; [|discriminate].
    destruct (timedelta_minutes _); simpl; [|discriminate].
    destruct (timezone_of _); simpl; [|discriminate].
    intros E; inversion E; reflexivity.
  - rewrite H, H0, H1, H2. intros E; inversion E; reflexivity.
Qed.

(** A field overwrites its entry whatever the entry held. *)
Lemma header_field_overrides (k v : str) (st1 st2 : locals) :
  forget k st1 = forget k st2 ->
  header_field k v st1 = header_field k v st2.
Proof.
  split_state st1. split_state st2.
  known_cases k; unfold header_field, forget;
    cbn [metadata columns header_len Metadata.market Metadata.tick
         Metadata.sessions Metadata.timezone set_tick set_columns].
  - change (eqb (lit "INTERVAL") (lit "INTERVAL")) with true. cbv iota.
    intros E; inversion E; subst. reflexivity.
  - change (eqb (lit "COLUMNS") (lit "INTERVAL")) with false.
    change (eqb (lit "COLUMNS") (lit "COLUMNS")) with true. cbv iota.
    intros E; inversion E; subst. reflexivity.
  - change (eqb (lit "DATA_SESSIONS") (lit "INTERVAL")) with false.
    change (eqb (lit "DATA_SESSIONS") (lit "COLUMNS")) with false.
    change (eqb (lit "DATA_SESSIONS") (lit "DATA_SESSIONS")) with true.
    cbv iota. intros E; inversion E; subst. reflexivity.
  - change (eqb (lit "TIMEZONE_OFFSET") (lit "INTERVAL")) with false.
    change (eqb (lit "TIMEZONE_OFFSET") (lit "COLUMNS")) with false.
    change (eqb (lit "TIMEZONE_OFFSET") (lit "DATA_SESSIONS")) with false.
    change (eqb (lit "TIMEZONE_OFFSET") (lit "TIMEZONE_OFFSET")) with true.
    cbv iota. intros E; inversion E; subst. reflexivity.
  - rewrite H, H0, H1, H2. intros E; inversion E; subst. reflexivity.
Qed.

(** A field of another key reads neither state's entry for [k]. *)
Lemma header_field_agree (k k' v' : str) (st1 st2 : locals) :
  forget k st1 = forget k st2 ->
  agree k (header_field k' v' st1) (header_field k' v' st2).
Proof.
  intros F.
  assert (G : forall a b, forget k a = forget k b ->
                          agree k (Ok a) (Ok b)) by (intros; assumption).
  unfold header_field. repeat case_key.
  - destruct (int v'); simpl; [|reflexivity].
    destruct (timedelta_seconds _); simpl; [|reflexivity].
    revert F. split_state st1. split_state st2.
    known_cases k; unfold forget;
      cbn [metadata columns header_len Metadata.market Metadata.tick
           Metadata.sessions Metadata.timezone set_tick set_columns];
      try rewrite H, H0, H1, H2; cbn;
      intros E; inversion E; subst; reflexivity.
  - revert F. split_state st1. split_state st2.
    known_cases k; unfold forget;
      cbn [metadata columns header_len Metadata.market Metadata.tick
           Metadata.sessions Metadata.timezone set_tick set_columns];
      try rewrite H, H0, H1, H2; cbn;
      intros E; inversion E; subst; reflexivity.
  - destruct (read_sessions _ _); simpl; [|reflexivity].
    revert F. split_state st1. split_state st2.
    known_cases k; unfold forget;
      cbn [metadata columns header_len Metadata.market Metadata.tick
           Metadata.sessions Metadata.timezone set_tick set_columns];
      try rewrite H, H0, H1, H2; cbn;
      intros E; inversion E; subst; reflexivity.
  - destruct (int v'); simpl; [|reflexivity].
    destruct (timedelta_minutes _); simpl; [|reflexivity].
    destruct (timezone_of _); simpl; [|reflexivity].
    revert F. split_state st1. split_state st2.
    known_cases k; unfold forget;
      cbn [metadata columns header_len Metadata.market Metadata.tick
           Metadata.sessions Metadata.timezone set_tick set_columns];
      try rewrite H, H0, H1, H2; cbn;
      intros E; inversion E; subst; reflexivity.
  - exact F.
Qed.

(** Once a line with key [k] is read, what the entry of [k] held before is
    forgotten. *)
Lemma read_header_overrides (k : str) (hs : list str) :
  forall st1 st2,
    forget k st1 = forget k st2 ->
    existsb (fun l => eqb (key_of l) k) hs = true ->
    read_header hs st1 = read_header hs st2.
Proof.
  induction hs as [|h hs IH]; intros st1 st2 F E; [discriminate|].
  cbn [existsb] in E. cbn [read_header].
  destruct (eqb (key_of h) k) eqn:K.
  - apply eqb_eq in K. rewrite K.
    rewrite (header_field_overrides k _ _ _ F). reflexivity.
  - simpl in E.
    pose proof (header_field_agree k (key_of h) (value_of h) _ _ F) as A.
    destruct (header_field (key_of h) (value_of h) st1) as [a|e1],
             (header_field (key_of h) (value_of h) st2) as [b|e2];
      simpl in A; try contradiction.
    + simpl. apply IH; assumption.
    + subst; reflexivity.
Qed.

(** X6: a header line is overridden by a later header line with the same
    key: if the input decodes, so does the input without the earlier line, to
    the same result.  For [DATA_SESSIONS] this means the later line replaces
    the sessions of the earlier one, it does not add to them. *)
Theorem earlier_header_line_overridden
    (data1 data2 line0 a b : str) (pre mid post : list str)
    (r : Metadata.t session * frame) :
  splitlines (strip data1) = line0 :: pre ++ a :: mid ++ b :: post ->
  splitlines (strip data2) = line0 :: pre ++ mid ++ b :: post ->
  forallb is_header pre = true ->
  forallb is_header mid = true ->
  is_header a = true -> is_header b = true ->
  key_of a = key_of b ->
  parse_raw_stock data1 = Ok r ->
  parse_raw_stock data2 = Ok r.
Proof.
  intros L1 L2 Hpre Hmid Ha Hb K P.
  assert (Fp : Forall (fun l => is_header l = true) pre)
    by (apply Forall_forall; apply forallb_forall; exact Hpre).
  assert (Fm : Forall (fun l => is_header l = true) mid)
    by (apply Forall_forall; apply forallb_forall; exact Hmid).
  unfold parse_raw_stock in *. rewrite L1 in P. rewrite L2.
  rewrite parse_lines_stages in *.
  cbn [nth_error lookup bind skipn] in *.
  rewrite (data_lines_drop_header _ _ _ _ Fp Ha) in P
    by (destruct mid; discriminate).
  rewrite (header_lines_app _ _ Fp) in P. rewrite (header_lines_app _ _ Fp).
  cbn [header_lines] in P. rewrite Ha in P.
  rewrite (header_lines_app _ _ Fm) in P. rewrite (header_lines_app _ _ Fm).
  cbn [header_lines] in *. rewrite Hb in P. rewrite Hb.
  rewrite read_header_app in P. rewrite read_header_app.
  destruct (read_header pre _) as [st|]; [|discriminate].
  cbn [bind read_header] in P. cbn [bind].
  destruct (header_field (key_of a) (value_of a) st) as [sta|] eqn:F;
    [|discriminate].
  cbn [bind] in P.
  rewrite (read_header_overrides (key_of a) _ sta st
             (header_field_forget _ _ _ _ F)) in P; [exact P|].
  rewrite existsb_app. cbn [existsb]. rewrite K, eqb_refl.
  rewrite orb_true_r. reflexivity.
Qed.

Lemma earlier_header_line_overridden_witness :
  exists r,
    parse_raw_stock repeated_input = Ok r
    /\ parse_raw_stock repeated_input_last = Ok r.
Proof.
  eexists. split; [vm_compute; reflexivity|].
  apply (earlier_header_line_overridden repeated_input repeated_input_last
           (lit "M") (lit "INTERVAL=60") (lit "INTERVAL=120") []
           [lit "DATA_SESSIONS=[A,0,1][B,2,3]"; lit "COLUMNS=DATE,CLOSE"]
           [lit "TIMEZONE_OFFSET=0"; lit "DATA_SESSIONS=[C,4,5]";
            lit "a1000,1"; lit "1,2"]);
    vm_compute; reflexivity.
Defined.

End HeaderKeys.

(** ** The timestamps of the rows *)

Section RowTimestamps.

Lemma in_range_bounds (s : Z) :
  in_range s = true -> MINYEAR_s <= s <= MAXYEAR_s.
Proof.
  unfold in_range. intros H. apply andb_true_iff in H as [H1 H2].
  apply Z.leb_le in H1, H2. lia.
Qed.

Lemma row_time_absolute_valid (md : Metadata.t session)
                              (lt lt' : option datetime) (tok : str)
                              (t : datetime) :
  startswith c_a tok = true ->
  row_time md lt tok = Ok (t, lt') ->
  valid_in (Metadata.timezone md) t.
Proof.
  intros A. unfold row_time. rewrite A.
  destruct (int (tl tok)) as [n|]; simpl; [|discriminate].
  destruct (Metadata.timezone md) as [tz|]; simpl; [|discriminate].
  unfold fromtimestamp.
  destruct (_ || _); [discriminate|].
  destruct (_ || _); [discriminate|].
  destruct (negb (in_range n)); [discriminate|].
  destruct (in_range (n + utcoffset tz)) eqn:R; [|discriminate].
  simpl. intros H; inversion H; subst. split; [reflexivity|].
  apply in_range_bounds, R.
Qed.

Lemma row_time_relative_valid (md : Metadata.t session)
                              (a : datetime) (lt' : option datetime)
                              (tok : str) (t : datetime) :
  startswith c_a tok = false ->
  valid_in (Metadata.timezone md) a ->
  row_time md (Some a) tok = Ok (t, lt') ->
  valid_in (Metadata.timezone md) t.
Proof.
  intros A [Z _]. unfold row_time. rewrite A. cbn [lookup bind].
  destruct (Metadata.tick md) as [tk|]; simpl; [|discriminate].
  destruct (int tok) as [n|]; simpl; [|discriminate].
  destruct (timedelta_mul tk n) as [d|]; simpl; [|discriminate].
  unfold datetime_add. destruct (in_range (wall a + d)) eqn:R;
    [|discriminate].
  intros H; inversion H; subst. split; [exact Z|].
  apply in_range_bounds in R. unfold wall in *. simpl. lia.
Qed.

Lemma decode_times_valid (md : Metadata.t session) (rows : list str) :
  forall lt ts,
    (forall a, lt = Some a -> valid_in (Metadata.timezone md) a) ->
    decode_times md lt rows = Ok ts ->
    Forall (valid_in (Metadata.timezone md)) ts.
Proof.
  induction rows as [|line rest IH]; intros lt ts V H; simpl in H.
  - inversion H; constructor.
  - destruct (row_time md lt (rawtime line)) as [[t lt']|] eqn:RT;
      [|discriminate].
    simpl in H.
    destruct (decode_times md lt' rest) as [ts'|] eqn:DT; [|discriminate].
    inversion H; subst; clear H.
    destruct (startswith c_a (rawtime line)) eqn:A.
    + pose proof (row_time_absolute_valid _ _ _ _ _ A RT) as Vt.
      destruct (row_time_absolute _ _ _ _ _ A RT) as (-> & _).
      constructor; [exact Vt|].
      apply (IH (Some t) ts'); [|exact DT].
      intros a E. inversion E; subst a. exact Vt.
    + destruct (row_time_relative _ _ _ _ _ A RT) as (-> & a & _ & _ & -> & _).
      pose proof (row_time_relative_valid _ _ _ _ _ A (V a eq_refl) RT) as Vt.
      constructor; [exact Vt|]. apply (IH _ _ V DT).
Qed.

(** X11: every timestamp of the table of a decoded input carries the zone
    of the metadata, and its wall-clock reading in that zone has a year in
    1..9999. *)
Theorem timestamps_in_metadata_zone
    (data : str) (md : Metadata.t session) (df : frame) :
  parse_raw_stock data = Ok (md, df) ->
  exists ts,
    timestamps df = List.map Some ts
    /\ Forall (valid_in (Metadata.timezone md)) ts.
Proof.
  intros P.
  destruct (parse_lines_timestamps _ _ _ P) as (rows & ts & _ & T & E).
  exists ts. split; [exact E|].
  apply (decode_times_valid md rows None ts); [discriminate | exact T].
Qed.

Lemma timestamps_in_metadata_zone_witness :
  exists ts,
    timestamps (mk_frame (lit "DATE")
                  [CTime (isoformat 2020 12 31 19 0 0 est);
                   CTime (isoformat 2021 1 1 19 0 0 est)]
                  example_columns example_values)
    = List.map Some ts
    /\ Forall (valid_in (Some est)) ts.
Proof.
  apply (timestamps_in_metadata_zone example_input
           (Metadata.mk (lit "NYSE") (Some 86400) None (Some est))).
  vm_compute; reflexivity.
Defined.

Lemma decode_times_marker (md : Metadata.t session) (rows : list str) :
  forall lt ts,
    decode_times md lt rows = Ok ts ->
    forall i line,
      nth_error rows i = Some line -> is_absolute line = true ->
      exists n tz,
        int (tl (rawtime line)) = Ok n
        /\ Metadata.timezone md = Some tz
        /\ nth_error ts i = Some (mk_datetime n tz).
Proof.
  induction rows as [|l0 rest IH]; intros lt ts H i line Hi A.
  - destruct i; discriminate.
  - simpl in H.
    destruct (row_time md lt (rawtime l0)) as [[t0 lt']|] eqn:RT;
      [|discriminate].
    simpl in H.
    destruct (decode_times md lt' rest) as [ts'|] eqn:DT; [|discriminate].
    inversion H; subst; clear H. destruct i as [|i].
    + simpl in Hi. inversion Hi; subst.
      destruct (row_time_absolute _ _ _ _ _ A RT) as (_ & n & tz & I & Z & ->).
      exists n, tz. auto.
    + simpl in Hi. apply (IH _ _ DT i line Hi A).
Qed.

(** X19: in a decoded input, the timestamp of a data line with the absolute
    marker is the instant written after the marker, read as seconds since
    the epoch, in the zone of the metadata; no tick and no earlier row enters
    it. *)
Theorem marker_rows_carry_their_instant
    (data : str) (md : Metadata.t session) (df : frame) (rows : list str) :
  parse_raw_stock data = Ok (md, df) ->
  data_lines (splitlines (strip data)) = Some rows ->
  forall i line,
    nth_error rows i = Some line -> is_absolute line = true ->
    exists n tz,
      int (tl (rawtime line)) = Ok n
      /\ Metadata.timezone md = Some tz
      /\ nth_error (timestamps df) i = Some (Some (mk_datetime n tz)).
Proof.
  intros P D i line Hi A.
  destruct (parse_lines_timestamps _ _ _ P) as (rows' & ts & D' & T & E).
  rewrite D in D'. inversion D'; subst rows'.
  destruct (decode_times_marker _ _ _ _ T i line Hi A) as (n & tz & I & Z & N).
  exists n, tz. rewrite E, nth_error_map, N. auto.
Qed.

Lemma marker_rows_carry_their_instant_witness :
  exists n tz,
    int (tl (rawtime (lit "a500,2"))) = Ok n
    /\ Some (mk_timezone 0) = Some tz
    /\ nth_error [Some (mk_datetime 1000 (mk_timezone 0));
                  Some (mk_datetime 500 (mk_timezone 0))] 1
       = Some (Some (mk_datetime n tz)).
Proof.
  apply (marker_rows_carry_their_instant backwards_input
           (Metadata.mk (lit "M") None None (Some (mk_timezone 0)))
           (mk_frame (lit "DATE")
              [CTime (mk_datetime 1000 (mk_timezone 0));
               CTime (mk_datetime 500 (mk_timezone 0))]
              [lit "CLOSE"] [[CStr (lit "1")]; [CStr (lit "2")]])
           [lit "a1000,1"; lit "a500,2"]
           ltac:(vm_compute; reflexivity) ltac:(vm_compute; reflexivity)
           1%nat (lit "a500,2") ltac:(reflexivity)
           ltac:(vm_compute; reflexivity)).
Defined.

Lemma row_time_literal (md : Metadata.t session) (lt : option datetime)
                       (line : str) (e : exn) :
  int (time_literal line) = Raise e ->
  fails (row_time md lt (rawtime line)).
Proof.
  unfold time_literal, is_absolute, row_time.
  destruct (startswith c_a (rawtime line)); intros I.
  - rewrite I. eexists; reflexivity.
  - rewrite I. destruct lt; simpl; [|eexists; reflexivity].
    destruct (Metadata.tick md); simpl; eexists; reflexivity.
Qed.

Lemma data_loop_bad_literal (md : Metadata.t session) (rows : list str)
                            (line : str) (e : exn) :
  In line rows -> int (time_literal line) = Raise e ->
  forall lt, fails (data_loop md lt rows).
Proof.
  intros Hin I. induction rows as [|l0 rest IH]; [contradiction|].
  intros lt. rewrite data_loop_step. destruct Hin as [-> | Hin].
  - destruct (row_time_literal md lt line e I) as (e' & E).
    rewrite E. exists e'; reflexivity.
  - fails_step. destruct a as [t lt'].
    destruct (IH Hin lt') as (e' & E). rewrite E. exists e'; reflexivity.
Qed.

(** X15: an input does not decode if the time token of one of its data
    lines is not an integer literal (after the marker, when it has one); a
    blank line in the data section is such a line. *)
Theorem malformed_time_token_fatal
    (data : str) (rows : list str) (line : str) (e : exn) :
  data_lines (splitlines (strip data)) = Some rows ->
  In line rows ->
  int (time_literal line) = Raise e ->
  fails (parse_raw_stock data).
Proof.
  intros D Hin I. unfold parse_raw_stock. rewrite parse_lines_stages.
  fails_step. fails_step. rewrite D. unfold finish. fails_step.
  cbn [lookup bind].
  destruct (data_loop_bad_literal a1 rows line e Hin I None) as (e' & E).
  rewrite E. exists e'; reflexivity.
Qed.

Lemma malformed_time_token_fatal_witness :
  fails (parse_raw_stock blank_row_input).
Proof.
  apply (malformed_time_token_fatal blank_row_input
           [lit "a1000,1"; []; lit "1,2"] [] ValueError).
  - vm_compute; reflexivity.
  - right; left; reflexivity.
  - reflexivity.
Defined.

End RowTimestamps.

(** ** The numbers and the entries of the header *)

Section HeaderEntries.

Lemma read_header_each (hs : list str) :
  forall st st',
    read_header hs st = Ok st' ->
    forall l, In l hs ->
      exists s s', header_field (key_of l) (value_of l) s = Ok s'.
Proof.
  induction hs as [|h hs IH]; intros st st' H l Hin; [contradiction|].
  simpl in H.
  destruct (header_field (key_of h) (value_of h) st) as [st1|] eqn:F;
    [|discriminate].
  simpl in H. destruct Hin as [-> | Hin]; [eauto|].
  apply (IH _ _ H l Hin).
Qed.

Lemma header_field_interval_inv (v : str) (st st' : locals) :
  header_field (lit "INTERVAL") v st = Ok st' ->
  exists n, int v = Ok n /\ timedelta_min <= n <= timedelta_max
            /\ Metadata.tick (metadata st') = Some n.
Proof.
  unfold header_field.
  change (eqb (lit "INTERVAL") (lit "INTERVAL")) with true. cbv iota.
  destruct (int v) as [n|]; cbn [bind]; [|discriminate].
  unfold timedelta_seconds, check_timedelta.
  destruct ((timedelta_min <=? n) && (n <=? timedelta_max)) eqn:B;
    cbn [bind]; [|discriminate].
  apply andb_true_iff in B as [B1 B2]. apply Z.leb_le in B1, B2.
  intros H; inversion H; subst. exists n. cbn [metadata Metadata.tick].
  auto.
Qed.

Lemma read_timezone_bounds (v : str) (tz : timezone) :
  read_timezone v = Ok tz ->
  exists n, int v = Ok n /\ -1440 < n < 1440 /\ utcoffset tz = 60 * n.
Proof.
  unfold read_timezone, timedelta_minutes, check_timedelta, timezone_of.
  destruct (int v) as [n|]; cbn [bind]; [|discriminate].
  destruct ((timedelta_min <=? 60 * n) && (60 * n <=? timedelta_max));
    cbn [bind]; [|discriminate].
  destruct ((-86400 <? 60 * n) && (60 * n <? 86400)) eqn:B; [|discriminate].
  apply andb_true_iff in B as [B1 B2]. apply Z.ltb_lt in B1, B2.
  intros H; inversion H; subst. exists n. cbn [utcoffset].
  repeat split; auto; lia.
Qed.

(** X13: in a decoded input the value of every [INTERVAL] header line is an
    integer literal within the range of a [timedelta] counted in seconds,
    and the value of every [TIMEZONE_OFFSET] header line is an integer
    literal strictly between -1440 and 1440 minutes, the overridden lines
    included: any other value is fatal. *)
Theorem decoded_header_numbers
    (data : str) (md : Metadata.t session) (df : frame) (l : str) :
  parse_raw_stock data = Ok (md, df) ->
  In l (header_lines (skipn 1 (splitlines (strip data)))) ->
  (key_of l = lit "INTERVAL" ->
   exists n, int (value_of l) = Ok n /\ timedelta_min <= n <= timedelta_max)
  /\ (key_of l = lit "TIMEZONE_OFFSET" ->
      exists n, int (value_of l) = Ok n /\ -1440 < n < 1440).
Proof.
  intros P Hin. apply parse_lines_ok in P
    as (l0 & st & rows & prices & cols & tbl & _ & RH & _).
  destruct (read_header_each _ _ _ RH l Hin) as (s & s' & F). split.
  - intros K. rewrite K in F.
    destruct (header_field_interval_inv _ _ _ F) as (n & I & B & _).
    exists n. auto.
  - intros K. rewrite K, header_field_timezone in F.
    destruct (read_timezone (value_of l)) as [tz|] eqn:RT; [|discriminate].
    destruct (read_timezone_bounds _ _ RT) as (n & I & B & _).
    exists n. auto.
Qed.

Lemma decoded_header_numbers_witness :
  exists n, int (value_of (lit "INTERVAL=60")) = Ok n
            /\ timedelta_min <= n <= timedelta_max.
Proof.
  refine (proj1 (decoded_header_numbers repeated_input _ _
                   (lit "INTERVAL=60") _ _) _).
  - vm_compute; reflexivity.
  - vm_compute; auto.
  - vm_compute; reflexivity.
Defined.

Lemma header_field_tick_cases (k v : str) (st st' : locals) :
  header_field k v st = Ok st' ->
  (k = lit "INTERVAL" /\ exists n, int v = Ok n
                                  /\ Metadata.tick (metadata st') = Some n)
  \/ (k <> lit "INTERVAL"
      /\ Metadata.tick (metadata st') = Metadata.tick (metadata st)).
Proof.
  intros F. destruct (eqb k (lit "INTERVAL")) eqn:K.
  - apply eqb_eq in K. subst k. left. split; [reflexivity|].
    destruct (header_field_interval_inv _ _ _ F) as (n & I & _ & T). eauto.
  - apply eqb_neq in K. right. split; [exact K|].
    eapply header_field_other_tick; eauto.
Qed.

Lemma read_header_tick (hs : list str) :
  forall st st',
    read_header hs st = Ok st' ->
    (existsb (fun l => eqb (key_of l) (lit "INTERVAL")) hs = true ->
     Metadata.tick (metadata st') <> None)
    /\ (Metadata.tick (metadata st) <> None ->
        Metadata.tick (metadata st') <> None)
    /\ (forall tk, Metadata.tick (metadata st') = Some tk ->
          Metadata.tick (metadata st) = Some tk
          \/ exists l, In l hs /\ key_of l = lit "INTERVAL"
                       /\ int (value_of l) = Ok tk).
Proof.
  induction hs as [|h hs IH]; intros st st' H.
  - simpl in H. inversion H; subst. repeat split; auto. discriminate.
  - simpl in H.
    destruct (header_field (key_of h) (value_of h) st) as [st1|] eqn:F;
      [|discriminate].
    simpl in H. destruct (IH _ _ H) as (I1 & I2 & I3).
    destruct (header_field_tick_cases _ _ _ _ F)
      as [(K & n & In' & T)|(K & T)].
    + split; [|split].
      * intros _. apply I2. rewrite T. discriminate.
      * intros _. apply I2. rewrite T. discriminate.
      * intros tk E. destruct (I3 tk E) as [E1|(l & Hl & Kl & Il)].
        -- right. exists h. rewrite T in E1. inversion E1; subst.
           split; [left; reflexivity | auto].
        -- right. exists l. split; [right; exact Hl | auto].
    + split; [|split].
      * cbn [existsb]. apply eqb_neq in K. rewrite K. exact I1.
      * intros N. apply I2. rewrite T. exact N.
      * intros tk E. destruct (I3 tk E) as [E1|(l & Hl & Kl & Il)].
        -- left. rewrite <- T. exact E1.
        -- right. exists l. split; [right; exact Hl | auto].
Qed.

Lemma header_field_other_sessions (k v : str) (st st' : locals) :
  k <> lit "DATA_SESSIONS" ->
  header_field k v st = Ok st' ->
  Metadata.sessions (metadata st') = Metadata.sessions (metadata st).
Proof.
  intros N. unfold header_field.
  repeat case_key; repeat case_bind; intros H; inversion H; try reflexivity.
  apply eqb_eq in Ek1. contradiction.
Qed.

Lemma header_field_sessions_inv (v : str) (st st' : locals) :
  header_field (lit "DATA_SESSIONS") v st = Ok st' ->
  exists d, read_sessions (Re.finditer O v) [] = Ok d
            /\ Metadata.sessions (metadata st') = Some d.
Proof.
  unfold header_field.
  change (eqb (lit "DATA_SESSIONS") (lit "INTERVAL")) with false.
  change (eqb (lit "DATA_SESSIONS") (lit "COLUMNS")) with false.
  change (eqb (lit "DATA_SESSIONS") (lit "DATA_SESSIONS")) with true.
  cbv iota. destruct (read_sessions _ _) as [d|]; cbn [bind]; [|discriminate].
  intros H; inversion H; subst. exists d. auto.
Qed.

Lemma read_header_sessions (hs : list str) :
  forall st st',
    read_header hs st = Ok st' ->
    (existsb (fun l => eqb (key_of l) (lit "DATA_SESSIONS")) hs = true ->
     Metadata.sessions (metadata st') <> None)
    /\ (Metadata.sessions (metadata st) <> None ->
        Metadata.sessions (metadata st') <> None)
    /\ (forall d, Metadata.sessions (metadata st') = Some d ->
          Metadata.sessions (metadata st) = Some d
          \/ exists l, In l hs /\ key_of l = lit "DATA_SESSIONS"
                       /\ read_sessions (Re.finditer O (value_of l)) []
                          = Ok d).
Proof.
  induction hs as [|h hs IH]; intros st st' H.
  - simpl in H. inversion H; subst. repeat split; auto. discriminate.
  - simpl in H.
    destruct (header_field (key_of h) (value_of h) st) as [st1|] eqn:F;
      [|discriminate].
    simpl in H. destruct (IH _ _ H) as (I1 & I2 & I3).
    destruct (eqb (key_of h) (lit "DATA_SESSIONS")) eqn:K.
    + apply eqb_eq in K. rewrite K in F.
      destruct (header_field_sessions_inv _ _ _ F) as (d0 & R & T).
      split; [|split].
      * intros _. apply I2. rewrite T. discriminate.
      * intros _. apply I2. rewrite T. discriminate.
      * intros d E. destruct (I3 d E) as [E1|(l & Hl & Kl & Rl)].
        -- right. exists h. rewrite T in E1. inversion E1; subst.
           split; [left; reflexivity | auto].
        -- right. exists l. split; [right; exact Hl | auto].
    + pose proof K as K'. apply eqb_neq in K'.
      pose proof (header_field_other_sessions _ _ _ _ K' F) as T.
      split; [|split].
      * cbn [existsb]. rewrite K. exact I1.
      * intros N. apply I2. rewrite T. exact N.
      * intros d E. destruct (I3 d E) as [E1|(l & Hl & Kl & Rl)].
        -- left. rewrite <- T. exact E1.
        -- right. exists l. split; [right; exact Hl | auto].
Qed.

Lemma localize_sessions_none (m : Metadata.t raw_session)
                             (md : Metadata.t session) :
  localize_sessions m = Ok md ->
  (Metadata.sessions md = None <-> Metadata.sessions m = None).
Proof.
  unfold localize_sessions. destruct (Metadata.sessions m) as [items|].
  - destruct (localize _ _); simpl; [|discriminate].
    intros H; inversion H; subst; simpl. split; discriminate.
  - intros H; inversion H; subst; simpl. tauto.
Qed.

Lemma header_has_existsb (k : str) (lines : list str) :
  header_has k lines
  = existsb (fun l => eqb (key_of l) k) (header_lines (skipn 1 lines)).
Proof. reflexivity. Qed.

(** X14: in the metadata of a decoded input the ['tick'] entry is present
    exactly when the header has an [INTERVAL] line, and is then the integer
    of such a line, in seconds; the ['sessions'] entry is present exactly
    when the header has a [DATA_SESSIONS] line, even one that holds no
    well-formed triple. *)
Theorem decoded_entries_present
    (data : str) (md : Metadata.t session) (df : frame) :
  parse_raw_stock data = Ok (md, df) ->
  (Metadata.tick md = None
   <-> header_has (lit "INTERVAL") (splitlines (strip data)) = false)
  /\ (Metadata.sessions md = None
      <-> header_has (lit "DATA_SESSIONS") (splitlines (strip data)) = false)
  /\ (forall tk, Metadata.tick md = Some tk ->
        exists l, In l (header_lines (skipn 1 (splitlines (strip data))))
                  /\ key_of l = lit "INTERVAL"
                  /\ int (value_of l) = Ok tk).
Proof.
  intros P. apply parse_lines_ok in P
    as (l0 & st & rows & prices & cols & tbl & _ & RH & LS & _).
  destruct (localize_sessions_fields _ _ LS) as (_ & T & _).
  pose proof (localize_sessions_none _ _ LS) as SN.
  destruct (read_header_tick _ _ _ RH) as (T1 & _ & T3).
  destruct (read_header_sessions _ _ _ RH) as (S1 & _ & S3).
  rewrite !header_has_existsb. split; [|split].
  - rewrite T. split.
    + intros N.
      destruct (existsb (fun l => eqb (key_of l) (lit "INTERVAL")) _)
        eqn:E; [|reflexivity].
      exfalso. apply (T1 eq_refl N).
    + intros E.
      destruct (Metadata.tick (metadata st)) as [tk|] eqn:TK;
        [|reflexivity].
      destruct (T3 tk eq_refl) as [X|(l & Hl & Kl & _)]; [discriminate|].
      exfalso.
      assert (Y : existsb (fun l => eqb (key_of l) (lit "INTERVAL"))
                    (header_lines (skipn 1 (splitlines (strip data))))
                  = true).
      { apply existsb_exists. exists l. split; [exact Hl|].
        apply eqb_eq, Kl. }
      congruence.
  - rewrite SN. split.
    + intros N.
      destruct (existsb (fun l => eqb (key_of l) (lit "DATA_SESSIONS")) _)
        eqn:E; [|reflexivity].
      exfalso. apply (S1 eq_refl N).
    + intros E.
      destruct (Metadata.sessions (metadata st)) as [d|] eqn:SS;
        [|reflexivity].
      destruct (S3 d eq_refl) as [X|(l & Hl & Kl & _)]; [discriminate|].
      exfalso.
      assert (Y : existsb (fun l => eqb (key_of l) (lit "DATA_SESSIONS"))
                    (header_lines (skipn 1 (splitlines (strip data))))
                  = true).
      { apply existsb_exists. exists l. split; [exact Hl|].
        apply eqb_eq, Kl. }
      congruence.
  - intros tk E. rewrite T in E.
    destruct (T3 tk E) as [X|(l & Hl & Kl & Il)]; [discriminate|].
    exists l. auto.
Qed.

Lemma decoded_entries_present_witness :
  (Metadata.tick (@Metadata.mk session (lit "M") None None
                                (Some (mk_timezone 0))) = None
   <-> header_has (lit "INTERVAL") (splitlines (strip markers_only)) = false).
Proof.
  refine (proj1 (decoded_entries_present markers_only
                   (Metadata.mk (lit "M") None None (Some (mk_timezone 0)))
                   _ _)).
  vm_compute; reflexivity.
Defined.

End HeaderEntries.

(** ** The sessions *)

Section Sessions.

Lemma dict_set_in {V} (k : str) (v : V) (d : list (str * V)) (k' : str)
                  (v' : V) :
  In (k', v') (dict_set k v d) -> (k' = k /\ v' = v) \/ In (k', v') d.
Proof.
  induction d as [|[k0 v0] d IH]; simpl.
  - intros [H|[]]. inversion H; auto.
  - destruct (eqb k0 k) eqn:E.
    + intros [H|H]; [inversion H; auto | right; right; exact H].
    + intros [H|H]; [right; left; exact H|].
      destruct (IH H) as [X|X]; [left; exact X | right; right; exact X].
Qed.

Lemma dict_set_keys {V} (k : str) (v : V) (d : list (str * V)) (k' : str) :
  In k' (List.map fst (dict_set k v d)) -> k' = k \/ In k' (List.map fst d).
Proof.
  induction d as [|[k0 v0] d IH]; simpl.
  - intros [H|[]]; auto.
  - destruct (eqb k0 k) eqn:E; simpl.
    + intros [H|H]; auto.
    + intros [H|H]; [auto|]. destruct (IH H); auto.
Qed.

(** [d[k] = v] keeps the keys of a dict distinct. *)
Lemma dict_set_nodup {V} (k : str) (v : V) (d : list (str * V)) :
  NoDup (List.map fst d) -> NoDup (List.map fst (dict_set k v d)).
Proof.
  induction d as [|[k0 v0] d IH]; simpl; intros N.
  - constructor; [intros [] | constructor].
  - inversion N as [|? ? N1 N2]; subst. destruct (eqb k0 k) eqn:E; simpl.
    + apply eqb_eq in E. subst k0. constructor; assumption.
    + constructor; [|apply IH, N2].
      intros H. destruct (dict_set_keys _ _ _ _ H) as [X|X].
      * subst k0. rewrite eqb_refl in E. discriminate.
      * contradiction.
Qed.

Lemma read_sessions_inv (ms : list (str * str * str)) :
  forall d d',
    read_sessions ms d = Ok d' ->
    (NoDup (List.map fst d) -> NoDup (List.map fst d'))
    /\ forall k raw, In (k, raw) d' ->
         In (k, raw) d
         \/ exists g2 g3, In (k, g2, g3) ms
                          /\ int g2 = Ok (raw_start raw)
                          /\ int g3 = Ok (raw_end raw).
Proof.
  induction ms as [|[[g1 g2] g3] ms IH]; intros d d' H; simpl in H.
  - inversion H; subst. split; auto.
  - destruct (int g2) as [s|] eqn:I2; simpl in H; [|discriminate].
    destruct (int g3) as [e|] eqn:I3; simpl in H; [|discriminate].
    destruct (IH _ _ H) as (N & S). split.
    + intros ND. apply N, dict_set_nodup, ND.
    + intros k raw Hin. destruct (S k raw Hin) as [X|(h2 & h3 & X & Y)].
      * destruct (dict_set_in _ _ _ _ _ X) as [[-> ->]|X'].
        -- right. exists g2, g3. simpl. auto.
        -- left; exact X'.
      * right. exists h2, h3. split; [right; exact X | exact Y].
Qed.

Lemma match_session_code (s g1 g2 g3 : str) (len : nat) :
  Re.match_session s = Some (g1, g2, g3, len) ->
  g1 <> [] /\ Forall (fun c => Re.is_code c = true) g1.
Proof.
  unfold Re.match_session. destruct s as [|c0 s1]; [discriminate|].
  destruct (negb (c0 =? 91)%N); [discriminate|].
  destruct (Re.span Re.is_code s1) as [a s2] eqn:E1.
  destruct a as [|a0 a]; [discriminate|]. destruct s2 as [|c1 s3];
    [discriminate|].
  destruct (negb (c1 =? 44)%N); [discriminate|].
  destruct (Re.span is_digit s3) as [b s4].
  destruct b as [|b0 b]; [discriminate|]. destruct s4 as [|c2 s5];
    [discriminate|].
  destruct (negb (c2 =? 44)%N); [discriminate|].
  destruct (Re.span is_digit s5) as [c s6].
  destruct c as [|d0 d]; [discriminate|]. destruct s6 as [|c3 s7];
    [discriminate|].
  destruct (negb (c3 =? 93)%N); [discriminate|].
  intros H; inversion H; subst.
  apply span_forall in E1. split; [discriminate | exact E1].
Qed.

Lemma finditer_codes (s : str) :
  forall skip g1 g2 g3,
    In (g1, g2, g3) (Re.finditer skip s) ->
    g1 <> [] /\ Forall (fun c => Re.is_code c = true) g1.
Proof.
  induction s as [|c s IH]; intros skip g1 g2 g3 H; [contradiction|].
  cbn [Re.finditer] in H. destruct skip as [|k]; [|eapply IH; eauto].
  destruct (Re.match_session (c :: s)) as [[[[h1 h2] h3] len]|] eqn:M;
    [|eapply IH; eauto].
  destruct H as [H|H]; [|eapply IH; eauto].
  inversion H; subst. eapply match_session_code; eauto.
Qed.

Lemma time_of_inv (h m : Z) (tz : timezone) (t : time) :
  time_of h m tz = Ok t ->
  hour t = h /\ minute t = m /\ 0 <= h <= 23 /\ 0 <= m <= 59.
Proof.
  unfold time_of.
  destruct (_ || _); [discriminate|]. destruct (_ || _); [discriminate|].
  destruct ((h <? 0) || (23 <? h)) eqn:B1; [discriminate|].
  destruct ((m <? 0) || (59 <? m)) eqn:B2; [discriminate|].
  apply orb_false_iff in B1 as [X1 X2]. apply orb_false_iff in B2 as [X3 X4].
  apply Z.ltb_ge in X1, X2, X3, X4.
  intros H; inversion H; subst. simpl. lia.
Qed.

Lemma localize_inv (tz : option timezone) (items : list (str * raw_session)) :
  forall d,
    localize tz items = Ok d ->
    List.map fst d = List.map fst items
    /\ forall k v, In (k, v) d ->
         exists raw, In (k, raw) items
           /\ hour (start v) = raw_start raw / 60
           /\ minute (start v) = raw_start raw mod 60
           /\ hour (end_ v) = raw_end raw / 60
           /\ minute (end_ v) = raw_end raw mod 60
           /\ valid_time (start v) /\ valid_time (end_ v).
Proof.
  induction items as [|[k0 v0] items IH]; simpl; intros d H.
  - inversion H; subst. split; [reflexivity | intros k v []].
  - destruct tz as [z|]; simpl in H; [|discriminate].
    destruct (time_of (raw_start v0 / 60) (raw_start v0 mod 60) z)
      as [s|] eqn:S; simpl in H; [|discriminate].
    destruct (time_of (raw_end v0 / 60) (raw_end v0 mod 60) z)
      as [e|] eqn:E; simpl in H; [|discriminate].
    destruct (localize (Some z) items) as [r|] eqn:R; simpl in H;
      [|discriminate].
    inversion H; subst; clear H. destruct (IH _ eq_refl) as (K & A).
    split; [simpl; f_equal; exact K|].
    intros k v [Hin|Hin].
    + inversion Hin; subst. exists v0. simpl.
      destruct (time_of_inv _ _ _ _ S) as (H1 & H2 & H3 & H4).
      destruct (time_of_inv _ _ _ _ E) as (H5 & H6 & H7 & H8).
      unfold valid_time. rewrite H1, H2, H5, H6. repeat split; auto; lia.
    + destruct (A k v Hin) as (raw & X & Y). exists raw.
      split; [right; exact X | exact Y].
Qed.

(** The sessions of a decoded input come from the triples of one
    [DATA_SESSIONS] header line. *)
Lemma decoded_sessions (lines : list str) (md : Metadata.t session)
                       (df : frame) (ss : list (str * session)) :
  parse_lines lines = Ok (md, df) ->
  Metadata.sessions md = Some ss ->
  exists l items,
    In l (header_lines (skipn 1 lines))
    /\ key_of l = lit "DATA_SESSIONS"
    /\ read_sessions (Re.finditer O (value_of l)) [] = Ok items
    /\ localize (Metadata.timezone md) items = Ok ss.
Proof.
  intros P S. apply parse_lines_ok in P
    as (l0 & st & rows & prices & cols & tbl & _ & RH & LS & _).
  destruct (localize_sessions_fields _ _ LS) as (_ & _ & Z).
  unfold localize_sessions in LS.
  destruct (Metadata.sessions (metadata st)) as [items|] eqn:SS.
  - destruct (localize _ items) as [d|] eqn:L; [|discriminate].
    simpl in LS. inversion LS; subst md. simpl in *. inversion S; subst d.
    destruct (read_header_sessions _ _ _ RH) as (_ & _ & S3).
    destruct (S3 items SS) as [X|(l & Hl & Kl & Rl)]; [discriminate|].
    exists l, items. auto.
  - inversion LS; subst md. discriminate.
Qed.

(** X7: the sessions of a decoded input have pairwise distinct codes, each
    a non-empty string of upper-case letters and digits, and their start
    and end are times of day with an hour in 0..23 and a minute in 0..59. *)
Theorem decoded_sessions_well_formed
    (data : str) (md : Metadata.t session) (df : frame)
    (ss : list (str * session)) :
  parse_raw_stock data = Ok (md, df) ->
  Metadata.sessions md = Some ss ->
  NoDup (List.map fst ss)
  /\ forall k v, In (k, v) ss ->
       k <> [] /\ Forall (fun c => Re.is_code c = true) k
       /\ valid_time (start v) /\ valid_time (end_ v).
Proof.
  intros P S.
  destruct (decoded_sessions _ _ _ _ P S) as (l & items & _ & _ & R & L).
  destruct (read_sessions_inv _ _ _ R) as (N & Src).
  destruct (localize_inv _ _ _ L) as (K & A). split.
  - rewrite K. apply N. constructor.
  - intros k v Hin. destruct (A k v Hin) as (raw & X & _ & _ & _ & _ & V1 & V2).
    destruct (Src k raw X) as [[]|(g2 & g3 & M & _)].
    destruct (finditer_codes _ _ _ _ _ M) as (C1 & C2). auto.
Qed.

Lemma decoded_sessions_well_formed_witness :
  exists ss : list (str * session),
    NoDup (List.map fst ss) /\ List.map fst ss = [lit "USA"; lit "EU"].
Proof.
  eexists. split.
  - refine (proj1 (decoded_sessions_well_formed sessions_input _ _ _ _ _)).
    + vm_compute; reflexivity.
    + reflexivity.
  - reflexivity.
Defined.

(** X8: each session of a decoded input is a triple [[CODE,START,END]] of a
    [DATA_SESSIONS] header line: its code is the first group, and its start
    and end are the second and third groups read as minutes since midnight,
    both under 1440.  What does not match the pattern leaves no session. *)
Theorem decoded_sessions_from_triples
    (data : str) (md : Metadata.t session) (df : frame)
    (ss : list (str * session)) (k : str) (v : session) :
  parse_raw_stock data = Ok (md, df) ->
  Metadata.sessions md = Some ss ->
  In (k, v) ss ->
  exists l g2 g3 s e,
    In l (header_lines (skipn 1 (splitlines (strip data))))
    /\ key_of l = lit "DATA_SESSIONS"
    /\ In (k, g2, g3) (Re.finditer O (value_of l))
    /\ int g2 = Ok s /\ int g3 = Ok e
    /\ 0 <= s < 1440 /\ 0 <= e < 1440
    /\ 60 * hour (start v) + minute (start v) = s
    /\ 60 * hour (end_ v) + minute (end_ v) = e.
Proof.
  intros P S Hin.
  destruct (decoded_sessions _ _ _ _ P S) as (l & items & Hl & Kl & R & L).
  destruct (read_sessions_inv _ _ _ R) as (_ & Src).
  destruct (localize_inv _ _ _ L) as (_ & A).
  destruct (A k v Hin) as (raw & X & H1 & H2 & H3 & H4 & [V1 V2] & [V3 V4]).
  destruct (Src k raw X) as [[]|(g2 & g3 & M & I2 & I3)].
  exists l, g2, g3, (raw_start raw), (raw_end raw).
  rewrite H1, H2 in *. rewrite H3, H4 in *.
  pose proof (Z.div_mod (raw_start raw) 60 ltac:(lia)).
  pose proof (Z.div_mod (raw_end raw) 60 ltac:(lia)).
  repeat split; auto; lia.
Qed.

Lemma decoded_sessions_from_triples_witness :
  exists l g2 g3 s e,
    In l (header_lines (skipn 1 (splitlines (strip sessions_input))))
    /\ key_of l = lit "DATA_SESSIONS"
    /\ In (lit "USA", g2, g3) (Re.finditer O (value_of l))
    /\ int g2 = Ok s /\ int g3 = Ok e
    /\ 0 <= s < 1440 /\ 0 <= e < 1440
    /\ 60 * 10 + 0 = s
    /\ 60 * 15 + 0 = e.
Proof.
  refine (decoded_sessions_from_triples sessions_input _ _ _ (lit "USA")
            (mk_session (mk_time 10 0 est) (mk_time 15 0 est)) _ _ _).
  - vm_compute; reflexivity.
  - reflexivity.
  - left; reflexivity.
Defined.

End Sessions.

(** ** The order of the zone and the sessions *)

Section SessionOrder.

Lemma dict_set_has {V} (k : str) (v : V) (d : list (str * V)) :
  In k (List.map fst (dict_set k v d)).
Proof.
  induction d as [|[k0 v0] d IH]; simpl; [auto|].
  destruct (eqb k0 k); simpl; auto.
Qed.

Lemma dict_set_keeps {V} (k : str) (v : V) (d : list (str * V)) (k' : str) :
  In k' (List.map fst d) -> In k' (List.map fst (dict_set k v d)).
Proof.
  induction d as [|[k0 v0] d IH]; simpl; [intros []|].
  destruct (eqb k0 k) eqn:E; simpl.
  - apply eqb_eq in E. subst k0. intros [H|H]; auto.
  - intros [H|H]; auto.
Qed.

(** The keys of the dict of a [DATA_SESSIONS] line are the codes of its
    matches. *)
Lemma read_sessions_keys (ms : list (str * str * str)) :
  forall d d',
    read_sessions ms d = Ok d' ->
    forall k, In k (List.map fst d')
              <-> In k (List.map fst d)
                  \/ exists g2 g3, In (k, g2, g3) ms.
Proof.
  induction ms as [|[[g1 g2] g3] ms IH]; intros d d' H k; simpl in H.
  - inversion H; subst. split; [auto | intros [X|(g2 & g3 & [])]; exact X].
  - destruct (int g2) as [s|]; simpl in H; [|discriminate].
    destruct (int g3) as [e|]; simpl in H; [|discriminate].
    rewrite (IH _ _ H k). split.
    + intros [X|(h2 & h3 & X)].
      * destruct (dict_set_keys _ _ _ _ X) as [->|Y]; [|left; exact Y].
        right. exists g2, g3. left; reflexivity.
      * right. exists h2, h3. right; exact X.
    + intros [X|(h2 & h3 & [X|X])].
      * left. apply dict_set_keeps, X.
      * inversion X; subst. left. apply dict_set_has.
      * right. exists h2, h3. exact X.
Qed.

Lemma read_header_no_sessions (hs : list str) :
  no_key (lit "DATA_SESSIONS") hs ->
  forall st st',
    read_header hs st = Ok st' ->
    Metadata.sessions (metadata st') = Metadata.sessions (metadata st).
Proof.
  induction hs as [|h hs IH]; intros N st st' H; simpl in H.
  - inversion H; reflexivity.
  - apply no_key_cons in N as [N1 N2].
    destruct (header_field (key_of h) (value_of h) st) as [st1|] eqn:F;
      [|discriminate].
    simpl in H. rewrite (IH N2 _ _ H).
    apply (header_field_other_sessions _ _ _ _ N1 F).
Qed.

(** The ['sessions'] entry after the header is the dict of the last
    [DATA_SESSIONS] line. *)
Lemma read_header_last_sessions (hs1 hs2 : list str) (ls : str)
                                (st st' : locals) :
  key_of ls = lit "DATA_SESSIONS" ->
  no_key (lit "DATA_SESSIONS") hs2 ->
  read_header (hs1 ++ ls :: hs2) st = Ok st' ->
  exists d, read_sessions (Re.finditer O (value_of ls)) [] = Ok d
            /\ Metadata.sessions (metadata st') = Some d.
Proof.
  intros K N H. rewrite read_header_app in H.
  destruct (read_header hs1 st) as [st1|]; [|discriminate].
  cbn [bind read_header] in H. rewrite K in H.
  destruct (header_field (lit "DATA_SESSIONS") (value_of ls) st1)
    as [st2|] eqn:F; [|discriminate].
  cbn [bind] in H.
  destruct (header_field_sessions_inv _ _ _ F) as (d & R & S).
  exists d. split; [exact R|].
  rewrite (read_header_no_sessions _ N _ _ H). exact S.
Qed.

(** C4: two inputs that differ only in the order of the [TIMEZONE_OFFSET]
    line and the [DATA_SESSIONS] line of their header decode to the same
    result, and neither decodes when the other does not (they raise the same
    exception when the two lines are next to each other and no number of
    the sessions has more digits than [int] reads).  In a decoded input
    every entry of the [DATA_SESSIONS] line in force, the last one, gives a
    session, there is no other session, and the start and end of every
    session carry the zone read from a [TIMEZONE_OFFSET] line. *)
Theorem timezone_sessions_order
    (data1 data2 line0 : str) (pre mid post : list str)
    (tz_line ds_line : str) :
  splitlines (strip data1) = line0 :: pre ++ tz_line :: mid ++ ds_line :: post ->
  splitlines (strip data2) = line0 :: pre ++ ds_line :: mid ++ tz_line :: post ->
  forallb is_header pre = true ->
  forallb (other_header (lit "TIMEZONE_OFFSET") (lit "DATA_SESSIONS")) mid
  = true ->
  is_header tz_line = true -> key_of tz_line = lit "TIMEZONE_OFFSET" ->
  is_header ds_line = true -> key_of ds_line = lit "DATA_SESSIONS" ->
  (forall r, parse_raw_stock data1 = Ok r <-> parse_raw_stock data2 = Ok r)
  /\ (mid = [] ->
      forallb short_numbers (Re.finditer O (value_of ds_line)) = true ->
      parse_raw_stock data1 = parse_raw_stock data2)
  /\ (forall md df hs1 ls hs2,
        parse_raw_stock data1 = Ok (md, df) ->
        header_lines (skipn 1 (splitlines (strip data1))) = hs1 ++ ls :: hs2 ->
        key_of ls = lit "DATA_SESSIONS" ->
        no_key (lit "DATA_SESSIONS") hs2 ->
        exists tz l n ss,
          Metadata.timezone md = Some tz
          /\ In l (header_lines (skipn 1 (splitlines (strip data1))))
          /\ key_of l = lit "TIMEZONE_OFFSET"
          /\ int (value_of l) = Ok n
          /\ utcoffset tz = 60 * n
          /\ Metadata.sessions md = Some ss
          /\ (forall k, In k (List.map fst ss)
                        <-> exists g2 g3,
                              In (k, g2, g3) (Re.finditer O (value_of ls)))
          /\ forall k v, In (k, v) ss ->
               time_tzinfo (start v) = tz /\ time_tzinfo (end_ v) = tz).
Proof.
  intros L1 L2 Hpre Hmid Ha Ka Hb Kb.
  assert (Fpre : Forall (fun l => is_header l = true) pre)
    by (apply Forall_forall; apply forallb_forall; exact Hpre).
  destruct (other_header_forall _ _ _ Hmid) as (Fmid & Nt & Ns).
  assert (Ra : is_absolute tz_line = false)
    by (apply key_line_relative; auto).
  assert (Rb : is_absolute ds_line = false)
    by (apply key_line_relative; auto).
  assert (E1 : parse_raw_stock data1
               = (st <- (st' <- read_header pre
                                  (mk_locals (md0 line0) None None) ;;
                         read_header
                           (tz_line :: mid ++ ds_line :: header_lines post)
                           st') ;;
                  finish st (data_lines (splitlines (strip data1))))).
  { unfold parse_raw_stock. rewrite parse_lines_stages, L1.
    cbn [nth_error lookup bind skipn].
    rewrite (header_lines_swap_shape _ _ _ _ _ Fpre Fmid Ha Hb).
    rewrite read_header_app. reflexivity. }
  assert (E2 : parse_raw_stock data2
               = (st <- (st' <- read_header pre
                                  (mk_locals (md0 line0) None None) ;;
                         read_header
                           (ds_line :: mid ++ tz_line :: header_lines post)
                           st') ;;
                  finish st (data_lines (splitlines (strip data1))))).
  { unfold parse_raw_stock. rewrite parse_lines_stages, L2.
    cbn [nth_error lookup bind skipn].
    rewrite (header_lines_swap_shape _ _ _ _ _ Fpre Fmid Hb Ha).
    rewrite read_header_app. apply bind_ext. intros st. rewrite L1.
    symmetry. apply finish_swap; auto. }
  split; [|split].
  - rewrite E1, E2. apply bind_ok_iff. intros st.
    destruct (read_header pre _) as [st'|]; simpl; [|tauto].
    apply (read_header_swap _ _ _ _ _ Ka Kb Nt Ns).
  - intros M B. rewrite E1, E2. f_equal.
    apply bind_ext. intros st'.
    apply (read_header_swap _ _ _ _ _ Ka Kb Nt Ns); assumption.
  - intros md df hs1 ls hs2 P HL Kl Nl. unfold parse_raw_stock in P.
    pose proof P as P'. apply parse_lines_ok in P'
      as (l0 & st & rows & prices & cols & tbl & _ & RH & LS & _).
    rewrite HL in RH.
    destruct (read_header_last_sessions _ _ _ _ _ Kl Nl RH) as (d & R & S).
    pose proof LS as LS'. unfold localize_sessions in LS'. rewrite S in LS'.
    destruct (localize (Metadata.timezone (metadata st)) d) as [ss|] eqn:L;
      [|discriminate].
    cbn [bind] in LS'. apply Ok_inj in LS'.
    assert (SS : Metadata.sessions md = Some ss) by (rewrite <- LS'; reflexivity).
    destruct (sessions_zone _ _ _ _ P SS)
      as (tz & l & n & Z & Hl & K & I & U & A).
    exists tz, l, n, ss. repeat split; auto.
    + intros Hk. destruct (localize_inv _ _ _ L) as (E & _).
      rewrite E in Hk. apply (read_sessions_keys _ _ _ R) in Hk.
      destruct Hk as [[]|Hk]. exact Hk.
    + intros Hk. destruct (localize_inv _ _ _ L) as (E & _).
      rewrite E. apply (read_sessions_keys _ _ _ R). right. exact Hk.
    + apply (A k v H).
    + apply (A k v H).
Qed.

Lemma timezone_sessions_order_witness :
  exists md df ss,
    parse_raw_stock zone_first = Ok (md, df)
    /\ parse_raw_stock sessions_first = Ok (md, df)
    /\ Metadata.sessions md = Some ss
    /\ In (lit "USA") (List.map fst ss).
Proof.
  destruct (timezone_sessions_order
              zone_first sessions_first (lit "M")
              [lit "COLUMNS=DATE,CLOSE"] [lit "INTERVAL=60"]
              [lit "a1000,1"; lit "2,3"]
              (lit "TIMEZONE_OFFSET=60")
              (lit "DATA_SESSIONS=[USA,570,960]")
              ltac:(vm_compute; reflexivity)
              ltac:(vm_compute; reflexivity)
              ltac:(vm_compute; reflexivity)
              ltac:(vm_compute; reflexivity)
              ltac:(vm_compute; reflexivity)
              ltac:(vm_compute; reflexivity)
              ltac:(vm_compute; reflexivity)
              ltac:(vm_compute; reflexivity)) as (P1 & _ & P3).
  assert (D : exists r, parse_raw_stock zone_first = Ok r)
    by (eexists; vm_compute; reflexivity).
  destruct D as ([md df] & D).
  destruct (P3 md df
              [lit "COLUMNS=DATE,CLOSE"; lit "TIMEZONE_OFFSET=60";
               lit "INTERVAL=60"]
              (lit "DATA_SESSIONS=[USA,570,960]") [] D
              ltac:(vm_compute; reflexivity)
              ltac:(vm_compute; reflexivity)
              ltac:(intros l []))
    as (tz & l & n & ss & _ & _ & _ & _ & _ & S & C & _).
  exists md, df, ss. split; [exact D|]. split; [apply P1, D|].
  split; [exact S|]. apply C.
  exists (lit "570"), (lit "960"). vm_compute. left; reflexivity.
Defined.

End SessionOrder.

(** ** Columns and values of the table *)

Section TableValues.

Lemma data_loop_nth (md : Metadata.t session) (rows : list str) :
  forall lt prices ts,
    data_loop md lt rows = Ok prices ->
    decode_times md lt rows = Ok ts ->
    forall i line,
      nth_error rows i = Some line ->
      exists t, nth_error ts i = Some t
                /\ nth_error prices i = Some (tuple_of t line).
Proof.
  induction rows as [|l0 rest IH]; intros lt prices ts H T i line Hi.
  - destruct i; discriminate.
  - rewrite data_loop_step in H. simpl in T.
    destruct (row_time md lt (rawtime l0)) as [[t0 lt']|]; [|discriminate].
    simpl in H, T.
    destruct (data_loop md lt' rest) as [ps|] eqn:DL; [|discriminate].
    destruct (decode_times md lt' rest) as [ts'|] eqn:DT; [|discriminate].
    simpl in H. inversion H; inversion T; subst. destruct i as [|i].
    + simpl in Hi. inversion Hi; subst. exists t0. split; reflexivity.
    + simpl in Hi. apply (IH _ _ _ DL DT i line Hi).
Qed.

Lemma tuple_of_length (t : datetime) (line : str) :
  List.length (tuple_of t line) = List.length (split c_comma line).
Proof.
  unfold tuple_of. destruct (split_cons c_comma line) as (h & r & ->).
  simpl. rewrite length_map. reflexivity.
Qed.

Lemma width_le (prices : list (list cell)) (r : list cell) :
  In r prices -> (List.length r <= width prices)%nat.
Proof.
  induction prices as [|p ps IH]; [contradiction|].
  intros [-> | H]; simpl; [lia|]. specialize (IH H). lia.
Qed.

Lemma width_attained (prices : list (list cell)) :
  prices <> [] -> exists r, In r prices /\ List.length r = width prices.
Proof.
  induction prices as [|p ps IH]; [contradiction|]. intros _.
  destruct ps as [|q qs].
  - exists p. split; [left; reflexivity|]. simpl. lia.
  - destruct IH as (r & Hr & Lr); [discriminate|].
    destruct (Nat.le_ge_cases (List.length p) (width (q :: qs))) as [C|C].
    + exists r. split; [right; exact Hr|].
      change (width (p :: q :: qs))
        with (Nat.max (List.length p) (width (q :: qs))). lia.
    + exists p. split; [left; reflexivity|].
      change (width (p :: q :: qs))
        with (Nat.max (List.length p) (width (q :: qs))). lia.
Qed.

Lemma pad_length (k : nat) (r : list cell) :
  (List.length r <= k)%nat -> List.length (pad k r) = k.
Proof.
  intros H. unfold pad. rewrite length_app, repeat_length. lia.
Qed.

Lemma beside_length (key : str) (labels : list str) (r : list cell) :
  List.length r = List.length labels ->
  List.length (beside key labels r)
  = List.length (List.filter (fun l => negb (eqb l key)) labels).
Proof.
  revert r; induction labels as [|l ls IH]; intros [|c r] H;
    try discriminate; [reflexivity|].
  injection H as H. specialize (IH r H). unfold beside in *.
  cbn [combine List.filter fst]. destruct (eqb l key); cbn [negb].
  - exact IH.
  - cbn [List.map List.length]. f_equal. exact IH.
Qed.

Lemma under_absent (key : str) (labels : list str) (r : list cell) :
  ~ In key labels -> under key labels r = [].
Proof.
  revert r; induction labels as [|l ls IH]; intros r N; [reflexivity|].
  destruct r as [|c r]; [reflexivity|]. unfold under in *.
  cbn [combine List.filter fst].
  destruct (eqb l key) eqn:E.
  - apply eqb_eq in E. exfalso. apply N. left. exact E.
  - apply IH. intros H. apply N. right. exact H.
Qed.

Lemma beside_absent (key : str) (labels : list str) (r : list cell) :
  ~ In key labels -> List.length r = List.length labels ->
  beside key labels r = r.
Proof.
  revert r; induction labels as [|l ls IH]; intros [|c r] N H;
    try discriminate; [reflexivity|].
  injection H as H. unfold beside in *. cbn [combine List.filter fst].
  destruct (eqb l key) eqn:E.
  - apply eqb_eq in E. exfalso. apply N. left. exact E.
  - cbn [negb List.map snd]. f_equal. apply IH; [|exact H].
    intros X. apply N. right. exact X.
Qed.

Lemma header_field_columns_cases (k v : str) (st st' : locals) :
  header_field k v st = Ok st' ->
  (k = lit "COLUMNS" /\ columns st' = Some (split c_comma (strip v)))
  \/ (k <> lit "COLUMNS" /\ columns st' = columns st).
Proof.
  intros F. destruct (eqb k (lit "COLUMNS")) eqn:K.
  - apply eqb_eq in K. subst k. left. split; [reflexivity|].
    unfold header_field in F.
    change (eqb (lit "COLUMNS") (lit "INTERVAL")) with false in F.
    change (eqb (lit "COLUMNS") (lit "COLUMNS")) with true in F.
    cbv iota in F. inversion F; reflexivity.
  - apply eqb_neq in K. right. split; [exact K|].
    eapply header_field_other_columns; eauto.
Qed.

Lemma read_header_columns_source (hs : list str) :
  forall st st' cols,
    read_header hs st = Ok st' ->
    columns st' = Some cols ->
    columns st = Some cols
    \/ exists l, In l hs /\ key_of l = lit "COLUMNS"
                 /\ cols = split c_comma (strip (value_of l)).
Proof.
  induction hs as [|h hs IH]; intros st st' cols H C.
  - simpl in H. inversion H; subst. left; exact C.
  - simpl in H.
    destruct (header_field (key_of h) (value_of h) st) as [st1|] eqn:F;
      [|discriminate].
    simpl in H. destruct (IH _ _ _ H C) as [C1|(l & Hl & Kl & El)].
    + destruct (header_field_columns_cases _ _ _ _ F) as [(K & E)|(K & E)].
      * right. exists h. rewrite E in C1. inversion C1; subst.
        split; [left; reflexivity | auto].
      * left. rewrite <- E. exact C1.
    + right. exists l. split; [right; exact Hl | auto].
Qed.

(** The table of a decoded input, cell by cell. *)
Lemma decoded_table (lines : list str) (md : Metadata.t session) (df : frame)
                    (rows : list str) :
  parse_lines lines = Ok (md, df) ->
  data_lines lines = Some rows ->
  exists l cols prices ts,
    In l (header_lines (skipn 1 lines))
    /\ key_of l = lit "COLUMNS"
    /\ cols = split c_comma (strip (value_of l))
    /\ In (lit "DATE") cols
    /\ index_name df = lit "DATE"
    /\ Pandas.columns df
       = List.filter (fun c => negb (eqb c (lit "DATE"))) cols
    /\ data_loop md None rows = Ok prices
    /\ decode_times md None rows = Ok ts
    /\ List.length cols = width prices
    /\ index df
       = List.map (fun r => index_entry (under (lit "DATE") cols r))
                  (List.map (pad (List.length cols)) prices)
    /\ values df
       = List.map (beside (lit "DATE") cols)
                  (List.map (pad (List.length cols)) prices).
Proof.
  intros P D. apply parse_lines_ok in P
    as (l0 & st & rows' & prices & cols & tbl & _ & RH & _ & D' & DL & C
        & DF & SI).
  rewrite D in D'. inversion D'; subst rows'.
  destruct (read_header_columns_source _ _ _ _ RH C)
    as [X|(l & Hl & Kl & El)]; [discriminate|].
  destruct (DataFrame_inv _ _ _ DF) as (LB & R & W).
  destruct (set_index_inv _ _ _ SI) as (PS & N & I & CL & V).
  destruct (data_loop_times _ _ _ _ DL) as (ts & T & _).
  assert (NE : prices <> []).
  { destruct (data_lines_cons _ _ D) as (x & r & ->).
    apply data_loop_length in DL. destruct prices; [discriminate|].
    discriminate. }
  assert (HD : In (lit "DATE") cols).
  { rewrite LB in PS. apply existsb_exists in PS as (c & Hc & E).
    apply eqb_eq in E. subst c. exact Hc. }
  exists l, cols, prices, ts.
  rewrite LB in *. rewrite R in *. rewrite (W NE).
  repeat split; auto.
Qed.

(** X9: the table of a decoded input is indexed by [DATE]; its columns are
    the names of a [COLUMNS] header line, in order, with [DATE] taken out
    (it is among them, once or more); the table has one row for each data
    line and every row has one value for each column.  No data line has
    more comma-separated fields than there are names, and at least one has
    exactly as many; a shorter line is not refused. *)
Theorem decoded_table_shape
    (data : str) (md : Metadata.t session) (df : frame) (rows : list str) :
  parse_raw_stock data = Ok (md, df) ->
  data_lines (splitlines (strip data)) = Some rows ->
  exists l cols,
    In l (header_lines (skipn 1 (splitlines (strip data))))
    /\ key_of l = lit "COLUMNS"
    /\ cols = split c_comma (strip (value_of l))
    /\ In (lit "DATE") cols
    /\ index_name df = lit "DATE"
    /\ Pandas.columns df
       = List.filter (fun c => negb (eqb c (lit "DATE"))) cols
    /\ List.length (values df) = List.length rows
    /\ Forall (fun r => List.length r = List.length (Pandas.columns df))
              (values df)
    /\ Forall (fun line =>
                 (List.length (split c_comma line) <= List.length cols)%nat)
              rows
    /\ Exists (fun line =>
                 List.length (split c_comma line) = List.length cols) rows.
Proof.
  intros P D. unfold parse_raw_stock in P.
  destruct (decoded_table _ _ _ _ P D)
    as (l & cols & prices & ts & Hl & Kl & El & HD & N & CL & DL & T
        & W & I & V).
  pose proof (parse_lines_rows _ _ _ _ P D) as (_ & LV).
  assert (PR : forall i line, nth_error rows i = Some line ->
                 exists t, nth_error prices i = Some (tuple_of t line)).
  { intros i line Hi.
    destruct (data_loop_nth _ _ _ _ _ DL T i line Hi) as (t & _ & X).
    eauto. }
  exists l, cols. repeat split; auto.
  - rewrite V, CL. apply Forall_forall. intros r Hr.
    apply in_map_iff in Hr as (r1 & <- & Hr1).
    apply in_map_iff in Hr1 as (r0 & <- & Hr0).
    apply beside_length, pad_length. rewrite W. apply width_le, Hr0.
  - apply Forall_forall. intros line Hin.
    apply In_nth_error in Hin as (i & Hi).
    destruct (PR i line Hi) as (t & X).
    apply nth_error_In in X. apply width_le in X.
    rewrite tuple_of_length in X. lia.
  - assert (NE : prices <> []).
    { destruct (data_lines_cons _ _ D) as (x & r & ->).
      apply data_loop_length in DL. destruct prices; discriminate. }
    destruct (width_attained prices NE) as (r & Hr & Lr).
    apply In_nth_error in Hr as (i & Hi).
    assert (IL : (i < List.length rows)%nat).
    { apply data_loop_length in DL. rewrite <- DL.
      apply nth_error_Some. congruence. }
    destruct (nth_error rows i) as [line|] eqn:Ri;
      [|apply nth_error_None in Ri; lia].
    destruct (PR i line Ri) as (t & X). rewrite Hi in X.
    inversion X; subst r. apply Exists_exists. exists line.
    split; [eapply nth_error_In; eauto|].
    rewrite tuple_of_length in Lr. lia.
Qed.

Lemma decoded_table_shape_witness :
  exists l cols,
    In l (header_lines (skipn 1 (splitlines (strip ragged_input))))
    /\ key_of l = lit "COLUMNS"
    /\ cols = split c_comma (strip (value_of l))
    /\ In (lit "DATE") cols
    /\ lit "DATE" = lit "DATE"
    /\ [lit "CLOSE"; lit "VOLUME"]
       = List.filter (fun c => negb (eqb c (lit "DATE"))) cols
    /\ 2%nat = List.length [lit "a1000,x,7"; lit "1"]
    /\ Forall (fun r => List.length r
                        = List.length [lit "CLOSE"; lit "VOLUME"])
              [[CTime (mk_datetime 1000 (mk_timezone 0)); CStr (lit "7")];
               [CTime (mk_datetime 1060 (mk_timezone 0)); CNone]]
    /\ Forall (fun line =>
                 (List.length (split c_comma line) <= List.length cols)%nat)
              [lit "a1000,x,7"; lit "1"]
    /\ Exists (fun line =>
                 List.length (split c_comma line) = List.length cols)
              [lit "a1000,x,7"; lit "1"].
Proof.
  apply (decoded_table_shape ragged_input
           (Metadata.mk (lit "M") (Some 60) None (Some (mk_timezone 0)))
           (mk_frame (lit "DATE") [CStr (lit "x"); CNone]
              [lit "CLOSE"; lit "VOLUME"]
              [[CTime (mk_datetime 1000 (mk_timezone 0)); CStr (lit "7")];
               [CTime (mk_datetime 1060 (mk_timezone 0)); CNone]])
           [lit "a1000,x,7"; lit "1"]);
    vm_compute; reflexivity.
Defined.

(** X10: the values of a data line pass through to its row as the strings
    they are.  The row of a decoded input is the tuple of the line, its
    timestamp first and then its fields after the time token, filled with
    [None] up to the number of names of the [COLUMNS] line; the cell under
    [DATE] is the index entry of the row (the tuple of the cells under
    [DATE] when the name is given more than once) and the other cells are
    its values, in order.  When [DATE] is the first name and is given once,
    the index entry is the timestamp and the values are the fields. *)
Theorem values_pass_through
    (data : str) (md : Metadata.t session) (df : frame) (rows : list str)
    (i : nat) (line : str) :
  parse_raw_stock data = Ok (md, df) ->
  data_lines (splitlines (strip data)) = Some rows ->
  nth_error rows i = Some line ->
  exists l cols t,
    In l (header_lines (skipn 1 (splitlines (strip data))))
    /\ key_of l = lit "COLUMNS"
    /\ cols = split c_comma (strip (value_of l))
    /\ nth_error (timestamps df) i = Some (Some t)
    /\ nth_error (index df) i
       = Some (index_entry
                 (under (lit "DATE") cols
                        (pad (List.length cols) (tuple_of t line))))
    /\ nth_error (values df) i
       = Some (beside (lit "DATE") cols
                      (pad (List.length cols) (tuple_of t line)))
    /\ (forall others,
          cols = lit "DATE" :: others -> ~ In (lit "DATE") others ->
          nth_error (index df) i = Some (CTime t)
          /\ nth_error (values df) i
             = Some (pad (List.length others)
                         (List.map CStr (tl (split c_comma line))))).
Proof.
  intros P D Hi. unfold parse_raw_stock in P.
  destruct (decoded_table _ _ _ _ P D)
    as (l & cols & prices & ts & Hl & Kl & El & HD & N & CL & DL & T
        & W & I & V).
  destruct (parse_lines_timestamps _ _ _ P) as (rows' & ts' & D' & T' & E).
  rewrite D in D'. inversion D'; subst rows'.
  rewrite T in T'. inversion T'; subst ts'.
  destruct (data_loop_nth _ _ _ _ _ DL T i line Hi) as (t & Nt & Np).
  assert (IX : nth_error (index df) i
               = Some (index_entry
                         (under (lit "DATE") cols
                                (pad (List.length cols) (tuple_of t line))))).
  { rewrite I, !nth_error_map, Np. reflexivity. }
  assert (VL : nth_error (values df) i
               = Some (beside (lit "DATE") cols
                              (pad (List.length cols) (tuple_of t line)))).
  { rewrite V, !nth_error_map, Np. reflexivity. }
  exists l, cols, t. repeat split; auto.
  - rewrite E, nth_error_map, Nt. reflexivity.
  - rewrite IX. rewrite H. unfold tuple_of, pad, under.
    cbn [app combine List.filter fst]. rewrite eqb_refl. cbn [List.map snd].
    fold (under (lit "DATE") others
            (List.map CStr (tl (split c_comma line))
             ++ repeat CNone
                  (List.length (lit "DATE" :: others)
                   - List.length
                       (CTime t
                        :: List.map CStr (tl (split c_comma line)))))).
    rewrite (under_absent _ _ _ H0). reflexivity.
  - rewrite VL. rewrite H. f_equal.
    assert (L : (List.length (tuple_of t line) <= List.length cols)%nat).
    { rewrite W. apply width_le. eapply nth_error_In; eauto. }
    rewrite H in L. unfold tuple_of in *. unfold pad, beside.
    cbn [app combine List.filter fst List.length] in *.
    rewrite eqb_refl. cbn [negb].
    fold (beside (lit "DATE") others
            (List.map CStr (tl (split c_comma line))
             ++ repeat CNone
                  (S (List.length others)
                   - S (List.length
                          (List.map CStr (tl (split c_comma line))))))).
    apply beside_absent; [exact H0|].
    rewrite length_app, repeat_length. lia.
Qed.

Lemma values_pass_through_witness :
  exists l cols t,
    In l (header_lines (skipn 1 (splitlines (strip twin_input))))
    /\ key_of l = lit "COLUMNS"
    /\ cols = split c_comma (strip (value_of l))
    /\ nth_error [Some (mk_datetime 1000 (mk_timezone 0))] 0 = Some (Some t)
    /\ nth_error [CTuple [CTime (mk_datetime 1000 (mk_timezone 0));
                          CStr (lit "2")]] 0
       = Some (index_entry
                 (under (lit "DATE") cols
                        (pad (List.length cols)
                             (tuple_of t (lit "a1000,1,2")))))
    /\ nth_error [[CStr (lit "1")]] 0
       = Some (beside (lit "DATE") cols
                      (pad (List.length cols) (tuple_of t (lit "a1000,1,2"))))
    /\ (forall others,
          cols = lit "DATE" :: others -> ~ In (lit "DATE") others ->
          nth_error [CTuple [CTime (mk_datetime 1000 (mk_timezone 0));
                             CStr (lit "2")]] 0 = Some (CTime t)
          /\ nth_error [[CStr (lit "1")]] 0
             = Some (pad (List.length others)
                         (List.map CStr (tl (split c_comma
                                                   (lit "a1000,1,2")))))).
Proof.
  apply (values_pass_through twin_input
           (Metadata.mk (lit "M") None None (Some (mk_timezone 0)))
           (mk_frame (lit "DATE")
              [CTuple [CTime (mk_datetime 1000 (mk_timezone 0));
                       CStr (lit "2")]]
              [lit "CLOSE"] [[CStr (lit "1")]])
           [lit "a1000,1,2"] 0%nat (lit "a1000,1,2"));
    vm_compute; reflexivity.
Defined.

End TableValues.

(** ** Line endings *)

Section LineEndings.

Lemma crlf_app (a b : str) : crlf (a ++ b) = crlf a ++ crlf b.
Proof.
  induction a as [|c a IH]; simpl; [reflexivity|].
  destruct (c =? 10)%N; simpl; rewrite IH; reflexivity.
Qed.

Lemma crlf_nil (s : str) : crlf s = [] -> s = [].
Proof.
  destruct s as [|c s]; [reflexivity|]. simpl.
  destruct (c =? 10)%N; discriminate.
Qed.

Lemma crlf_spaces (s : str) :
  forallb is_space s = true -> forallb is_space (crlf s) = true.
Proof.
  induction s as [|c s IH]; simpl; [reflexivity|]. intros H.
  apply andb_true_iff in H as [H1 H2].
  destruct (c =? 10)%N; simpl; rewrite ?H1, (IH H2); reflexivity.
Qed.

Lemma lstrip_crlf (s : str) : lstrip (crlf s) = crlf (lstrip s).
Proof.
  induction s as [|c s IH]; [reflexivity|]. simpl.
  destruct (N.eqb_spec c 10) as [->|N].
  - simpl. exact IH.
  - simpl. destruct (is_space c) eqn:S; [exact IH|].
    simpl. apply N.eqb_neq in N. rewrite N. reflexivity.
Qed.

(** What [rstrip] keeps: everything up to the last character that is not
    whitespace. *)
Lemma rstrip_spec (s : str) :
  (forallb is_space s = true /\ rstrip s = [])
  \/ exists a c ws, s = a ++ c :: ws /\ is_space c = false
                    /\ forallb is_space ws = true /\ rstrip s = a ++ [c].
Proof.
  unfold rstrip. destruct (lstrip (rev s)) as [|c r] eqn:E.
  - left. split; [|reflexivity].
    apply lstrip_nil_spaces in E. rewrite forallb_rev in E. exact E.
  - right. destruct (lstrip_suffix (rev s)) as (sp & D). rewrite E in D.
    assert (SP : forallb is_space sp = true).
    { clear - D E. revert sp D E. generalize (rev s) as l.
      induction l as [|x l IH]; intros sp D E; [discriminate|].
      simpl in E. destruct (is_space x) eqn:X.
      - destruct sp as [|y sp].
        + exfalso. simpl in D. apply (f_equal (@List.length _)) in D.
          assert (L : (List.length (lstrip l) <= List.length l)%nat).
          { clear. induction l as [|d l IH]; simpl; [lia|].
            destruct (is_space d); simpl; lia. }
          rewrite E in L. simpl in *. lia.
        + simpl in D. inversion D; subst y. simpl. rewrite X.
          apply (IH sp); assumption.
      - destruct sp as [|y sp]; [reflexivity|].
        exfalso. inversion E; subst. apply (f_equal (@List.length _)) in D.
        simpl in D. rewrite length_app in D. simpl in D. lia. }
    assert (C : is_space c = false).
    { clear - E. revert E. generalize (rev s) as l.
      induction l as [|x l IH]; simpl; [discriminate|].
      destruct (is_space x) eqn:X; [exact IH|].
      intros E; inversion E; subst. exact X. }
    exists (rev r), c, (rev sp).
    apply (f_equal (@rev _)) in D.
    rewrite rev_involutive, rev_app_distr in D. simpl in D.
    rewrite <- app_assoc in D. simpl in D.
    repeat split; auto. rewrite forallb_rev. exact SP.
Qed.

Lemma rstrip_kept (a : str) (c : char) (ws : str) :
  is_space c = false -> forallb is_space ws = true ->
  rstrip (a ++ c :: ws) = a ++ [c].
Proof.
  intros C W. unfold rstrip. rewrite rev_app_distr. simpl.
  rewrite <- app_assoc. rewrite lstrip_spaces by (rewrite forallb_rev; exact W).
  simpl. rewrite C. simpl. rewrite rev_involutive. reflexivity.
Qed.

Lemma rstrip_crlf (s : str) : rstrip (crlf s) = crlf (rstrip s).
Proof.
  destruct (rstrip_spec s) as [(A & R)|(a & c & ws & -> & C & W & R)].
  - rewrite R. simpl. apply crlf_spaces in A.
    unfold rstrip. rewrite lstrip_all_spaces; [reflexivity|].
    rewrite forallb_rev. exact A.
  - rewrite R, !crlf_app.
    assert (N : (c =? 10)%N = false).
    { destruct (N.eqb_spec c 10) as [->|]; [discriminate | reflexivity]. }
    simpl. rewrite N. apply rstrip_kept; [exact C | apply crlf_spaces, W].
Qed.

Lemma splitlines_crlf (s : str) :
  forallb (fun c => negb (c =? 13)%N) s = true ->
  splitlines (crlf s) = splitlines s.
Proof.
  induction s as [|c s IH]; [reflexivity|]. cbn [forallb]. intros H.
  apply andb_true_iff in H as [H1 H2]. apply negb_true_iff in H1.
  specialize (IH H2). cbn [crlf].
  destruct (N.eqb_spec c 10) as [->|N].
  - cbn [splitlines]. change (is_linebreak 13%N) with true.
    change (is_linebreak 10%N) with true. cbv iota.
    change ((13 =? 13)%N && (10 =? 10)%N) with true. cbv iota.
    rewrite IH. destruct s as [|c' s']; [reflexivity|].
    change ((10 =? 13)%N) with false. reflexivity.
  - cbn [splitlines]. rewrite H1. cbn [andb]. rewrite IH.
    destruct (is_linebreak c); [|reflexivity].
    destruct s as [|c' s']; [reflexivity|].
    cbn [crlf]. destruct (c' =? 10)%N; reflexivity.
Qed.

Lemma strip_keeps (P : char -> bool) (s : str) :
  forallb P s = true -> forallb P (strip s) = true.
Proof.
  intros H. apply forallb_forall. intros c Hc.
  assert (F : Forall (fun c => P c = true) (strip s)).
  { apply strip_forall. apply Forall_forall. apply forallb_forall. exact H. }
  rewrite Forall_forall in F. apply F, Hc.
Qed.

(** X18: an input written with CR LF line endings decodes as the same input
    written with LF. *)
Theorem crlf_input_decodes_alike (data : str) :
  forallb (fun c => negb (c =? 13)%N) data = true ->
  parse_raw_stock (crlf data) = parse_raw_stock data.
Proof.
  intros H. unfold parse_raw_stock, strip.
  rewrite lstrip_crlf, rstrip_crlf. fold (strip data).
  rewrite splitlines_crlf; [reflexivity|]. apply strip_keeps, H.
Qed.

Lemma crlf_input_decodes_alike_witness :
  parse_raw_stock (crlf example_input) = parse_raw_stock example_input.
Proof.
  apply crlf_input_decodes_alike. vm_compute; reflexivity.
Defined.

End LineEndings.

(** ** Printing the metadata *)

Section Printing.

Lemma and_then_none (a b : printed) :
  snd a = None -> and_then a b = (fst a ++ fst b, snd b).
Proof. unfold and_then. intros ->. reflexivity. Qed.

Lemma first_error_app (a b : list (list item)) :
  first_error (a ++ b)
  = match first_error a with
    | Some e => Some e
    | None => first_error b
    end.
Proof.
  induction a as [|xs a IH]; [reflexivity|]. simpl.
  destruct (seq_error xs); [reflexivity | exact IH].
Qed.



Lemma is_prefix_app (p s : str) : is_prefix p (p ++ s) = true.
Proof.
  induction p as [|x p IH]; [reflexivity|]. simpl.
  rewrite N.eqb_refl, IH. reflexivity.
Qed.

Lemma is_prefix_trans (p q s : str) :
  is_prefix p q = true -> is_prefix q s = true -> is_prefix p s = true.
Proof.
  revert q s; induction p as [|x p IH]; intros q s H1 H2; [reflexivity|].
  destruct q as [|y q]; [discriminate|]. destruct s as [|z s]; [discriminate|].
  simpl in *. apply andb_true_iff in H1 as [A1 B1].
  apply andb_true_iff in H2 as [A2 B2].
  apply N.eqb_eq in A1, A2. subst. rewrite N.eqb_refl. simpl.
  eapply IH; eauto.
Qed.

Lemma is_prefix_spaces (p : str) (n : nat) (s : str) :
  forallb (N.eqb 32) p = true -> (List.length p <= n)%nat ->
  is_prefix p (spaces n ++ s) = true.
Proof.
  revert n; induction p as [|x p IH]; intros n H L; [reflexivity|].
  cbn [forallb] in H. apply andb_true_iff in H as [H1 H2].
  apply N.eqb_eq in H1. subst x.
  destruct n as [|n]; [cbn [List.length] in L; lia|].
  change (spaces (S n) ++ s) with (32%N :: (spaces n ++ s)).
  cbn [is_prefix]. rewrite N.eqb_refl. cbn [andb]. apply IH; [exact H2|].
  cbn [List.length] in L. lia.
Qed.



End Printing.
